(** * wallet-cli: a shallow embedding of [index.js]

    The program is a command-line wallet written against [@solana/web3.js],
    [commander] and Node's [fs].  Every function of [index.js] is embedded
    below as a computation in a small monad that threads the state of the
    outside world (the file system, the RPC endpoint, the entropy source) and
    records the observable events (RPC calls, timer delays, console lines,
    file writes, and what [sendSol] does to its transaction object).  A
    computation ends by returning, by throwing a JavaScript error, or by
    [process.exit].

    Numbers are modelled as follows.
    - Amounts and balances are JavaScript numbers: IEEE 754 binary64, the
      kernel's primitive floats.
    - [retryCount] and [maxRetries] are counts ([nat]).  The delay
      [Math.pow(2, retryCount) * 1000] is the integer [2 ^ retryCount * 1000];
      binary64 represents it exactly for every [retryCount] up to 1014.  A
      delay event records the value handed to [setTimeout].
    - The numbers of a keypair file are unsigned integers ([N]).

    The library [@solana/web3.js] is a parameter of the development: the
    state of the RPC endpoint and the answers of the [Connection] methods,
    the key generation and the encodings are whatever an instance of [Web3]
    says.  Node's [path.join] is a parameter too.  The file system is a
    finite map from paths to contents; a write always succeeds. *)

From Stdlib Require Import PrimFloat ZArith String Ascii Strings.Byte Lia.
From Stdlib Require FloatAxioms FloatOps SpecFloat.
From stdpp Require Import base gmap strings list pretty.

Local Open Scope string_scope.
Local Open Scope Z_scope.
Local Open Scope list_scope.

(** ** JavaScript values *)

(** An [Error] object; the program only ever reads its [message]. *)
Record JsError := mkError { message : string }.

(** The result of a call into a library: a value, or a thrown error
    (a rejected promise, for the asynchronous calls). *)
Inductive Result (A : Type) : Type :=
| Ok (a : A)
| Err (e : JsError).
Arguments Ok {A} a.
Arguments Err {A} e.

(** [s.includes(needle)] *)
Fixpoint includes (needle s : string) : bool :=
  String.prefix needle s ||
  match s with
  | EmptyString => false
  | String _ s' => includes needle s'
  end.

(** Truthiness of a number: [0], [-0] and [NaN] are falsy. *)
Definition truthy (x : float) : bool :=
  negb (PrimFloat.eqb x 0%float) && negb (PrimFloat.is_nan x).

(** [!x] for [x] either [undefined] or a number. *)
Definition js_not (x : option float) : bool :=
  match x with
  | None => true
  | Some v => negb (truthy v)
  end.

(** [isNaN(x)] for [x] either [undefined] or a number:
    [Number(undefined)] is [NaN]. *)
Definition js_isNaN (x : option float) : bool :=
  match x with
  | None => true
  | Some v => PrimFloat.is_nan v
  end.

(** [!s] for [s] either [undefined] or a string: the empty string is falsy. *)
Definition js_not_str (s : option string) : bool :=
  match s with
  | None => true
  | Some EmptyString => true
  | Some _ => false
  end.

(** ** JSON

    The keypair file holds the JSON text of an object
    [{publicKey: string, secretKey: array of integers}].  [JSON.stringify] is
    modelled on the values the program gives it, and [JSON.parse] on a
    fragment of JSON that contains them: objects, arrays, strings without
    escape sequences and unsigned integer literals up to [2 ^ 53 - 1], with
    insignificant white space.  [JSON_parse] answers [None] on every text outside this fragment. *)

#[warnings="-register-all"] Inductive Json : Type :=
| JNum (n : N)
| JStr (s : string)
| JArr (elements : list Json)
| JObj (members : list (string * Json)).

Definition dquote : ascii := "034"%char.
Definition backslash : ascii := "092"%char.

Definition hex_digit (n : N) : ascii :=
  ascii_of_N (if (n <? 10)%N then 48 + n else 87 + n).

(** [QuoteJSONString], one character at a time. *)
Definition escape_char (c : ascii) : string :=
  let n := N_of_ascii c in
  if Ascii.eqb c dquote then String backslash (String dquote "")
  else if Ascii.eqb c backslash then String backslash (String backslash "")
  else if (n =? 8)%N then String backslash "b"
  else if (n =? 9)%N then String backslash "t"
  else if (n =? 10)%N then String backslash "n"
  else if (n =? 12)%N then String backslash "f"
  else if (n =? 13)%N then String backslash "r"
  else if (n <? 32)%N then
    String backslash
      (String "u" (String "0" (String "0"
         (String (hex_digit (n / 16)) (String (hex_digit (n mod 16)) "")))))
  else String c "".

Fixpoint escape (s : string) : string :=
  match s with
  | EmptyString => ""
  | String c s' => escape_char c +:+ escape s'
  end.

Definition quote (s : string) : string :=
  String dquote (escape s +:+ String dquote "").

Fixpoint join (sep : string) (l : list string) : string :=
  match l with
  | [] => ""
  | [x] => x
  | x :: l' => x +:+ sep +:+ join sep l'
  end.

(** [JSON.stringify(value)], without indentation. *)
Fixpoint JSON_stringify (value : Json) : string :=
  match value with
  | JNum n => pretty n
  | JStr s => quote s
  | JArr elements => "[" +:+ join "," (map JSON_stringify elements) +:+ "]"
  | JObj members =>
      "{" +:+
      join "," (map (fun m => quote (fst m) +:+ ":" +:+ JSON_stringify (snd m))
                    members)
      +:+ "}"
  end.

Definition is_ws (c : ascii) : bool :=
  let n := N_of_ascii c in
  (n =? 32)%N || (n =? 9)%N || (n =? 10)%N || (n =? 13)%N.

Fixpoint skip_ws (s : string) : string :=
  match s with
  | String c s' => if is_ws c then skip_ws s' else s
  | EmptyString => s
  end.

Definition digit_of (c : ascii) : option N :=
  let n := N_of_ascii c in
  if (48 <=? n)%N && (n <=? 57)%N then Some (n - 48)%N else None.

Fixpoint parse_digits (acc : N) (s : string) : N * string :=
  match s with
  | String c s' =>
      match digit_of c with
      | Some d => parse_digits (10 * acc + d)%N s'
      | None => (acc, s)
      end
  | EmptyString => (acc, s)
  end.

(** Does the text go on with a digit, a fraction or an exponent? *)
Definition number_goes_on (s : string) : bool :=
  match s with
  | String c _ =>
      match digit_of c with
      | Some _ => true
      | None => Ascii.eqb c "." || Ascii.eqb c "e" || Ascii.eqb c "E"
      end
  | EmptyString => false
  end.

(** The integers up to [max_safe_integer] are JavaScript numbers as they
    are. *)
Definition max_safe_integer : N := 9007199254740991.

(** An unsigned integer literal: no sign, no leading zero, no fraction, no
    exponent, and no more than [max_safe_integer]. *)
Definition parse_number (s : string) : option (N * string) :=
  match s with
  | String c s' =>
      match digit_of c with
      | Some d =>
          let '(n, rest) := if (d =? 0)%N then (0%N, s') else parse_digits d s' in
          if number_goes_on rest || (max_safe_integer <? n)%N then None
          else Some (n, rest)
      | None => None
      end
  | EmptyString => None
  end.

(** The characters of a string literal after its opening quote, up to the
    closing quote; an escape sequence or a control character is outside the
    fragment. *)
Fixpoint parse_string (s : string) : option (string * string) :=
  match s with
  | String c s' =>
      if Ascii.eqb c dquote then Some ("", s')
      else if Ascii.eqb c backslash then None
      else if (N_of_ascii c <? 32)%N then None
      else match parse_string s' with
           | Some (str, rest) => Some (String c str, rest)
           | None => None
           end
  | EmptyString => None
  end.

(** Recursive descent; [fuel] bounds the nesting and the number of elements.
    A text that would need more is left outside the fragment. *)
Fixpoint parse_value (fuel : nat) (s : string) : option (Json * string) :=
  match fuel with
  | O => None
  | S fuel' =>
      match skip_ws s with
      | String c s' =>
          if Ascii.eqb c dquote then
            match parse_string s' with
            | Some (str, rest) => Some (JStr str, rest)
            | None => None
            end
          else if Ascii.eqb c "[" then
            match skip_ws s' with
            | String c' rest' =>
                if Ascii.eqb c' "]" then Some (JArr [], rest')
                else match parse_elements fuel' s' with
                     | Some (elements, rest) => Some (JArr elements, rest)
                     | None => None
                     end
            | EmptyString => None
            end
          else if Ascii.eqb c "{" then
            match skip_ws s' with
            | String c' rest' =>
                if Ascii.eqb c' "}" then Some (JObj [], rest')
                else match parse_members fuel' s' with
                     | Some (members, rest) => Some (JObj members, rest)
                     | None => None
                     end
            | EmptyString => None
            end
          else
            match parse_number (String c s') with
            | Some (n, rest) => Some (JNum n, rest)
            | None => None
            end
      | EmptyString => None
      end
  end
with parse_elements (fuel : nat) (s : string) : option (list Json * string) :=
  match fuel with
  | O => None
  | S fuel' =>
      match parse_value fuel' s with
      | Some (element, rest) =>
          match skip_ws rest with
          | String c rest' =>
              if Ascii.eqb c "]" then Some ([element], rest')
              else if Ascii.eqb c "," then
                match parse_elements fuel' rest' with
                | Some (elements, rest2) => Some (element :: elements, rest2)
                | None => None
                end
              else None
          | EmptyString => None
          end
      | None => None
      end
  end
with parse_members (fuel : nat) (s : string)
    : option (list (string * Json) * string) :=
  match fuel with
  | O => None
  | S fuel' =>
      match skip_ws s with
      | String c s' =>
          if Ascii.eqb c dquote then
            match parse_string s' with
            | Some (key, rest) =>
                match skip_ws rest with
                | String c' rest' =>
                    if Ascii.eqb c' ":" then
                      match parse_value fuel' rest' with
                      | Some (value, rest2) =>
                          match skip_ws rest2 with
                          | String c2 rest3 =>
                              if Ascii.eqb c2 "}" then Some ([(key, value)], rest3)
                              else if Ascii.eqb c2 "," then
                                match parse_members fuel' rest3 with
                                | Some (members, rest4) =>
                                    Some ((key, value) :: members, rest4)
                                | None => None
                                end
                              else None
                          | EmptyString => None
                          end
                      | None => None
                      end
                    else None
                | EmptyString => None
                end
            | None => None
            end
          else None
      | EmptyString => None
      end
  end.

(** [JSON.parse(text)] on the fragment: the whole text is one value. *)
Definition JSON_parse (text : string) : option Json :=
  match parse_value (S (String.length text)) text with
  | Some (value, rest) =>
      match skip_ws rest with
      | EmptyString => Some value
      | String _ _ => None
      end
  | None => None
  end.

(** [value[key]] for a parsed object: the last member of that name. *)
Fixpoint get_member (key : string) (members : list (string * Json))
    : option Json :=
  match members with
  | [] => None
  | (k, v) :: members' =>
      match get_member key members' with
      | Some v' => Some v'
      | None => if String.eqb k key then Some v else None
      end
  end.

(** [ToUint8] of an unsigned integer. *)
Definition to_uint8 (n : N) : byte :=
  match Byte.of_N (n mod 256) with
  | Some b => b
  | None => x00
  end.

(** The elements of an array when all of them are unsigned integers. *)
Fixpoint numbers_of (elements : list Json) : option (list N) :=
  match elements with
  | [] => Some []
  | JNum n :: elements' =>
      match numbers_of elements' with
      | Some ns => Some (n :: ns)
      | None => None
      end
  | _ :: _ => None
  end.

(** ** The data of [@solana/web3.js] *)

Definition PublicKey := list byte.
Definition Signature := string.
Definition Blockhash := string.

Record Keypair := mkKeypair {
  kp_publicKey : PublicKey;
  kp_secretKey : list byte
}.

Definition LAMPORTS_PER_SOL : float := 1000000000%float.

(** A [Transaction] under construction. *)
Record Transaction (Instruction : Type) := mkTransaction {
  tx_instructions : list Instruction;
  tx_recentBlockhash : option Blockhash;
  tx_feePayer : option PublicKey;
  tx_signatures : list (PublicKey * list byte)
}.
Arguments mkTransaction {Instruction} _ _ _ _.
Arguments tx_instructions {Instruction} _.
Arguments tx_recentBlockhash {Instruction} _.
Arguments tx_feePayer {Instruction} _.
Arguments tx_signatures {Instruction} _.

(** One entry of [getConfirmedSignaturesForAddress2]. *)
Record SignatureInfo := mkSignatureInfo {
  si_signature : Signature;
  si_slot : float
}.

(** The answer of [getConfirmedTransaction]; [meta] may be [null]. *)
Record ConfirmedTransaction (Status : Type) := mkConfirmedTransaction {
  ct_slot : float;
  ct_blockTime : option float;
  ct_meta_status : option Status
}.
Arguments mkConfirmedTransaction {Status} _ _ _.
Arguments ct_slot {Status} _.
Arguments ct_blockTime {Status} _.
Arguments ct_meta_status {Status} _.

(** The library itself is not part of the program: it is a parameter.
    [Net] is the state of the RPC endpoint behind a [Connection]; each
    [Connection] method maps a request and the endpoint's state to an answer
    and the endpoint's next state.  [Entropy] is the state of the random
    source behind [Keypair.generate]. *)
Record Web3 := mkWeb3 {
  Net : Type;
  Entropy : Type;
  Instruction : Type;
  Status : Type;
  (* Keypair and PublicKey *)
  Keypair_generate : Entropy -> Keypair * Entropy;
  Keypair_fromSecretKey : list byte -> Result Keypair;
  toBase58 : PublicKey -> string;
  (* Transaction and SystemProgram *)
  SystemProgram_transfer : PublicKey -> string -> float -> Result Instruction;
  Transaction_sign : Transaction Instruction -> Keypair -> Result (Transaction Instruction);
  (* truthiness of [status.err] *)
  status_err : Status -> bool;
  (* Connection *)
  connection_requestAirdrop : PublicKey -> float -> Net -> Result Signature * Net;
  connection_confirmTransaction : Signature -> Net -> Result unit * Net;
  connection_getBalance : PublicKey -> Net -> Result float * Net;
  connection_getLatestBlockhash : Net -> Result Blockhash * Net;
  connection_sendTransaction : Transaction Instruction -> Net -> Result Signature * Net;
  connection_getConfirmedSignaturesForAddress2 :
    PublicKey -> nat -> Net -> Result (list SignatureInfo) * Net;
  connection_getConfirmedTransaction :
    Signature -> Net -> Result (option (ConfirmedTransaction Status)) * Net;
  (* the order in time of the answers to requests made together: of the
     failures, listed in the order of the requests, the position of the one
     that comes first *)
  rejects_first : list JsError -> nat
}.

(** ** The world and the monad of effects *)

Section Wallet.

Context (web3 : Web3).

(** Node's [path.join], and the directory of the script, [__dirname]. *)
Context (path_join : string -> string -> string).
Context (dirname : string).

(** The JavaScript runtime on keypair files outside the JSON fragment. *)
Context (load_beyond : string -> Result Keypair).

Abbreviation Tx := (Transaction (Instruction web3)).

(** A request made on a [Connection]. *)
Inductive RpcCall : Type :=
| RequestAirdrop (to : PublicKey) (lamports : float)
| ConfirmTransaction (signature : Signature) (commitment : option string)
| GetBalance (publicKey : PublicKey)
| GetLatestBlockhash
| SendTransaction (transaction : Tx) (signers : list PublicKey)
| GetConfirmedSignaturesForAddress2 (address : PublicKey) (limit : nat)
| GetConfirmedTransaction (signature : Signature).

(** A piece of a console line: the arguments of [console.log] and the
    holes of a template literal are kept as values. *)
Inductive Piece : Type :=
| PStr (s : string)
| PNum (x : float)
| PInt (z : Z)
| PBytes (l : list N)
| PDate (ms : float)
| PErr (e : JsError).

(** What [sendSol] does to its [Transaction] object: [new Transaction()],
    [transaction.add(instruction)] and [transaction.sign(signer)]. *)
Inductive TransactionCall : Type :=
| NewTransaction
| TransactionAdd (instruction : Instruction web3)
| TransactionSign (signer : PublicKey).

Inductive Event : Type :=
| ERpc (call : RpcCall)
| ESleep (ms : Z)
| ELog (line : list Piece)
| EError (line : list Piece)
| EWriteFile (path content : string)
| ETransaction (call : TransactionCall).

Record World := mkWorld {
  w_fs : gmap string string;
  w_net : Net web3;
  w_entropy : Entropy web3
}.

Inductive Outcome (A : Type) : Type :=
| Returned (a : A)
| Thrown (e : JsError)
| Exited (code : Z).
Arguments Returned {A} a.
Arguments Thrown {A} e.
Arguments Exited {A} code.

Definition M (A : Type) : Type := World -> Outcome A * World * list Event.

Definition ret {A} (a : A) : M A := fun w => (Returned a, w, []).

Definition bind {A B} (m : M A) (k : A -> M B) : M B := fun w =>
  match m w with
  | (Returned a, w1, evs1) =>
      let '(o, w2, evs2) := k a w1 in (o, w2, evs1 ++ evs2)
  | (Thrown e, w1, evs1) => (Thrown e, w1, evs1)
  | (Exited c, w1, evs1) => (Exited c, w1, evs1)
  end.

Notation "x <- m ;; k" := (bind m (fun x => k))
  (at level 100, m at next level, right associativity).
Notation "m ;;; k" := (bind m (fun _ => k))
  (at level 100, right associativity).

(** [throw e] *)
Definition throw {A} (e : JsError) : M A := fun w => (Thrown e, w, []).

(** [process.exit(code)]: nothing after it runs, and no [catch] sees it. *)
Definition process_exit {A} (code : Z) : M A := fun w => (Exited code, w, []).

(** [try { m } catch (error) { h error }] *)
Definition try_catch {A} (m : M A) (h : JsError -> M A) : M A := fun w =>
  match m w with
  | (Thrown e, w1, evs1) =>
      let '(o, w2, evs2) := h e w1 in (o, w2, evs1 ++ evs2)
  | r => r
  end.

Definition emit (ev : Event) : M unit := fun w => (Returned tt, w, [ev]).

(** A synchronous library call that may throw. *)
Definition lift {A} (r : Result A) : M A :=
  match r with
  | Ok a => ret a
  | Err e => throw e
  end.

(** [await connection.method(...)]: the request is observed, the endpoint
    moves to its next state, and the promise resolves or rejects. *)
Definition await_rpc {A} (call : RpcCall)
    (method : Net web3 -> Result A * Net web3) : M A := fun w =>
  let '(r, n) := method (w_net w) in
  (match r with Ok a => Returned a | Err e => Thrown e end,
   mkWorld (w_fs w) n (w_entropy w),
   [ERpc call]).

Definition console_log (line : list Piece) : M unit := emit (ELog line).
Definition console_error (line : list Piece) : M unit := emit (EError line).

(** [await new Promise(resolve => setTimeout(resolve, delay))] *)
Definition sleep (delay : Z) : M unit := emit (ESleep delay).

(** ** [requestAirdropWithRetry] *)

Definition rate_limit_signal : string := "429".

Definition max_retries_error : JsError :=
  mkError "Max retries exceeded for airdrop request.".

(** The body of the [try]: the funding request and the wait for its
    confirmation. *)
Definition airdrop_attempt (publicKey : PublicKey) (amountInLamports : float)
    : M Signature :=
  airdropSignature <-
    await_rpc (RequestAirdrop publicKey amountInLamports)
              (connection_requestAirdrop web3 publicKey amountInLamports) ;;
  await_rpc (ConfirmTransaction airdropSignature None)
            (connection_confirmTransaction web3 airdropSignature) ;;;
  ret airdropSignature.

(** The [while (retryCount < maxRetries)] loop and the [throw] after it.
    [retryCount] changes only by the [retryCount++] that ends a retried
    iteration, so the guard holds exactly while
    [remaining = maxRetries - retryCount] is positive. *)
Fixpoint retry_loop (publicKey : PublicKey) (amountInLamports : float)
    (remaining retryCount : nat) : M Signature :=
  match remaining with
  | O => throw max_retries_error
  | S remaining' =>
      try_catch
        (airdrop_attempt publicKey amountInLamports)
        (fun error =>
           if includes rate_limit_signal (message error) then
             let delay := 2 ^ Z.of_nat retryCount * 1000 in
             console_log
               [PStr "Server responded with 429 Too Many Requests. Retrying after ";
                PInt delay; PStr "ms delay..."] ;;;
             sleep delay ;;;
             retry_loop publicKey amountInLamports remaining' (S retryCount)
           else throw error)
  end.

(** The same loop with its guard as it is written, for comparison: [fuel]
    bounds the number of iterations, and [None] means that it ran out. *)
Fixpoint guarded_loop (publicKey : PublicKey) (amountInLamports : float)
    (maxRetries fuel retryCount : nat) (w : World)
    : option (Outcome Signature * World * list Event) :=
  if (retryCount <? maxRetries)%nat then
    match fuel with
    | O => None
    | S fuel' =>
        match airdrop_attempt publicKey amountInLamports w with
        | (Thrown error, w1, evs1) =>
            if includes rate_limit_signal (message error) then
              let delay := 2 ^ Z.of_nat retryCount * 1000 in
              match guarded_loop publicKey amountInLamports maxRetries fuel'
                      (S retryCount) w1 with
              | Some (o, w2, evs2) =>
                  Some (o, w2,
                        evs1 ++
                        [ELog [PStr "Server responded with 429 Too Many Requests. Retrying after ";
                               PInt delay; PStr "ms delay..."];
                         ESleep delay] ++ evs2)
              | None => None
              end
            else Some (Thrown error, w1, evs1)
        | r => Some r
        end
    end
  else Some (Thrown max_retries_error, w, []).

Definition requestAirdropWithRetry (publicKey : PublicKey)
    (amountInSol : float) (maxRetries : nat) : M Signature :=
  let amountInLamports := PrimFloat.mul amountInSol LAMPORTS_PER_SOL in
  retry_loop publicKey amountInLamports maxRetries 0.

(** The default value of the [maxRetries] parameter. *)
Definition default_maxRetries : nat := 5.

(** ** The keypair file *)

(** [path.join(__dirname, 'keypair.json')] *)
Definition KEYPAIR_FILE : string := path_join dirname "keypair.json".

Definition fs_existsSync (path : string) : M bool := fun w =>
  (Returned (bool_decide (is_Some (w_fs w !! path))), w, []).

Definition fs_readFileSync (path : string) : M string := fun w =>
  match w_fs w !! path with
  | Some content => (Returned content, w, [])
  | None => (Thrown (mkError "ENOENT: no such file or directory"), w, [])
  end.

Definition fs_writeFileSync (path content : string) : M unit := fun w =>
  (Returned tt,
   mkWorld (<[path := content]> (w_fs w)) (w_net w) (w_entropy w),
   [EWriteFile path content]).

(** [Keypair.generate()] draws from the entropy source. *)
Definition generate : M Keypair := fun w =>
  let '(keypair, entropy) := Keypair_generate web3 (w_entropy w) in
  (Returned keypair, mkWorld (w_fs w) (w_net w) entropy, []).

(** The object [{ publicKey, secretKey }]. *)
Record KeypairData := mkKeypairData {
  publicKey : string;
  secretKey : list N
}.

Definition json_of_keypairData (keypairData : KeypairData) : Json :=
  JObj [("publicKey", JStr (publicKey keypairData));
        ("secretKey", JArr (map JNum (secretKey keypairData)))].

(** [Array.from(uint8Array)] *)
Definition Array_from (bytes : list byte) : list N := map Byte.to_N bytes.

(** [Uint8Array.from(numbers)] *)
Definition Uint8Array_from (numbers : list N) : list byte := map to_uint8 numbers.

Definition generateKeypair : M KeypairData :=
  keypair <- generate ;;
  let publicKey := toBase58 web3 (kp_publicKey keypair) in
  let secretKey := Array_from (kp_secretKey keypair) in
  let keypairData := mkKeypairData publicKey secretKey in
  fs_writeFileSync KEYPAIR_FILE (JSON_stringify (json_of_keypairData keypairData)) ;;;
  ret keypairData.

(** The array of unsigned integers under [secretKey] in a keypair file of
    the fragment. *)
Definition secretKey_numbers (content : string) : option (list N) :=
  match JSON_parse content with
  | Some (JObj members) =>
      match get_member "secretKey" members with
      | Some (JArr elements) => numbers_of elements
      | _ => None
      end
  | _ => None
  end.

Definition no_keypair_message : string :=
  "No keypair found. Please generate a keypair first using "
  +:+ String dquote ("wallet generate-keypair" +:+ String dquote ".").

(** On a keypair file outside the fragment (another JSON text, or no JSON at
    all) what [JSON.parse], [Uint8Array.from] and [Keypair.fromSecretKey]
    make of it is left to [load_beyond]. *)
Definition loadKeypair : M Keypair :=
  found <- fs_existsSync KEYPAIR_FILE ;;
  (if negb found then
     console_error [PStr no_keypair_message] ;;;
     process_exit 1
   else ret tt) ;;;
  content <- fs_readFileSync KEYPAIR_FILE ;;
  match secretKey_numbers content with
  | Some numbers =>
      let secretKey := Uint8Array_from numbers in
      keypair <- lift (Keypair_fromSecretKey web3 secretKey) ;;
      ret keypair
  | None => lift (load_beyond content)
  end.

(** ** [sendSol], [getBalance] and [getTransactionHistory] *)

Definition insufficient_funds_error : JsError := mkError "Insufficient funds.".

Definition sendSol (fromKeypair : Keypair) (toPublicKey : string)
    (amountInSol : float) : M Signature :=
  emit (ETransaction NewTransaction) ;;;
  let transaction : Tx := mkTransaction [] None None [] in
  let amountInLamports := PrimFloat.mul amountInSol LAMPORTS_PER_SOL in
  balance <- await_rpc (GetBalance (kp_publicKey fromKeypair))
                       (connection_getBalance web3 (kp_publicKey fromKeypair)) ;;
  (if PrimFloat.ltb balance amountInLamports
   then throw insufficient_funds_error
   else ret tt) ;;;
  instruction <- lift (SystemProgram_transfer web3 (kp_publicKey fromKeypair)
                                              toPublicKey amountInLamports) ;;
  emit (ETransaction (TransactionAdd instruction)) ;;;
  let transaction :=
    mkTransaction (tx_instructions transaction ++ [instruction])
                  (tx_recentBlockhash transaction) (tx_feePayer transaction)
                  (tx_signatures transaction) in
  blockhash <- await_rpc GetLatestBlockhash (connection_getLatestBlockhash web3) ;;
  let transaction :=
    mkTransaction (tx_instructions transaction) (Some blockhash)
                  (Some (kp_publicKey fromKeypair))
                  (tx_signatures transaction) in
  emit (ETransaction (TransactionSign (kp_publicKey fromKeypair))) ;;;
  transaction <- lift (Transaction_sign web3 transaction fromKeypair) ;;
  signature <- await_rpc (SendTransaction transaction [kp_publicKey fromKeypair])
                         (connection_sendTransaction web3 transaction) ;;
  await_rpc (ConfirmTransaction signature (Some "confirmed"))
            (connection_confirmTransaction web3 signature) ;;;
  ret signature.

Definition getBalance (publicKey : PublicKey) : M float :=
  balance <- await_rpc (GetBalance publicKey) (connection_getBalance web3 publicKey) ;;
  ret (PrimFloat.div balance LAMPORTS_PER_SOL).

(** A record of the transaction history. *)
Record TransactionRecord := mkTransactionRecord {
  signature : Signature;
  slot : float;
  blockTime : option float;
  status : Status web3
}.

Definition null_property_error (property : string) : JsError :=
  mkError ("Cannot read properties of null (reading '" +:+ property +:+ "')").

(** The [async] callback given to [map]. *)
Definition history_entry (signatureInfo : SignatureInfo) : M TransactionRecord :=
  tx <- await_rpc (GetConfirmedTransaction (si_signature signatureInfo))
                  (connection_getConfirmedTransaction web3 (si_signature signatureInfo)) ;;
  match tx with
  | None => throw (null_property_error "slot")
  | Some tx =>
      match ct_meta_status tx with
      | None => throw (null_property_error "status")
      | Some st =>
          ret (mkTransactionRecord (si_signature signatureInfo)
                                   (ct_slot tx) (ct_blockTime tx) st)
      end
  end.

(** The promises of [Promise.all], settled: every callback has been started,
    in list order, and the endpoint has taken the requests in that order. *)
Fixpoint settle {A} (promises : list (M A)) : M (list (Result A)) :=
  match promises with
  | [] => ret []
  | p :: promises' =>
      r <- try_catch (a <- p ;; ret (Ok a)) (fun e => ret (Err e)) ;;
      rs <- settle promises' ;;
      ret (r :: rs)
  end.

Fixpoint fulfilled {A} (rs : list (Result A)) : list A :=
  match rs with
  | [] => []
  | Ok a :: rs' => a :: fulfilled rs'
  | Err _ :: rs' => fulfilled rs'
  end.

Fixpoint rejected {A} (rs : list (Result A)) : list JsError :=
  match rs with
  | [] => []
  | Ok _ :: rs' => rejected rs'
  | Err e :: rs' => e :: rejected rs'
  end.

(** [await Promise.all(promises)]: when every promise is fulfilled, the list
    of the values in the order of the promises; otherwise the rejection that
    comes first in time, which is not the program's to choose. *)
Definition Promise_all {A} (promises : list (M A)) : M (list A) :=
  settled <- settle promises ;;
  match rejected settled with
  | [] => ret (fulfilled settled)
  | e :: es => throw (nth (rejects_first web3 (e :: es)) (e :: es) e)
  end.

Definition history_limit : nat := 10.

Definition getTransactionHistory (publicKey : PublicKey)
    : M (list TransactionRecord) :=
  confirmedSignatures <-
    await_rpc (GetConfirmedSignaturesForAddress2 publicKey history_limit)
              (connection_getConfirmedSignaturesForAddress2 web3 publicKey history_limit) ;;
  transactions <- Promise_all (map history_entry confirmedSignatures) ;;
  ret transactions.

(** ** The commands *)

Definition generate_keypair_action : M unit :=
  keys <- generateKeypair ;;
  console_log [PStr "Public Key:"; PStr (publicKey keys)] ;;;
  console_log [PStr "Secret Key:"; PBytes (secretKey keys)].

(** [cmd.amount] is [undefined] without the flag, and [parseFloat] of the
    flag's value with it. *)
Definition airdrop_action (amount : option float) : M unit :=
  match amount with
  | Some amountInSol =>
      if js_not amount || js_isNaN amount then
        console_error [PStr "Invalid amount specified."] ;;;
        process_exit 1
      else
        keypair <- loadKeypair ;;
        let publicKey := toBase58 web3 (kp_publicKey keypair) in
        console_log [PStr "Requesting airdrop of "; PNum amountInSol;
                     PStr " SOL to Public Key: "; PStr publicKey] ;;;
        try_catch
          (signature <- requestAirdropWithRetry (kp_publicKey keypair)
                          amountInSol default_maxRetries ;;
           console_log [PStr "Airdrop requested. Transaction Signature: ";
                        PStr signature] ;;;
           console_log [PStr "Airdrop confirmed."])
          (fun error => console_error [PStr "Airdrop failed:"; PErr error])
  | None =>
      console_error [PStr "Invalid amount specified."] ;;;
      process_exit 1
  end.

Definition send_sol_action (to : option string) (amount : option float)
    : M unit :=
  match to, amount with
  | Some toPublicKey, Some amountInSol =>
      if js_not_str to || js_not amount || js_isNaN amount then
        console_error [PStr "Invalid recipient or amount specified."] ;;;
        process_exit 1
      else
        fromKeypair <- loadKeypair ;;
        console_log [PStr "Sending "; PNum amountInSol; PStr " SOL to ";
                     PStr toPublicKey; PStr " from Public Key: ";
                     PStr (toBase58 web3 (kp_publicKey fromKeypair))] ;;;
        try_catch
          (signature <- sendSol fromKeypair toPublicKey amountInSol ;;
           console_log [PStr "Transfer successful. Transaction Signature: ";
                        PStr signature])
          (fun error => console_error [PStr "Transfer failed:"; PErr error])
  | _, _ =>
      console_error [PStr "Invalid recipient or amount specified."] ;;;
      process_exit 1
  end.

Definition balance_action : M unit :=
  keypair <- loadKeypair ;;
  let publicKey := toBase58 web3 (kp_publicKey keypair) in
  try_catch
    (balance <- getBalance (kp_publicKey keypair) ;;
     console_log [PStr "Balance of Public Key "; PStr publicKey; PStr ": ";
                  PNum balance; PStr " SOL"])
    (fun error => console_error [PStr "Failed to get balance:"; PErr error]).

(** [new Date(tx.blockTime * 1000)]; [null * 1000] is [0]. *)
Definition block_time_ms (blockTime : option float) : float :=
  match blockTime with
  | Some t => PrimFloat.mul t 1000%float
  | None => 0%float
  end.

(** The body of [transactions.forEach((tx, index) => ...)]. *)
Fixpoint print_history (index : nat) (transactions : list TransactionRecord)
    : M unit :=
  match transactions with
  | [] => ret tt
  | tx :: transactions' =>
      console_log [PInt (Z.of_nat index + 1); PStr ". Signature: ";
                   PStr (signature tx)] ;;;
      console_log [PStr "   Slot: "; PNum (slot tx)] ;;;
      console_log [PStr "   Block Time: "; PDate (block_time_ms (blockTime tx))] ;;;
      console_log [PStr "   Status: ";
                   PStr (if status_err web3 (status tx) then "Failed" else "Success")] ;;;
      print_history (S index) transactions'
  end.

Definition history_action : M unit :=
  keypair <- loadKeypair ;;
  let publicKey := toBase58 web3 (kp_publicKey keypair) in
  try_catch
    (transactions <- getTransactionHistory (kp_publicKey keypair) ;;
     console_log [PStr "Transaction history for Public Key "; PStr publicKey;
                  PStr ":"] ;;;
     print_history 0 transactions)
    (fun error => console_error [PStr "Failed to get transaction history:";
                                 PErr error]).

(** What [commander] makes of [process.argv]: the command chosen and the
    values of its options. *)
Inductive Command : Type :=
| GenerateKeypair
| Airdrop (amount : option float)
| SendSol (to : option string) (amount : option float)
| Balance
| History.

Definition run (cmd : Command) : M unit :=
  match cmd with
  | GenerateKeypair => generate_keypair_action
  | Airdrop amount => airdrop_action amount
  | SendSol to amount => send_sol_action to amount
  | Balance => balance_action
  | History => history_action
  end.

(** ** Observations on the endpoint and on a run *)

(** The endpoint's answer to one funding request: the request for the
    airdrop and, when it is granted, the wait for its confirmation. *)
Definition funding_response (publicKey : PublicKey) (amountInLamports : float)
    (n : Net web3) : Result Signature * Net web3 :=
  match connection_requestAirdrop web3 publicKey amountInLamports n with
  | (Ok airdropSignature, n1) =>
      match connection_confirmTransaction web3 airdropSignature n1 with
      | (Ok _, n2) => (Ok airdropSignature, n2)
      | (Err e, n2) => (Err e, n2)
      end
  | (Err e, n1) => (Err e, n1)
  end.

(** The state of the endpoint after [i] funding requests. *)
Fixpoint net_after (publicKey : PublicKey) (amountInLamports : float)
    (i : nat) (n : Net web3) : Net web3 :=
  match i with
  | O => n
  | S i' =>
      net_after publicKey amountInLamports i'
                (snd (funding_response publicKey amountInLamports n))
  end.

(** The endpoint's answer to funding request number [i], counted from 0. *)
Definition nth_funding_response (publicKey : PublicKey)
    (amountInLamports : float) (i : nat) (n : Net web3) : Result Signature :=
  fst (funding_response publicKey amountInLamports
         (net_after publicKey amountInLamports i n)).

(** A failure the requester classifies as rate-limited. *)
Definition rate_limited {A} (r : Result A) : bool :=
  match r with
  | Err e => includes rate_limit_signal (message e)
  | Ok _ => false
  end.

(** The requests a funding attempt makes on the endpoint in state [n]. *)
Definition attempt_events (publicKey : PublicKey) (amountInLamports : float)
    (n : Net web3) : list Event :=
  match connection_requestAirdrop web3 publicKey amountInLamports n with
  | (Ok airdropSignature, _) =>
      [ERpc (RequestAirdrop publicKey amountInLamports);
       ERpc (ConfirmTransaction airdropSignature None)]
  | (Err _, _) => [ERpc (RequestAirdrop publicKey amountInLamports)]
  end.

(** The funding attempts and the delays of a run, in order. *)
Inductive Step : Type :=
| Attempt
| Delay (ms : Z).

Fixpoint schedule (evs : list Event) : list Step :=
  match evs with
  | [] => []
  | ERpc (RequestAirdrop _ _) :: evs' => Attempt :: schedule evs'
  | ESleep ms :: evs' => Delay ms :: schedule evs'
  | _ :: evs' => schedule evs'
  end.

Fixpoint attempts (evs : list Event) : nat :=
  match evs with
  | [] => 0
  | ERpc (RequestAirdrop _ _) :: evs' => S (attempts evs')
  | _ :: evs' => attempts evs'
  end.

Fixpoint delays (evs : list Event) : list Z :=
  match evs with
  | [] => []
  | ESleep ms :: evs' => ms :: delays evs'
  | _ :: evs' => delays evs'
  end.

(** The delay slept after failed attempt number [i], counted from 0. *)
Definition backoff (i : nat) : Z := 2 ^ Z.of_nat i * 1000.

(** Attempts [first], ..., [first + k - 1], each followed by its delay. *)
Definition backoff_schedule (first k : nat) : list Step :=
  flat_map (fun i => [Attempt; Delay (backoff i)]) (seq first k).

Definition is_rpc (ev : Event) : bool :=
  match ev with
  | ERpc _ => true
  | _ => false
  end.

(** A request for an airdrop or for its confirmation, a timer delay, or a
    line of [console.log]. *)
Definition network_delay_or_log (ev : Event) : bool :=
  match ev with
  | ERpc (RequestAirdrop _ _) | ERpc (ConfirmTransaction _ _) => true
  | ESleep _ | ELog _ => true
  | _ => false
  end.

(** The line that announces a delay. *)
Definition retry_announcement (delay : Z) : list Piece :=
  [PStr "Server responded with 429 Too Many Requests. Retrying after ";
   PInt delay; PStr "ms delay..."].

(** A run made only of requests for the airdrop or for its confirmation and
    of delays, each delay coming right after the one line that announces
    it. *)
Fixpoint announced (evs : list Event) : Prop :=
  match evs with
  | [] => True
  | ERpc (RequestAirdrop _ _) :: evs' => announced evs'
  | ERpc (ConfirmTransaction _ _) :: evs' => announced evs'
  | ELog line :: ESleep ms :: evs' =>
      line = retry_announcement ms /\ announced evs'
  | _ => False
  end.

(** The endpoint's answers to the fetches of the listed transactions, made
    in list order from the state [n]. *)
Fixpoint fetch_answers (entries : list SignatureInfo) (n : Net web3)
    : list (Result (option (ConfirmedTransaction (Status web3)))) :=
  match entries with
  | [] => []
  | entry :: entries' =>
      let '(r, n1) :=
        connection_getConfirmedTransaction web3 (si_signature entry) n in
      r :: fetch_answers entries' n1
  end.

(** [record] is the record made of a listed signature and of the answer to
    its fetch: the signature listed and the [slot], the [blockTime] and the
    [meta.status] of the transaction fetched. *)
Definition fetched_record
    (fetch : SignatureInfo *
             Result (option (ConfirmedTransaction (Status web3))))
    (record : TransactionRecord) : Prop :=
  exists tx st,
    snd fetch = Ok (Some tx) /\ ct_meta_status tx = Some st /\
    record = mkTransactionRecord (si_signature (fst fetch)) (ct_slot tx)
                                 (ct_blockTime tx) st.

(** How the promise of the callback for a listed signature settles, given
    the answer to its fetch. *)
Definition settled_entry
    (fetch : SignatureInfo *
             Result (option (ConfirmedTransaction (Status web3))))
    : Result TransactionRecord :=
  match snd fetch with
  | Ok (Some tx) =>
      match ct_meta_status tx with
      | Some st =>
          Ok (mkTransactionRecord (si_signature (fst fetch)) (ct_slot tx)
                                  (ct_blockTime tx) st)
      | None => Err (null_property_error "status")
      end
  | Ok None => Err (null_property_error "slot")
  | Err e => Err e
  end.

(** A request on the network or a timer delay. *)
Definition network_or_delay (ev : Event) : bool :=
  match ev with
  | ERpc _ | ESleep _ => true
  | _ => false
  end.

(** The arguments a command needs are there and valid. *)
Definition valid_amount (amount : option float) : bool :=
  negb (js_not amount || js_isNaN amount).

Definition requires_keypair (cmd : Command) : bool :=
  match cmd with
  | GenerateKeypair => false
  | _ => true
  end.

Definition valid_arguments (cmd : Command) : bool :=
  match cmd with
  | Airdrop amount => valid_amount amount
  | SendSol to amount => negb (js_not_str to) && valid_amount amount
  | _ => true
  end.

End Wallet.

Arguments Returned {A} a.
Arguments Thrown {A} e.
Arguments Exited {A} code.
Arguments ERpc {web3} call.
Arguments ESleep {web3} ms.
Arguments ELog {web3} line.
Arguments EError {web3} line.
Arguments EWriteFile {web3} path content.
Arguments ETransaction {web3} call.
Arguments NewTransaction {web3}.
Arguments TransactionAdd {web3} instruction.
Arguments TransactionSign {web3} signer.
Arguments RequestAirdrop {web3} to lamports.
Arguments ConfirmTransaction {web3} signature commitment.
Arguments GetBalance {web3} publicKey.
Arguments GetLatestBlockhash {web3}.
Arguments SendTransaction {web3} transaction signers.
Arguments GetConfirmedSignaturesForAddress2 {web3} address limit.
Arguments GetConfirmedTransaction {web3} signature.
Arguments mkWorld {web3} w_fs w_net w_entropy.
Arguments w_fs {web3} w.
Arguments w_net {web3} w.
Arguments w_entropy {web3} w.

(** ** A test double of the library

    The endpoint counts the funding requests it has served and answers
    request number [i] with [script i]; confirmations succeed.  The balance
    and the history are fixed.  A keypair is a seed byte repeated: 32 bytes of
    public key, which are also the last 32 of the 64 bytes of secret key. *)

Definition base58_alphabet : string :=
  "123456789ABCDEFGHJKLMNPQRSTUVWXYZabcdefghijkmnopqrstuvwxyz".

Definition is_base58 (c : ascii) : bool :=
  existsb (Ascii.eqb c) (list_ascii_of_string base58_alphabet).

Definition double_toBase58 (publicKey : PublicKey) : string :=
  string_of_list_ascii
    (map (fun b => nth (N.to_nat (Byte.to_N b mod 58))
                       (list_ascii_of_string base58_alphabet) "1"%char)
         publicKey).

Definition double_generate (seed : nat) : Keypair * nat :=
  let b := to_uint8 (N.of_nat seed) in
  (mkKeypair (repeat b 32) (repeat b 64), S seed).

Definition double_fromSecretKey (secretKey : list byte) : Result Keypair :=
  if (length secretKey =? 64)%nat
  then Ok (mkKeypair (skipn 32 secretKey) secretKey)
  else Err (mkError "bad secret key size").

Definition double (script : nat -> Result Signature) (balance : float)
    (history : list SignatureInfo) : Web3 :=
  {| Net := nat;
     Entropy := nat;
     Instruction := PublicKey * string * float;
     Status := bool;
     Keypair_generate := double_generate;
     Keypair_fromSecretKey := double_fromSecretKey;
     toBase58 := double_toBase58;
     SystemProgram_transfer := fun fromPubkey toPubkey lamports =>
       Ok (fromPubkey, toPubkey, lamports);
     Transaction_sign := fun transaction signer =>
       Ok (mkTransaction (tx_instructions transaction)
                         (tx_recentBlockhash transaction)
                         (tx_feePayer transaction)
                         [(kp_publicKey signer, kp_secretKey signer)]);
     status_err := fun st => st;
     connection_requestAirdrop := fun _ _ n => (script n, S n);
     connection_confirmTransaction := fun _ n => (Ok tt, n);
     connection_getBalance := fun _ n => (Ok balance, n);
     connection_getLatestBlockhash := fun n => (Ok "blockhash", n);
     connection_sendTransaction := fun _ n => (Ok "transfer", n);
     connection_getConfirmedSignaturesForAddress2 := fun _ limit n =>
       (Ok (firstn limit history), n);
     connection_getConfirmedTransaction := fun _ n =>
       (Ok (Some (mkConfirmedTransaction 7%float (Some 1700000000%float)
                                         (Some false))), n);
     rejects_first := fun _ => 0%nat |}.

Definition too_many_requests : JsError :=
  mkError "429 Too Many Requests".

Definition airdrop_limit_reached : JsError :=
  mkError "airdrop request failed: Internal error".

(** Rate-limited on the first [k] funding requests, then granted. *)
Definition limited_then_granted (k : nat) (i : nat) : Result Signature :=
  if (i <? k)%nat then Err too_many_requests else Ok "5vGk".

Definition always_limited (i : nat) : Result Signature := Err too_many_requests.

Definition always_refused (i : nat) : Result Signature := Err airdrop_limit_reached.

Definition no_beyond (content : string) : Result Keypair :=
  Err (mkError "Unexpected token in JSON").

Definition limited_web3 : Web3 := double always_limited 0%float [].

Definition recovering_web3 (k : nat) : Web3 :=
  double (limited_then_granted k) 0%float [].

Definition refusing_web3 : Web3 := double always_refused 0%float [].

(** The world of a test double before anything has run: no keypair file,
    no request served. *)
Definition fresh_world (script : nat -> Result Signature) (balance : float)
    (history : list SignatureInfo) : World (double script balance history) :=
  @mkWorld (double script balance history) ∅ 0%nat 0%nat.

Definition limited_world : World limited_web3 :=
  fresh_world always_limited 0%float [].

Definition recovering_world (k : nat) : World (recovering_web3 k) :=
  fresh_world (limited_then_granted k) 0%float [].

Definition refusing_world : World refusing_web3 :=
  fresh_world always_refused 0%float [].


(** The directory the examples run the script from. *)
Definition double_dirname : string := "/opt/wallet".

(** [path.join] on a directory without a trailing slash and a file name. *)
Definition double_join (directory name : string) : string :=
  directory +:+ "/" +:+ name.

(** The world of a test double once [generate-keypair] has run. *)
Definition ready_world (script : nat -> Result Signature) (balance : float)
    (history : list SignatureInfo) : World (double script balance history) :=
  snd (fst (generate_keypair_action (double script balance history)
              double_join double_dirname (fresh_world script balance history))).

(** A string of the base58 alphabet. *)
Definition base58_string (s : string) : bool :=
  forallb is_base58 (list_ascii_of_string s).

(** A character that [JSON.stringify] writes as it is and that the fragment
    reads back: not a quote, not a backslash, not a control character. *)
Definition plain_char (c : ascii) : bool :=
  negb (Ascii.eqb c dquote) && negb (Ascii.eqb c backslash) &&
  negb (N_of_ascii c <? 32)%N.

Fixpoint plain (s : string) : bool :=
  match s with
  | EmptyString => true
  | String c s' => plain_char c && plain s'
  end.

(** The text of a keypair file up to the public key, and between the public
    key and the array of the secret key. *)
Definition keypair_text_head : string :=
  "{" +:+ quote "publicKey" +:+ ":" +:+ String dquote "".

Definition keypair_text_mid : string :=
  String dquote ("," +:+ quote "secretKey" +:+ ":").

(** A test double with a history of twelve transactions. *)
Definition long_history : list SignatureInfo :=
  map (fun i => mkSignatureInfo (pretty i) 7%float) (seq 0 12).

Definition history_web3 : Web3 := double always_limited 0%float long_history.

Definition history_world : World history_web3 :=
  fresh_world always_limited 0%float long_history.

(** ** Further observations on a run *)

(** The time slept in a run, in milliseconds. *)
Definition total_delay {web3 : Web3} (evs : list (Event web3)) : Z :=
  foldr Z.add 0 (delays web3 evs).

(** The requests made on the network, in order. *)
Fixpoint requests {web3 : Web3} (evs : list (Event web3))
    : list (RpcCall web3) :=
  match evs with
  | [] => []
  | ERpc call :: evs' => call :: requests evs'
  | _ :: evs' => requests evs'
  end.

(** The lines printed on the console, [console.log] and [console.error]
    alike, in order. *)
Fixpoint console {web3 : Web3} (evs : list (Event web3)) : list (list Piece) :=
  match evs with
  | [] => []
  | ELog line :: evs' => line :: console evs'
  | EError line :: evs' => line :: console evs'
  | _ :: evs' => console evs'
  end.

Definition is_write {web3 : Web3} (ev : Event web3) : bool :=
  match ev with
  | EWriteFile _ _ => true
  | _ => false
  end.

(** A computation that leaves the files and the entropy source alone and
    writes no file; with [may_exit = false] it does not exit the process
    either. *)
Definition tame {web3 : Web3} {A : Type} (may_exit : bool) (m : M web3 A)
    : Prop :=
  forall w,
    let '(o, w', evs) := m w in
    w_fs w' = w_fs w /\ w_entropy w' = w_entropy w /\
    existsb is_write evs = false /\
    (may_exit = false -> forall code, o <> Exited code).

(** The four lines that the history command prints for the transaction at
    position [index], counted from 0. *)
Definition history_lines {web3 : Web3} (index : nat)
    (tx : TransactionRecord web3) : list (Event web3) :=
  [ELog [PInt (Z.of_nat index + 1); PStr ". Signature: ";
         PStr (signature web3 tx)];
   ELog [PStr "   Slot: "; PNum (slot web3 tx)];
   ELog [PStr "   Block Time: "; PDate (block_time_ms (blockTime web3 tx))];
   ELog [PStr "   Status: ";
         PStr (if status_err web3 (status web3 tx) then "Failed"
               else "Success")]].

(** The keypair that the test doubles generate first, and the keypair file
    that [generate-keypair] writes for it. *)
Definition first_keypair : Keypair := mkKeypair (repeat x00 32) (repeat x00 64).

Definition first_keypair_text : string :=
  JSON_stringify
    (json_of_keypairData
       (mkKeypairData (double_toBase58 (repeat x00 32))
                      (Array_from (repeat x00 64)))).

Definition keypair_files : gmap string string :=
  {[ KEYPAIR_FILE double_join double_dirname := first_keypair_text ]}.

(** The world of a test double with that keypair file in place. *)
Definition loaded_world (script : nat -> Result Signature) (balance : float)
    (history : list SignatureInfo) : World (double script balance history) :=
  @mkWorld (double script balance history) keypair_files 0%nat 1%nat.

(** A test double with a balance of two SOL and an endpoint that grants at
    once. *)
Definition funded_web3 : Web3 :=
  double (limited_then_granted 0) 2000000000%float [].

Definition funded_world : World funded_web3 :=
  loaded_world (limited_then_granted 0) 2000000000%float [].

(** The transfer of one SOL that the test double signs for the first
    keypair. *)
Definition signed_transfer : Transaction (PublicKey * string * float) :=
  mkTransaction [(repeat x00 32, "9xQe", 1000000000%float)]
    (Some "blockhash") (Some (repeat x00 32))
    [(repeat x00 32, repeat x00 64)].

(** A test double whose balance is exactly one SOL. *)
Definition one_sol_web3 : Web3 :=
  double (limited_then_granted 0) 1000000000%float [].

Definition one_sol_world : World one_sol_web3 :=
  loaded_world (limited_then_granted 0) 1000000000%float [].

(** The world of the history double with the keypair file in place, and
    the records of its ten most recent transactions. *)
Definition history_loaded_world : World history_web3 :=
  loaded_world always_limited 0%float long_history.

Definition ten_records : list (TransactionRecord history_web3) :=
  map (fun i => mkTransactionRecord history_web3 (pretty i) 7%float
                  (Some 1700000000%float) false)
      (seq 0 10).

(** A world whose keypair file names a public key that is not the one of
    its secret key. *)
Definition mismatched_world : World funded_web3 :=
  @mkWorld funded_web3
    {[ KEYPAIR_FILE double_join double_dirname :=
         JSON_stringify
           (json_of_keypairData
              (mkKeypairData "SomebodyElse" (Array_from (repeat x00 64)))) ]}
    0%nat 0%nat.

(** A test double for the history: the endpoint lists [listed], whatever
    the limit it is asked for, answers the fetch of a signature with
    [fetched], and its failures come in the order [first]. *)
Definition history_double (listed : list SignatureInfo)
    (fetched : Signature -> Result (option (ConfirmedTransaction bool)))
    (first : list JsError -> nat) : Web3 :=
  {| Net := nat;
     Entropy := nat;
     Instruction := PublicKey * string * float;
     Status := bool;
     Keypair_generate := double_generate;
     Keypair_fromSecretKey := double_fromSecretKey;
     toBase58 := double_toBase58;
     SystemProgram_transfer := fun fromPubkey toPubkey lamports =>
       Ok (fromPubkey, toPubkey, lamports);
     Transaction_sign := fun transaction signer => Ok transaction;
     status_err := fun st => st;
     connection_requestAirdrop := fun _ _ n => (Err too_many_requests, S n);
     connection_confirmTransaction := fun _ n => (Ok tt, n);
     connection_getBalance := fun _ n => (Ok 0%float, n);
     connection_getLatestBlockhash := fun n => (Ok "blockhash", n);
     connection_sendTransaction := fun _ n => (Ok "transfer", n);
     connection_getConfirmedSignaturesForAddress2 := fun _ limit n =>
       (Ok listed, n);
     connection_getConfirmedTransaction := fun sig n => (fetched sig, S n);
     rejects_first := first |}.

(** The endpoint lists one transaction and no longer has it:
    [getConfirmedTransaction] answers [null]. *)
Definition pruned_web3 : Web3 :=
  history_double [mkSignatureInfo "3nPq" 7%float] (fun _ => Ok None)
                 (fun _ => 0%nat).

(** The endpoint lists twelve transactions whatever the limit, and has all
    of them. *)
Definition unlimited_web3 : Web3 :=
  history_double long_history
    (fun _ => Ok (Some (mkConfirmedTransaction 7%float
                          (Some 1700000000%float) (Some false))))
    (fun _ => 0%nat).

Definition unlimited_world : World unlimited_web3 :=
  @mkWorld unlimited_web3 ∅ 0%nat 0%nat.

Definition pruned_world : World pruned_web3 :=
  @mkWorld pruned_web3 keypair_files 0%nat 1%nat.

(** The endpoint lists 'aaa' and 'bbb'; it no longer has 'aaa', the fetch of
    'bbb' fails, and of the two failures the second comes first in time. *)
Definition racing_web3 : Web3 :=
  history_double
    [mkSignatureInfo "aaa" 7%float; mkSignatureInfo "bbb" 7%float]
    (fun sig => if String.eqb sig "aaa" then Ok None
                else Err (mkError "fetch failed"))
    (fun _ => 1%nat).

Definition racing_world : World racing_web3 :=
  @mkWorld racing_web3 keypair_files 0%nat 1%nat.

(** * Facts *)

(** ** The retrying airdrop requester *)

Section RetryFacts.

Context (web3 : Web3).

Implicit Types (publicKey : PublicKey) (lamports : float) (w : World web3).
Implicit Types (evs : list (Event web3)).

Lemma schedule_app evs1 evs2 :
  schedule web3 (evs1 ++ evs2) = schedule web3 evs1 ++ schedule web3 evs2.
Proof.
  induction evs1 as [|ev evs1 IH]; [reflexivity|].
  destruct ev as [[]| | | | |]; cbn; rewrite ?IH; reflexivity.
Qed.

Lemma attempts_app evs1 evs2 :
  attempts web3 (evs1 ++ evs2) = (attempts web3 evs1 + attempts web3 evs2)%nat.
Proof.
  induction evs1 as [|ev evs1 IH]; [reflexivity|].
  destruct ev as [[]| | | | |]; cbn; rewrite ?IH; reflexivity.
Qed.

Lemma delays_app evs1 evs2 :
  delays web3 (evs1 ++ evs2) = delays web3 evs1 ++ delays web3 evs2.
Proof.
  induction evs1 as [|ev evs1 IH]; [reflexivity|].
  destruct ev as [[]| | | | |]; cbn; rewrite ?IH; reflexivity.
Qed.

Lemma attempt_events_facts publicKey lamports (n : Net web3) :
  let evs := attempt_events web3 publicKey lamports n in
  schedule web3 evs = [Attempt] /\ attempts web3 evs = 1%nat /\
  delays web3 evs = [] /\ forallb (network_delay_or_log web3) evs = true /\
  evs <> [].
Proof.
  unfold attempt_events.
  destruct (connection_requestAirdrop web3 publicKey lamports n) as [[sig|e] n1];
    cbn; repeat split; discriminate.
Qed.

(** One funding attempt, as the endpoint answers it. *)
Lemma airdrop_attempt_eq publicKey lamports w :
  airdrop_attempt web3 publicKey lamports w =
  (match fst (funding_response web3 publicKey lamports (w_net w)) with
   | Ok sig => Returned sig
   | Err e => Thrown e
   end,
   mkWorld (w_fs w) (snd (funding_response web3 publicKey lamports (w_net w)))
           (w_entropy w),
   attempt_events web3 publicKey lamports (w_net w)).
Proof.
  unfold airdrop_attempt, bind, await_rpc, funding_response, attempt_events, ret.
  destruct (connection_requestAirdrop web3 publicKey lamports (w_net w)) as [[sig|e] n1];
    cbn; [|reflexivity].
  destruct (connection_confirmTransaction web3 sig n1) as [[[]|e] n2]; reflexivity.
Qed.

(** One iteration of the loop. *)
Lemma retry_loop_S publicKey lamports remaining retryCount w :
  retry_loop web3 publicKey lamports (S remaining) retryCount w =
  let w1 := mkWorld (w_fs w)
              (snd (funding_response web3 publicKey lamports (w_net w)))
              (w_entropy w) in
  let evs1 := attempt_events web3 publicKey lamports (w_net w) in
  match fst (funding_response web3 publicKey lamports (w_net w)) with
  | Ok sig => (Returned sig, w1, evs1)
  | Err e =>
      if includes rate_limit_signal (message e) then
        let '(o, w2, evs2) :=
          retry_loop web3 publicKey lamports remaining (S retryCount) w1 in
        (o, w2,
         evs1 ++
         [ELog [PStr "Server responded with 429 Too Many Requests. Retrying after ";
                PInt (backoff retryCount); PStr "ms delay..."];
          ESleep (backoff retryCount)] ++ evs2)
      else (Thrown e, w1, evs1)
  end.
Proof.
  cbn [retry_loop]. unfold try_catch. rewrite airdrop_attempt_eq.
  destruct (fst (funding_response web3 publicKey lamports (w_net w))) as [sig|e];
    cbn; [reflexivity|].
  destruct (includes rate_limit_signal (message e)).
  - unfold bind, console_log, sleep, emit. cbn.
    destruct (retry_loop web3 publicKey lamports remaining (S retryCount) _)
      as [[o w2] evs2].
    reflexivity.
  - unfold throw. rewrite app_nil_r. reflexivity.
Qed.

(** The loop by recursion on what remains is the loop with its guard, and
    [maxRetries - retryCount] iterations are enough for it. *)
Lemma guarded_loop_retry_loop publicKey lamports maxRetries fuel :
  forall retryCount w,
    (maxRetries - retryCount <= fuel)%nat ->
    guarded_loop web3 publicKey lamports maxRetries fuel retryCount w =
    Some (retry_loop web3 publicKey lamports (maxRetries - retryCount)
            retryCount w).
Proof.
  induction fuel as [|fuel IH]; intros retryCount w Hfuel.
  - replace (maxRetries - retryCount)%nat with 0%nat by lia.
    cbn [guarded_loop retry_loop].
    destruct (Nat.ltb_spec retryCount maxRetries); [lia|reflexivity].
  - cbn [guarded_loop].
    destruct (Nat.ltb_spec retryCount maxRetries) as [Hlt|Hge].
    + replace (maxRetries - retryCount)%nat
        with (S (maxRetries - S retryCount)) by lia.
      rewrite retry_loop_S, airdrop_attempt_eq. cbv zeta.
      destruct (fst (funding_response web3 publicKey lamports (w_net w)))
        as [sig|e]; [reflexivity|].
      destruct (includes rate_limit_signal (message e)); [|reflexivity].
      rewrite IH by lia.
      destruct (retry_loop web3 publicKey lamports _ _ _) as [[o w2] evs2].
      reflexivity.
    + replace (maxRetries - retryCount)%nat with 0%nat by lia. reflexivity.
Qed.

(** [requestAirdropWithRetry] is the guarded loop from [retryCount = 0],
    and [maxRetries] iterations are enough for it. *)
Lemma requestAirdropWithRetry_guarded publicKey amountInSol maxRetries w :
  guarded_loop web3 publicKey (PrimFloat.mul amountInSol LAMPORTS_PER_SOL)
    maxRetries maxRetries 0 w =
  Some (requestAirdropWithRetry web3 publicKey amountInSol maxRetries w).
Proof.
  rewrite guarded_loop_retry_loop by lia.
  rewrite Nat.sub_0_r. reflexivity.
Qed.

Lemma nth_funding_response_S publicKey lamports i (n : Net web3) :
  nth_funding_response web3 publicKey lamports (S i) n =
  nth_funding_response web3 publicKey lamports i
    (snd (funding_response web3 publicKey lamports n)).
Proof. reflexivity. Qed.

Lemma backoff_schedule_S first k :
  backoff_schedule first (S k) =
  Attempt :: Delay (backoff first) :: backoff_schedule (S first) k.
Proof. reflexivity. Qed.

(** The loop through [k] rate-limited answers: [k] attempts, each followed
    by its delay, and then the loop goes on with what remains. *)
Lemma retry_loop_limited publicKey lamports k :
  forall remaining retryCount w,
    (forall i, (i < k)%nat ->
       rate_limited
         (nth_funding_response web3 publicKey lamports i (w_net w)) = true) ->
    exists evs1,
      schedule web3 evs1 = backoff_schedule retryCount k /\
      attempts web3 evs1 = k /\
      delays web3 evs1 = map backoff (seq retryCount k) /\
      ((0 < k)%nat ->
       last evs1 = Some (ESleep (backoff (retryCount + k - 1)))) /\
      (k = 0%nat -> evs1 = []) /\
      retry_loop web3 publicKey lamports (k + remaining) retryCount w =
      let '(o, w2, evs2) :=
        retry_loop web3 publicKey lamports remaining (retryCount + k)
          (mkWorld (w_fs w) (net_after web3 publicKey lamports k (w_net w))
                   (w_entropy w)) in
      (o, w2, evs1 ++ evs2).
Proof.
  induction k as [|k IH]; intros remaining retryCount w Hlim.
  - exists []. rewrite Nat.add_0_r. cbn.
    repeat split; [lia|].
    destruct w as [fs n e]; cbn.
    destruct (retry_loop web3 publicKey lamports remaining retryCount _)
      as [[o w2] evs2]; reflexivity.
  - pose proof (Hlim 0%nat ltac:(lia)) as H0.
    unfold nth_funding_response in H0. cbn [net_after] in H0.
    set (w1 := mkWorld (w_fs w)
                 (snd (funding_response web3 publicKey lamports (w_net w)))
                 (w_entropy w)).
    destruct (IH remaining (S retryCount) w1) as (evs & Hs & Ha & Hd & Hl & Hnil & Hrun).
    { intros i Hi. specialize (Hlim (S i) ltac:(lia)).
      rewrite nth_funding_response_S in Hlim. exact Hlim. }
    destruct (attempt_events_facts publicKey lamports (w_net w))
      as (Es & Ea & Ed & _ & Ene).
    exists (attempt_events web3 publicKey lamports (w_net w) ++
            [ELog [PStr "Server responded with 429 Too Many Requests. Retrying after ";
                   PInt (backoff retryCount); PStr "ms delay..."];
             ESleep (backoff retryCount)] ++ evs).
    repeat split; cycle 5.
    + change (S k + remaining)%nat with (S (k + remaining)).
      rewrite retry_loop_S. cbv zeta. fold w1.
      destruct (fst (funding_response web3 publicKey lamports (w_net w)))
        as [sig|e]; [discriminate H0|].
      cbn in H0. rewrite H0. rewrite Hrun. clear Hrun.
      subst w1. cbn [w_fs w_net w_entropy].
      replace (S retryCount + k)%nat with (retryCount + S k)%nat by lia.
      cbn [net_after].
      destruct (retry_loop web3 publicKey lamports remaining _ _)
        as [[o w2] evs2].
      rewrite <- !app_assoc. reflexivity.
    + rewrite !schedule_app, Es, Hs. reflexivity.
    + rewrite !attempts_app, Ea, Ha. reflexivity.
    + rewrite !delays_app, Ed, Hd. reflexivity.
    + intros _. destruct k as [|k'].
      * rewrite (Hnil eq_refl), last_app. cbn.
        replace (retryCount + 1 - 1)%nat with retryCount by lia. reflexivity.
      * rewrite app_assoc, last_app. rewrite Hl by lia.
        replace (S retryCount + S k' - 1)%nat with (retryCount + S (S k') - 1)%nat
          by lia.
        reflexivity.
    + intros Hk. discriminate Hk.
Qed.

(** Whatever the endpoint answers, the loop leaves the file system and the
    entropy source as they were, and every event is a request on the
    network, a timer delay or a line of [console.log]. *)
Lemma retry_loop_frame publicKey lamports remaining :
  forall retryCount w,
    let '(o, w', evs) :=
      retry_loop web3 publicKey lamports remaining retryCount w in
    w_fs w' = w_fs w /\ w_entropy w' = w_entropy w /\
    forallb (network_delay_or_log web3) evs = true /\
    (forall code, o <> Exited code).
Proof.
  induction remaining as [|remaining IH]; intros retryCount w.
  - cbn. repeat split; discriminate.
  - rewrite retry_loop_S. cbv zeta.
    destruct (attempt_events_facts publicKey lamports (w_net w))
      as (_ & _ & _ & Hev & _).
    destruct (fst (funding_response web3 publicKey lamports (w_net w)))
      as [sig|e].
    + repeat split; [exact Hev | discriminate].
    + destruct (includes rate_limit_signal (message e)).
      * specialize (IH (S retryCount)
          (mkWorld (w_fs w)
             (snd (funding_response web3 publicKey lamports (w_net w)))
             (w_entropy w))).
        destruct (retry_loop web3 publicKey lamports remaining _ _)
          as [[o w2] evs2].
        destruct IH as (Hfs & Hen & Hevs & Hex).
        repeat split; [exact Hfs | exact Hen | | exact Hex].
        rewrite forallb_app, Hev. cbn. exact Hevs.
      * repeat split; [exact Hev | discriminate].
Qed.

(** Whatever the endpoint answers, the events of the loop are the requests
    of the attempts and, after each attempt that is retried, the line that
    announces the delay and then that delay. *)
Lemma retry_loop_announced publicKey lamports remaining :
  forall retryCount w,
    announced web3
      (snd (retry_loop web3 publicKey lamports remaining retryCount w)).
Proof.
  assert (Hattempt : forall n evs,
            announced web3 evs ->
            announced web3 (attempt_events web3 publicKey lamports n ++ evs)).
  { intros n evs Hevs. unfold attempt_events.
    destruct (connection_requestAirdrop web3 publicKey lamports n)
      as [[sig|e] n1]; exact Hevs. }
  induction remaining as [|remaining IH]; intros retryCount w.
  - exact I.
  - rewrite retry_loop_S. cbv zeta.
    destruct (fst (funding_response web3 publicKey lamports (w_net w)))
      as [sig|e].
    + cbn [snd]. rewrite <- (app_nil_r (attempt_events _ _ _ _)).
      apply Hattempt. exact I.
    + destruct (includes rate_limit_signal (message e)).
      * specialize (IH (S retryCount)
          (mkWorld (w_fs w)
             (snd (funding_response web3 publicKey lamports (w_net w)))
             (w_entropy w))).
        destruct (retry_loop web3 publicKey lamports remaining _ _)
          as [[o w2] evs2].
        cbn [snd] in *. apply Hattempt. split; [reflexivity | exact IH].
      * cbn [snd]. rewrite <- (app_nil_r (attempt_events _ _ _ _)).
        apply Hattempt. exact I.
Qed.

(** In such a run the console shows the announcements of the delays, in
    order, and nothing else. *)
Lemma announced_console evs :
  announced web3 evs -> console evs = map retry_announcement (delays web3 evs).
Proof.
  assert (H : forall n evs, (length evs <= n)%nat -> announced web3 evs ->
              console evs = map retry_announcement (delays web3 evs)).
  { clear evs. induction n as [|n IH]; intros evs Hlen Hevs.
    - destruct evs; [reflexivity | cbn in Hlen; lia].
    - destruct evs as [|ev evs]; [reflexivity|]. cbn in Hlen.
      destruct ev as [[]| |line| | |]; try contradiction Hevs.
      + cbn. apply IH; [lia | exact Hevs].
      + cbn. apply IH; [lia | exact Hevs].
      + destruct evs as [|[| ms | | | |] evs]; try contradiction Hevs.
        destruct Hevs as [-> Hevs]. cbn in Hlen. cbn.
        f_equal. apply IH; [lia | exact Hevs]. }
  apply (H (length evs)). lia.
Qed.

(** While attempts remain, the first event of the loop is the request for
    the airdrop. *)
Lemma retry_loop_first_request publicKey lamports remaining retryCount w :
  exists rest,
    snd (retry_loop web3 publicKey lamports (S remaining) retryCount w) =
    ERpc (RequestAirdrop publicKey lamports) :: rest.
Proof.
  rewrite retry_loop_S. cbv zeta. unfold attempt_events.
  destruct (fst (funding_response web3 publicKey lamports (w_net w)))
    as [sig|e].
  - destruct (connection_requestAirdrop web3 publicKey lamports (w_net w)) as [[s|e] n1];
      eexists; reflexivity.
  - destruct (includes rate_limit_signal (message e)).
    + destruct (retry_loop web3 publicKey lamports remaining _ _)
        as [[o w2] evs2].
      destruct (connection_requestAirdrop web3 publicKey lamports (w_net w))
        as [[s|e'] n1]; eexists; reflexivity.
    + destruct (connection_requestAirdrop web3 publicKey lamports (w_net w))
        as [[s|e'] n1]; eexists; reflexivity.
Qed.

(** C1. When the endpoint answers every funding request the requester makes
    with a rate-limit failure, [requestAirdropWithRetry] makes exactly
    [maxRetries] funding attempts and then throws the error
    'Max retries exceeded for airdrop request.', which is not itself
    classified as a rate-limit failure. *)
Theorem requestAirdropWithRetry_exhausted publicKey amountInSol maxRetries w :
  (forall i, (i < maxRetries)%nat ->
     rate_limited
       (nth_funding_response web3 publicKey
          (PrimFloat.mul amountInSol LAMPORTS_PER_SOL) i (w_net w)) = true) ->
  exists w' evs,
    requestAirdropWithRetry web3 publicKey amountInSol maxRetries w =
      (Thrown max_retries_error, w', evs) /\
    attempts web3 evs = maxRetries /\
    rate_limited (@Err Signature max_retries_error) = false.
Proof.
  intros Hlim. unfold requestAirdropWithRetry.
  destruct (retry_loop_limited publicKey _ maxRetries 0%nat 0%nat w Hlim)
    as (evs & _ & Ha & _ & _ & _ & Hrun).
  rewrite Nat.add_0_r in Hrun. rewrite Hrun. cbn.
  eexists _, _. rewrite app_nil_r. repeat split. exact Ha.
Qed.

(** C2. When the endpoint answers the first [K] funding requests with
    rate-limit failures ([K < maxRetries]) and grants request [K + 1] with
    signature [sig], [requestAirdropWithRetry] returns [sig] after exactly
    [K + 1] attempts, and the delays slept between consecutive attempts are
    1000, 2000, ..., [2 ^ (K - 1) * 1000] milliseconds: attempt [i] is
    followed by the delay [2 ^ i * 1000]. *)
Theorem requestAirdropWithRetry_backoff publicKey amountInSol maxRetries K sig w :
  (K < maxRetries)%nat ->
  (forall i, (i < K)%nat ->
     rate_limited
       (nth_funding_response web3 publicKey
          (PrimFloat.mul amountInSol LAMPORTS_PER_SOL) i (w_net w)) = true) ->
  nth_funding_response web3 publicKey
    (PrimFloat.mul amountInSol LAMPORTS_PER_SOL) K (w_net w) = Ok sig ->
  exists w' evs,
    requestAirdropWithRetry web3 publicKey amountInSol maxRetries w =
      (Returned sig, w', evs) /\
    attempts web3 evs = S K /\
    delays web3 evs = map (fun i => 2 ^ Z.of_nat i * 1000) (seq 0 K) /\
    schedule web3 evs = backoff_schedule 0 K ++ [Attempt].
Proof.
  intros HK Hlim Hok. unfold requestAirdropWithRetry.
  set (lamports := PrimFloat.mul amountInSol LAMPORTS_PER_SOL) in *.
  destruct (retry_loop_limited publicKey lamports K
              (maxRetries - K) 0%nat w Hlim)
    as (evs & Hs & Ha & Hd & _ & _ & Hrun).
  replace (K + (maxRetries - K))%nat with maxRetries in Hrun by lia.
  rewrite Hrun. clear Hrun.
  destruct (maxRetries - K)%nat as [|remaining] eqn:E; [lia|].
  rewrite retry_loop_S. cbv zeta. cbn [w_fs w_net w_entropy].
  unfold nth_funding_response in Hok. rewrite Hok.
  destruct (attempt_events_facts publicKey lamports
              (net_after web3 publicKey lamports K (w_net w)))
    as (Es & Ea & Ed & _ & _).
  eexists _, _. split; [reflexivity|].
  rewrite attempts_app, delays_app, schedule_app, Ha, Hs, Hd, Ea, Es, Ed.
  rewrite app_nil_r. repeat split. lia.
Qed.

(** C3. When the first funding request fails with an error whose message
    does not contain '429', [requestAirdropWithRetry] throws that same error
    after exactly one attempt, without any delay. *)
Theorem requestAirdropWithRetry_propagates publicKey amountInSol maxRetries e w :
  (0 < maxRetries)%nat ->
  nth_funding_response web3 publicKey
    (PrimFloat.mul amountInSol LAMPORTS_PER_SOL) 0 (w_net w) = Err e ->
  includes rate_limit_signal (message e) = false ->
  exists w' evs,
    requestAirdropWithRetry web3 publicKey amountInSol maxRetries w =
      (Thrown e, w', evs) /\
    attempts web3 evs = 1%nat /\
    delays web3 evs = [] /\
    schedule web3 evs = [Attempt].
Proof.
  intros Hpos Herr Hother. unfold requestAirdropWithRetry.
  destruct maxRetries as [|remaining]; [lia|].
  rewrite retry_loop_S. cbv zeta.
  unfold nth_funding_response in Herr. cbn [net_after] in Herr.
  rewrite Herr, Hother.
  destruct (attempt_events_facts publicKey
              (PrimFloat.mul amountInSol LAMPORTS_PER_SOL) (w_net w))
    as (Es & Ea & Ed & _ & _).
  eexists _, _. repeat split; assumption.
Qed.

(** C8, amended. On every input and whatever the endpoint answers,
    [requestAirdropWithRetry] leaves the file system, the keypair file with
    it, and the entropy source as they were; it does not exit the process;
    and its events are requests on the network (for the airdrop or for its
    confirmation) and timer delays, each delay coming right after the one
    [console.log] line that announces it with its length: nothing else is
    printed, and nothing is written to a file. *)
Theorem requestAirdropWithRetry_frame publicKey amountInSol maxRetries w :
  let '(o, w', evs) :=
    requestAirdropWithRetry web3 publicKey amountInSol maxRetries w in
  w_fs w' = w_fs w /\ w_entropy w' = w_entropy w /\
  forallb (network_delay_or_log web3) evs = true /\
  announced web3 evs /\
  console evs = map retry_announcement (delays web3 evs) /\
  (forall code, o <> Exited code).
Proof.
  unfold requestAirdropWithRetry.
  pose proof (retry_loop_frame publicKey
                (PrimFloat.mul amountInSol LAMPORTS_PER_SOL) maxRetries 0 w)
    as Hframe.
  pose proof (retry_loop_announced publicKey
                (PrimFloat.mul amountInSol LAMPORTS_PER_SOL) maxRetries 0 w)
    as Hannounced.
  cbv zeta.
  destruct (retry_loop web3 publicKey _ maxRetries 0 w) as [[o w'] evs].
  destruct Hframe as (Hfs & Hen & Hevs & Hex). cbn [snd] in Hannounced.
  repeat split; try assumption.
  apply announced_console. exact Hannounced.
Qed.

(** C10. When every funding attempt fails rate-limited, a delay follows
    every attempt, the last one included: [maxRetries] delays in all, and the
    last event before the exhaustion error is the delay of
    [2 ^ (maxRetries - 1) * 1000] milliseconds. *)
Theorem requestAirdropWithRetry_sleeps_after_last_attempt
    publicKey amountInSol maxRetries w :
  (0 < maxRetries)%nat ->
  (forall i, (i < maxRetries)%nat ->
     rate_limited
       (nth_funding_response web3 publicKey
          (PrimFloat.mul amountInSol LAMPORTS_PER_SOL) i (w_net w)) = true) ->
  exists w' evs,
    requestAirdropWithRetry web3 publicKey amountInSol maxRetries w =
      (Thrown max_retries_error, w', evs) /\
    schedule web3 evs = backoff_schedule 0 maxRetries /\
    delays web3 evs = map (fun i => 2 ^ Z.of_nat i * 1000) (seq 0 maxRetries) /\
    length (delays web3 evs) = maxRetries /\
    last evs = Some (ESleep (2 ^ Z.of_nat (maxRetries - 1) * 1000)).
Proof.
  intros Hpos Hlim. unfold requestAirdropWithRetry.
  destruct (retry_loop_limited publicKey _ maxRetries 0%nat 0%nat w Hlim)
    as (evs & Hs & _ & Hd & Hl & _ & Hrun).
  rewrite Nat.add_0_r in Hrun. rewrite Hrun. cbn.
  eexists _, _. rewrite app_nil_r. split; [reflexivity|].
  repeat split; [exact Hs | exact Hd | | exact (Hl Hpos)].
  rewrite Hd, length_map, length_seq. reflexivity.
Qed.

End RetryFacts.

(** Runs of the requester against the test double. *)

Example backoff_run :
  let '(o, _, evs) :=
    requestAirdropWithRetry (recovering_web3 3)
      [] 1%float default_maxRetries (recovering_world 3) in
  o = Returned "5vGk" /\ attempts _ evs = 4%nat /\
  delays _ evs = [1000; 2000; 4000].
Proof. vm_compute. repeat split. Qed.

Example exhausted_run :
  let '(o, _, evs) :=
    requestAirdropWithRetry limited_web3
      [] 1%float default_maxRetries limited_world in
  o = Thrown max_retries_error /\ attempts _ evs = 5%nat /\
  delays _ evs = [1000; 2000; 4000; 8000; 16000].
Proof. vm_compute. repeat split. Qed.

(** C8, as stated, fails on an endpoint that is rate-limited once: besides
    the requests on the network and the delay, the run prints a line on the
    console, which is neither. *)
Lemma requestAirdropWithRetry_logs :
  let '(o, w', evs) :=
    requestAirdropWithRetry (recovering_web3 1) [] 1%float default_maxRetries
      (recovering_world 1) in
  evs =
    [ERpc (RequestAirdrop [] 1000000000%float);
     ELog [PStr "Server responded with 429 Too Many Requests. Retrying after ";
           PInt 1000; PStr "ms delay..."];
     ESleep 1000;
     ERpc (RequestAirdrop [] 1000000000%float);
     ERpc (ConfirmTransaction "5vGk" None)] /\
  forallb (network_or_delay _) evs = false /\
  w_fs w' = w_fs (recovering_world 1).
Proof. vm_compute. repeat split. Qed.

Example zero_retries_run :
  requestAirdropWithRetry limited_web3
    [] 1%float 0 limited_world =
  (Thrown max_retries_error, limited_world, []).
Proof. reflexivity. Qed.

Lemma requestAirdropWithRetry_exhausted_witness :
  exists w' evs,
    requestAirdropWithRetry limited_web3 [] 1%float 3
      limited_world = (Thrown max_retries_error, w', evs) /\
    attempts _ evs = 3%nat /\
    rate_limited (@Err Signature max_retries_error) = false.
Proof.
  apply (requestAirdropWithRetry_exhausted
           limited_web3 [] 1%float 3
           limited_world).
  intros i Hi. destruct i as [|[|[|i]]]; [reflexivity..|lia].
Defined.

Lemma requestAirdropWithRetry_backoff_witness :
  exists w' evs,
    requestAirdropWithRetry (recovering_web3 2)
      [] 1%float 5 (recovering_world 2) = (Returned "5vGk", w', evs) /\
    attempts _ evs = 3%nat /\
    delays _ evs = map (fun i => 2 ^ Z.of_nat i * 1000) (seq 0 2) /\
    schedule _ evs = backoff_schedule 0 2 ++ [Attempt].
Proof.
  apply (requestAirdropWithRetry_backoff
           (recovering_web3 2) [] 1%float 5 2 "5vGk"
           (recovering_world 2)).
  - lia.
  - intros i Hi. destruct i as [|[|i]]; [reflexivity..|lia].
  - reflexivity.
Defined.

Lemma requestAirdropWithRetry_propagates_witness :
  exists w' evs,
    requestAirdropWithRetry refusing_web3
      [] 1%float 5 refusing_world =
      (Thrown airdrop_limit_reached, w', evs) /\
    attempts _ evs = 1%nat /\
    delays _ evs = [] /\
    schedule _ evs = [Attempt].
Proof.
  apply (requestAirdropWithRetry_propagates
           refusing_web3 [] 1%float 5
           airdrop_limit_reached refusing_world).
  - lia.
  - reflexivity.
  - reflexivity.
Defined.

Lemma requestAirdropWithRetry_sleeps_after_last_attempt_witness :
  exists w' evs,
    requestAirdropWithRetry limited_web3 [] 1%float 3
      limited_world = (Thrown max_retries_error, w', evs) /\
    schedule _ evs = backoff_schedule 0 3 /\
    delays _ evs = map (fun i => 2 ^ Z.of_nat i * 1000) (seq 0 3) /\
    length (delays _ evs) = 3%nat /\
    last evs = Some (ESleep (2 ^ Z.of_nat (3 - 1) * 1000)).
Proof.
  apply (requestAirdropWithRetry_sleeps_after_last_attempt
           limited_web3 [] 1%float 3
           limited_world).
  - lia.
  - intros i Hi. destruct i as [|[|[|i]]]; [reflexivity..|lia].
Defined.

(** ** The commands *)

Section CommandFacts.

Context (web3 : Web3).
Context (path_join : string -> string -> string) (dirname : string).
Context (load_beyond : string -> Result Keypair).

Implicit Types (w : World web3) (amount : option float).

(** Without a keypair file [loadKeypair] prints its message and exits with
    status 1; the world is as it was. *)
Lemma loadKeypair_missing w :
  w_fs w !! KEYPAIR_FILE path_join dirname = None ->
  loadKeypair web3 path_join dirname load_beyond w =
  (Exited 1, w, [EError [PStr no_keypair_message]]).
Proof.
  intros Hnone. unfold loadKeypair, bind, fs_existsSync.
  rewrite Hnone. reflexivity.
Qed.

(** With a keypair file, [loadKeypair] is a function of its content. *)
Lemma loadKeypair_reads w (content : string) :
  w_fs w !! KEYPAIR_FILE path_join dirname = Some content ->
  loadKeypair web3 path_join dirname load_beyond w =
  (match
     match secretKey_numbers content with
     | Some numbers => Keypair_fromSecretKey web3 (Uint8Array_from numbers)
     | None => load_beyond content
     end
   with
   | Ok keypair => Returned keypair
   | Err e => Thrown e
   end, w, []).
Proof.
  intros Hsome. unfold loadKeypair, bind, fs_existsSync, fs_readFileSync.
  rewrite Hsome. cbn. rewrite Hsome. cbn.
  destruct (secretKey_numbers content) as [numbers|].
  - destruct (Keypair_fromSecretKey web3 (Uint8Array_from numbers));
      reflexivity.
  - destruct (load_beyond content); reflexivity.
Qed.

(** With a keypair file [loadKeypair] returns or throws: it does not exit,
    it changes nothing and it has no event. *)
Lemma loadKeypair_present w content :
  w_fs w !! KEYPAIR_FILE path_join dirname = Some content ->
  exists r : Result Keypair,
    loadKeypair web3 path_join dirname load_beyond w =
    (match r with Ok keypair => Returned keypair | Err e => Thrown e end,
     w, []).
Proof.
  intros Hsome. eexists. apply (loadKeypair_reads w content Hsome).
Qed.

(** C6. For each command that needs the keypair (airdrop, send-sol, balance,
    history), when its arguments are valid and there is no keypair file, the
    command prints the message 'No keypair found. ...' on the error stream
    and exits with status 1; this is its only event, so no request has been
    made on the network, and the world is as it was. *)
Theorem keypair_required (cmd : Command) w :
  requires_keypair cmd = true ->
  valid_arguments cmd = true ->
  w_fs w !! KEYPAIR_FILE path_join dirname = None ->
  run web3 path_join dirname load_beyond cmd w =
  (Exited 1, w, [EError [PStr no_keypair_message]]).
Proof.
  intros Hreq Hvalid Hnone.
  destruct cmd as [|amount|to amount| |]; cbn in Hreq, Hvalid |- *;
    try discriminate Hreq.
  - unfold airdrop_action, valid_amount in *.
    destruct amount as [x|]; [|discriminate Hvalid].
    apply negb_true_iff in Hvalid. rewrite Hvalid.
    unfold bind. rewrite loadKeypair_missing by assumption. reflexivity.
  - unfold send_sol_action, valid_amount in *.
    apply andb_true_iff in Hvalid as [Hto Hamount].
    apply negb_true_iff in Hto, Hamount.
    destruct to as [toPublicKey|]; [|discriminate Hto].
    destruct amount as [x|]; [|discriminate Hamount].
    rewrite Hto. cbn [orb]. cbn [orb] in Hamount. rewrite Hamount.
    unfold bind. rewrite loadKeypair_missing by assumption. reflexivity.
  - unfold balance_action, bind.
    rewrite loadKeypair_missing by assumption. reflexivity.
  - unfold history_action, bind.
    rewrite loadKeypair_missing by assumption. reflexivity.
Qed.

(** C9, amended. When the balance the endpoint reports is strictly less than
    the amount times [LAMPORTS_PER_SOL], [sendSol] throws
    'Insufficient funds.'.  By then it has constructed the empty transaction,
    before asking for the balance, and the balance query is the only request
    it has made: no instruction has been added to the transaction, it has
    not been signed, no blockhash has been asked for and nothing has been
    sent. *)
Theorem sendSol_insufficient_funds (fromKeypair : Keypair)
    (toPublicKey : string) (amountInSol balance : float) (n' : Net web3) w :
  connection_getBalance web3 (kp_publicKey fromKeypair) (w_net w) = (Ok balance, n') ->
  PrimFloat.ltb balance (PrimFloat.mul amountInSol LAMPORTS_PER_SOL) = true ->
  sendSol web3 fromKeypair toPublicKey amountInSol w =
  (Thrown insufficient_funds_error,
   mkWorld (w_fs w) n' (w_entropy w),
   [ETransaction NewTransaction;
    ERpc (GetBalance (kp_publicKey fromKeypair))]).
Proof.
  intros Hbalance Hless. unfold sendSol, bind, await_rpc, emit.
  rewrite Hbalance. cbn. rewrite Hless. reflexivity.
Qed.

(** The amount check of the airdrop and send-sol commands rejects a missing
    amount, [NaN] and zero, and nothing else. *)
Lemma valid_amount_false amount :
  valid_amount amount = false <->
  amount = None \/
  exists x, amount = Some x /\
            (PrimFloat.is_nan x = true \/ PrimFloat.eqb x 0%float = true).
Proof.
  unfold valid_amount, js_not, js_isNaN, truthy.
  destruct amount as [x|]; cbn; [|split; auto].
  destruct (PrimFloat.eqb x 0%float) eqn:Ez, (PrimFloat.is_nan x) eqn:En; cbn.
  1-3: split; [intros _; right; exists x; split; [reflexivity|auto]
              | reflexivity].
  split; [discriminate|].
  intros [H|(y & Hy & [H|H])]; [discriminate H| |];
    injection Hy as <-; congruence.
Qed.

Lemma airdrop_action_invalid amount w :
  valid_amount amount = false ->
  airdrop_action web3 path_join dirname load_beyond amount w =
  (Exited 1, w, [EError [PStr "Invalid amount specified."]]).
Proof.
  unfold airdrop_action, valid_amount. intros H.
  apply negb_false_iff in H.
  destruct amount as [x|]; [rewrite H|]; reflexivity.
Qed.

(** What the airdrop command does once the amount is valid and the keypair
    has loaded. *)
Lemma airdrop_action_valid x keypair w :
  valid_amount (Some x) = true ->
  loadKeypair web3 path_join dirname load_beyond w = (Returned keypair, w, []) ->
  exists o2 w2 evs2 evs3,
    requestAirdropWithRetry web3 (kp_publicKey keypair) x default_maxRetries w =
      (o2, w2, evs2) /\
    airdrop_action web3 path_join dirname load_beyond (Some x) w =
      (Returned tt, w2,
       ELog [PStr "Requesting airdrop of "; PNum x;
             PStr " SOL to Public Key: ";
             PStr (toBase58 web3 (kp_publicKey keypair))] :: evs2 ++ evs3) /\
    exists rest,
      evs2 = ERpc (RequestAirdrop (kp_publicKey keypair)
                     (PrimFloat.mul x LAMPORTS_PER_SOL)) :: rest.
Proof.
  intros Hvalid Hload. unfold airdrop_action.
  unfold valid_amount in Hvalid. apply negb_true_iff in Hvalid.
  rewrite Hvalid. unfold bind at 1. rewrite Hload.
  unfold bind at 1. unfold console_log at 1, emit at 1.
  unfold try_catch, bind at 1.
  pose proof (retry_loop_frame web3 (kp_publicKey keypair)
                (PrimFloat.mul x LAMPORTS_PER_SOL) default_maxRetries 0%nat w)
    as Hframe.
  destruct (retry_loop_first_request web3 (kp_publicKey keypair)
              (PrimFloat.mul x LAMPORTS_PER_SOL) 4 0%nat w) as [rest Hrest].
  change (retry_loop web3 (kp_publicKey keypair)
            (PrimFloat.mul x LAMPORTS_PER_SOL) default_maxRetries 0%nat w)
    with (requestAirdropWithRetry web3 (kp_publicKey keypair) x
            default_maxRetries w) in Hframe.
  change (retry_loop web3 (kp_publicKey keypair)
            (PrimFloat.mul x LAMPORTS_PER_SOL) 5 0%nat w)
    with (requestAirdropWithRetry web3 (kp_publicKey keypair) x
            default_maxRetries w) in Hrest.
  destruct (requestAirdropWithRetry web3 (kp_publicKey keypair) x
              default_maxRetries w) as [[o2 w2] evs2].
  destruct Hframe as (_ & _ & _ & Hexit). cbn in Hrest.
  exists o2, w2, evs2.
  destruct o2 as [sig|e|code]; [| |destruct (Hexit code eq_refl)].
  - eexists. split; [reflexivity|]. split; [reflexivity|].
    exists rest. exact Hrest.
  - eexists. split; [reflexivity|]. split; [reflexivity|].
    exists rest. exact Hrest.
Qed.

(** C4, amended. The airdrop command calls [process.exit(1)] exactly when
    the amount is missing, is [NaN] or is zero, or when there is no keypair
    file.  For every other amount, once the keypair has loaded, the command
    requests funding through [requestAirdropWithRetry] with that amount and
    the default number of retries, and returns. *)
Theorem airdrop_action_exit amount w :
  let '(o, w', evs) := airdrop_action web3 path_join dirname load_beyond amount w in
  (o = Exited 1 <->
   amount = None \/
   (exists x, amount = Some x /\
              (PrimFloat.is_nan x = true \/ PrimFloat.eqb x 0%float = true)) \/
   w_fs w !! KEYPAIR_FILE path_join dirname = None) /\
  (forall x keypair,
     amount = Some x ->
     PrimFloat.is_nan x = false ->
     PrimFloat.eqb x 0%float = false ->
     loadKeypair web3 path_join dirname load_beyond w = (Returned keypair, w, []) ->
     exists o2 evs2 evs3,
       requestAirdropWithRetry web3 (kp_publicKey keypair) x
         default_maxRetries w = (o2, w', evs2) /\
       o = Returned tt /\
       evs = ELog [PStr "Requesting airdrop of "; PNum x;
                   PStr " SOL to Public Key: ";
                   PStr (toBase58 web3 (kp_publicKey keypair))]
             :: evs2 ++ evs3 /\
       exists rest,
         evs2 = ERpc (RequestAirdrop (kp_publicKey keypair)
                        (PrimFloat.mul x LAMPORTS_PER_SOL)) :: rest).
Proof.
  destruct (valid_amount amount) eqn:Hvalid.
  - (* the amount passes the check *)
    assert (Hnot : ~ (amount = None \/
              exists x, amount = Some x /\
                (PrimFloat.is_nan x = true \/ PrimFloat.eqb x 0%float = true))).
    { intros H. apply valid_amount_false in H. congruence. }
    destruct amount as [x|]; [|discriminate Hvalid].
    destruct (w_fs w !! KEYPAIR_FILE path_join dirname) as [content|] eqn:Hfile.
    + destruct (loadKeypair_present w content Hfile) as [[keypair|e] Hload].
      * destruct (airdrop_action_valid x keypair w Hvalid Hload)
          as (o2 & w2 & evs2 & evs3 & Hrun & Hact & rest & Hrest).
        rewrite Hact. split.
        -- split; [discriminate|].
           intros [H|[H|H]]; [discriminate H | | discriminate H].
           exfalso. apply Hnot. right. exact H.
        -- intros x' keypair' Hx _ _ Hload'. injection Hx as <-.
           rewrite Hload in Hload'. injection Hload' as <-.
           exists o2, evs2, evs3. repeat split; try assumption.
           exists rest. exact Hrest.
      * unfold airdrop_action. unfold valid_amount in Hvalid.
        apply negb_true_iff in Hvalid. rewrite Hvalid.
        unfold bind. rewrite Hload. split.
        -- split; [discriminate|].
           intros [H|[H|H]]; [discriminate H | | discriminate H].
           exfalso. apply Hnot. right. exact H.
        -- intros x' keypair' _ _ _ Hload'. discriminate Hload'.
    + unfold airdrop_action. unfold valid_amount in Hvalid.
      apply negb_true_iff in Hvalid. rewrite Hvalid.
      unfold bind. rewrite (loadKeypair_missing w Hfile). split.
      * split; auto.
      * intros x' keypair' _ _ _ Hload'. discriminate Hload'.
  - (* the amount fails the check *)
    rewrite (airdrop_action_invalid amount w Hvalid).
    pose proof (proj1 (valid_amount_false amount) Hvalid) as Hwhy.
    split.
    + split; [|reflexivity]. intros _.
      destruct Hwhy as [H|H]; [left|right; left]; exact H.
    + intros x keypair Hx Hnan Hzero _. subst amount.
      destruct Hwhy as [H|(y & Hy & [H|H])]; [discriminate H | |];
        injection Hy as <-; congruence.
Qed.

(** The callbacks of the history: one request per listed signature, in list
    order, and each promise settled by the answer to its request. *)
Lemma settle_history_entries (entries : list SignatureInfo) :
  forall w,
    exists n',
      settle web3 (map (history_entry web3) entries) w =
      (Returned (map (settled_entry web3)
                     (combine entries (fetch_answers web3 entries (w_net w)))),
       mkWorld (w_fs w) n' (w_entropy w),
       map (fun entry => ERpc (GetConfirmedTransaction (si_signature entry)))
           entries).
Proof.
  induction entries as [|entry entries IH]; intros w.
  - exists (w_net w). destruct w; reflexivity.
  - cbn [map settle fetch_answers combine].
    unfold bind at 1, try_catch, bind at 1, history_entry at 1, bind at 1,
      await_rpc at 1.
    destruct (connection_getConfirmedTransaction web3 (si_signature entry)
                (w_net w)) as [r n1].
    destruct (IH (mkWorld (w_fs w) n1 (w_entropy w))) as (n' & Hrest).
    exists n'. cbn [w_net w_fs w_entropy] in Hrest.
    destruct r as [[tx|]|e]; [destruct (ct_meta_status tx) as [st|] eqn:Est| |];
      cbn -[settle]; unfold bind; rewrite Hrest; cbn;
      unfold settled_entry; cbn; rewrite ?Est, ?app_nil_r; reflexivity.
Qed.

Lemma rejected_map_Ok {A} (l : list A) :
  rejected (map Ok l) = [] /\ fulfilled (map Ok l) = l.
Proof.
  induction l as [|a l [IH1 IH2]]; [split; reflexivity|].
  cbn. rewrite IH1, IH2. split; reflexivity.
Qed.

Lemma rejected_nil {A} (rs : list (Result A)) :
  rejected rs = [] -> rs = map Ok (fulfilled rs).
Proof.
  induction rs as [|[a|e] rs IH]; cbn; intros H;
    [reflexivity | rewrite <- IH by exact H; reflexivity | discriminate H].
Qed.

Lemma fetched_record_settled
    (fetches : list (SignatureInfo *
                     Result (option (ConfirmedTransaction (Status web3)))))
    (records : list (TransactionRecord web3)) :
  Forall2 (fetched_record web3) fetches records <->
  map (settled_entry web3) fetches = map Ok records.
Proof.
  split.
  - induction 1 as [|fetch record fetches records (tx & st & Ha & Hst & ->) _ IH];
      [reflexivity|].
    cbn. rewrite IH. unfold settled_entry. rewrite Ha, Hst. reflexivity.
  - revert records.
    induction fetches as [|fetch fetches IH]; intros [|record records] H;
      try discriminate H; constructor.
    + cbn in H. injection H as H _. unfold settled_entry in H.
      destruct (snd fetch) as [[tx|]|e] eqn:Ha; try discriminate H.
      destruct (ct_meta_status tx) as [st|] eqn:Hst; try discriminate H.
      injection H as <-. exists tx, st. auto.
    + apply IH. cbn in H. injection H as _ H. exact H.
Qed.

Lemma length_fetch_answers (entries : list SignatureInfo) :
  forall n, length (fetch_answers web3 entries n) = length entries.
Proof.
  induction entries as [|entry entries IH]; intros n; [reflexivity|].
  cbn. destruct (connection_getConfirmedTransaction web3 _ n) as [r n1].
  cbn. rewrite IH. reflexivity.
Qed.

(** What [Promise.all] makes of the callbacks of the history. *)
Lemma Promise_all_history_entries (entries : list SignatureInfo) :
  forall w,
    exists n',
      Promise_all web3 (map (history_entry web3) entries) w =
      (let settled :=
         map (settled_entry web3)
             (combine entries (fetch_answers web3 entries (w_net w))) in
       match rejected settled with
       | [] => Returned (fulfilled settled)
       | e :: es => Thrown (nth (rejects_first web3 (e :: es)) (e :: es) e)
       end,
       mkWorld (w_fs w) n' (w_entropy w),
       map (fun entry => ERpc (GetConfirmedTransaction (si_signature entry)))
           entries).
Proof.
  intros w. destruct (settle_history_entries entries w) as (n' & Hsettle).
  exists n'. unfold Promise_all, bind. rewrite Hsettle. cbv zeta.
  destruct (rejected _) as [|e es]; cbn; rewrite app_nil_r; reflexivity.
Qed.

(** C7, amended. [getTransactionHistory] asks the endpoint for the
    signatures of the address with limit 10 and then for the transaction of
    every signature listed, in list order.  It returns exactly when every
    answer is a transaction with a status, and then with one record per
    listed signature, in order, each made of the four fields [signature],
    [slot], [blockTime] and [status]: the signature listed and the other
    three as fetched.  The code does not cut the list: at most 10 records
    come back when the endpoint lists at most 10 signatures.  When the list
    cannot be had, that error is thrown after the one request. *)
Theorem getTransactionHistory_limit (publicKey : PublicKey) w :
  let '(o, w', evs) := getTransactionHistory web3 publicKey w in
  match connection_getConfirmedSignaturesForAddress2 web3 publicKey 10
          (w_net w) with
  | (Ok entries, n1) =>
      evs =
        ERpc (GetConfirmedSignaturesForAddress2 publicKey 10)
        :: map (fun entry => ERpc (GetConfirmedTransaction (si_signature entry)))
               entries /\
      (forall transactions,
         o = Returned transactions <->
         Forall2 (fetched_record web3)
                 (combine entries (fetch_answers web3 entries n1))
                 transactions) /\
      (forall transactions,
         o = Returned transactions ->
         length transactions = length entries /\
         ((length entries <= 10)%nat -> (length transactions <= 10)%nat)) /\
      (forall code, o <> Exited code)
  | (Err e, n1) =>
      o = Thrown e /\
      evs = [ERpc (GetConfirmedSignaturesForAddress2 publicKey 10)]
  end.
Proof.
  unfold getTransactionHistory, bind, await_rpc, history_limit.
  destruct (connection_getConfirmedSignaturesForAddress2 web3 publicKey 10
              (w_net w)) as [[entries|e] n1]; [|split; reflexivity].
  destruct (Promise_all_history_entries entries
              (mkWorld (w_fs w) n1 (w_entropy w))) as (n' & Hall).
  rewrite Hall. cbv zeta. cbn [w_net].
  set (fetches := combine entries (fetch_answers web3 entries n1)).
  assert (Hlen : length fetches = length entries).
  { unfold fetches. rewrite length_combine, length_fetch_answers. lia. }
  assert (Hiff : forall transactions,
            match rejected (map (settled_entry web3) fetches) with
            | [] => Returned (fulfilled (map (settled_entry web3) fetches))
            | e :: es => Thrown (nth (rejects_first web3 (e :: es)) (e :: es) e)
            end = Returned transactions <->
            Forall2 (fetched_record web3) fetches transactions).
  { intros transactions. rewrite fetched_record_settled.
    destruct (rejected (map (settled_entry web3) fetches)) as [|e es]
      eqn:Hrej.
    - apply rejected_nil in Hrej. split.
      + intros H. injection H as <-. exact Hrej.
      + intros H. rewrite H. rewrite (proj2 (rejected_map_Ok _)). reflexivity.
    - split; [discriminate|]. intros H. rewrite H in Hrej.
      rewrite (proj1 (rejected_map_Ok _)) in Hrej. discriminate Hrej. }
  destruct (rejected (map (settled_entry web3) fetches)) as [|e es];
    cbn; rewrite ?app_nil_r.
  - split; [reflexivity|]. split; [exact Hiff|]. split; [|discriminate].
    intros transactions H. apply Hiff in H.
    apply Forall2_length in H. rewrite <- H, Hlen. split; [reflexivity | auto].
  - split; [reflexivity|]. split; [exact Hiff|]. split; discriminate.
Qed.

End CommandFacts.

(** Runs of the commands against the test double. *)

Lemma keypair_required_witness :
  run limited_web3 double_join double_dirname no_beyond (Airdrop (Some 1%float))
      limited_world =
  (Exited 1, limited_world, [EError [PStr no_keypair_message]]).
Proof.
  apply (keypair_required limited_web3 double_join double_dirname no_beyond
           (Airdrop (Some 1%float)) limited_world).
  - reflexivity.
  - reflexivity.
  - apply lookup_empty.
Defined.

Example keypair_required_everywhere :
  Forall (fun cmd =>
            run limited_web3 double_join double_dirname no_beyond cmd limited_world =
            (Exited 1, limited_world, [EError [PStr no_keypair_message]]))
         [Airdrop (Some 2%float); SendSol (Some "9xQe") (Some 0.5%float);
          Balance; History].
Proof. repeat constructor. Qed.

Lemma sendSol_insufficient_funds_witness :
  sendSol limited_web3 (mkKeypair [x01] [x02]) "9xQe" 1%float limited_world =
  (Thrown insufficient_funds_error,
   @mkWorld limited_web3 (w_fs limited_world) 0%nat (w_entropy limited_world),
   [ETransaction NewTransaction; ERpc (GetBalance [x01])]).
Proof.
  apply (sendSol_insufficient_funds limited_web3 (mkKeypair [x01] [x02])
           "9xQe" 1%float 0%float 0%nat limited_world).
  - reflexivity.
  - reflexivity.
Defined.

(** C9, as stated, fails on 'before constructing': with a balance of 0 and
    an amount of 1 SOL, [sendSol] throws 'Insufficient funds.' and the first
    thing it has done, before the request for the balance, is to construct
    the transaction. *)
Lemma sendSol_constructs_first :
  let '(o, _, evs) :=
    sendSol limited_web3 (mkKeypair [x01] [x02]) "9xQe" 1%float
      limited_world in
  o = Thrown insufficient_funds_error /\
  exists rest,
    evs = ETransaction NewTransaction :: ERpc (GetBalance [x01]) :: rest.
Proof. split; [reflexivity|]. eexists. reflexivity. Qed.

(** C4, as stated, fails on the amount 0: the flag is there and its value
    parses as a number, the keypair file exists, and yet the command exits
    with status 1 without any request for funding. *)
Lemma airdrop_zero_amount_exits :
  js_isNaN (Some 0%float) = false /\
  is_Some (w_fs (ready_world always_limited 0%float [])
             !! KEYPAIR_FILE double_join double_dirname) /\
  airdrop_action limited_web3 double_join double_dirname no_beyond (Some 0%float)
    (ready_world always_limited 0%float []) =
  (Exited 1, ready_world always_limited 0%float [],
   [EError [PStr "Invalid amount specified."]]).
Proof.
  split; [reflexivity|]. split; [|reflexivity].
  vm_compute. eexists. reflexivity.
Qed.

Example airdrop_one_requests_funding :
  let '(o, _, evs) :=
    airdrop_action (recovering_web3 1) double_join double_dirname no_beyond (Some 1%float)
      (ready_world (limited_then_granted 1) 0%float []) in
  o = Returned tt /\ attempts _ evs = 2%nat /\ delays _ evs = [1000].
Proof. vm_compute. repeat split. Qed.

(** C7, as stated, fails on an endpoint that lists more than it is asked
    for: the request carries the limit 10, the endpoint lists 12 signatures,
    and 12 records are returned. *)
Lemma getTransactionHistory_unlimited :
  let '(o, _, evs) :=
    getTransactionHistory unlimited_web3 [x01] unlimited_world in
  head evs = Some (ERpc (GetConfirmedSignaturesForAddress2 [x01] 10)) /\
  exists transactions,
    o = Returned transactions /\ length transactions = 12%nat.
Proof. vm_compute. split; [reflexivity|]. eexists. split; reflexivity. Qed.

Example history_run :
  let '(o, _, evs) :=
    getTransactionHistory history_web3 [x01] history_world in
  length evs = 11%nat /\
  match o with
  | Returned transactions =>
      map (signature history_web3) transactions =
      ["0"; "1"; "2"; "3"; "4"; "5"; "6"; "7"; "8"; "9"]
  | _ => False
  end.
Proof. vm_compute. split; reflexivity. Qed.

(** ** The keypair file: what is written is what is read *)

Section JsonFacts.

#[local] Arguments String.append !_ _ : simpl nomatch.

Lemma append_assoc3 (a b c : string) : (a +:+ b) +:+ c = a +:+ (b +:+ c).
Proof. induction a as [|x a IH]; cbn; [reflexivity|]. f_equal. exact IH. Qed.

Lemma append_empty_r (a : string) : a +:+ "" = a.
Proof. induction a as [|x a IH]; cbn; [reflexivity|]. f_equal. exact IH. Qed.

Lemma length_append (a b : string) :
  String.length (a +:+ b) = (String.length a + String.length b)%nat.
Proof. induction a as [|x a IH]; cbn; [reflexivity|]. f_equal. exact IH. Qed.

Lemma plain_char_facts c :
  plain_char c = true ->
  escape_char c = String c "" /\
  Ascii.eqb c dquote = false /\ Ascii.eqb c backslash = false /\
  (N_of_ascii c <? 32)%N = false.
Proof.
  destruct c as [[] [] [] [] [] [] [] []]; cbn; intros H;
    try discriminate H; repeat split.
Qed.

Lemma base58_plain_char c : is_base58 c = true -> plain_char c = true.
Proof.
  destruct c as [[] [] [] [] [] [] [] []]; cbn; intros H;
    try discriminate H; reflexivity.
Qed.

Lemma base58_plain s : base58_string s = true -> plain s = true.
Proof.
  unfold base58_string.
  induction s as [|c s IH]; cbn; [reflexivity|].
  intros H. apply andb_true_iff in H as [Hc Hs].
  rewrite (base58_plain_char c Hc), (IH Hs). reflexivity.
Qed.

Lemma escape_plain s : plain s = true -> escape s = s.
Proof.
  induction s as [|c s IH]; cbn; [reflexivity|].
  intros H. apply andb_true_iff in H as [Hc Hs].
  destruct (plain_char_facts c Hc) as (-> & _).
  rewrite (IH Hs). reflexivity.
Qed.

Lemma parse_string_plain s rest :
  plain s = true ->
  parse_string (s +:+ String dquote rest) = Some (s, rest).
Proof.
  induction s as [|c s IH]; cbn [plain append parse_string].
  - intros _. reflexivity.
  - intros H. apply andb_true_iff in H as [Hc Hs].
    destruct (plain_char_facts c Hc) as (_ & -> & -> & ->).
    rewrite (IH Hs). reflexivity.
Qed.

Lemma to_uint8_to_N (b : byte) : to_uint8 (Byte.to_N b) = b.
Proof. destruct b; reflexivity. Qed.

Lemma Uint8Array_from_Array_from (bytes : list byte) :
  Uint8Array_from (Array_from bytes) = bytes.
Proof.
  unfold Uint8Array_from, Array_from.
  induction bytes as [|b bytes IH]; cbn; [reflexivity|].
  rewrite to_uint8_to_N, IH. reflexivity.
Qed.

Lemma parse_byte (b : byte) fuel (c : ascii) rest :
  c = ","%char \/ c = "]"%char ->
  parse_value (S fuel) (pretty (Byte.to_N b) +:+ String c rest) =
  Some (JNum (Byte.to_N b), String c rest).
Proof.
  intros [-> | ->]; destruct b; reflexivity.
Qed.

Lemma pretty_byte_head (b : byte) :
  exists c s,
    pretty (Byte.to_N b) = String c s /\
    is_ws c = false /\ Ascii.eqb c "]" = false.
Proof. destruct b; eexists _, _; repeat split. Qed.

Lemma numbers_of_JNum (ns : list N) : numbers_of (map JNum ns) = Some ns.
Proof.
  induction ns as [|n ns IH]; cbn; [reflexivity|]. rewrite IH. reflexivity.
Qed.

Lemma stringify_numbers (ns : list N) :
  map JSON_stringify (map JNum ns) = map pretty ns.
Proof.
  induction ns as [|n ns IH]; cbn; [reflexivity|]. rewrite IH. reflexivity.
Qed.

Lemma parse_elements_S fuel s :
  parse_elements (S fuel) s =
  match parse_value fuel s with
  | Some (element, rest) =>
      match skip_ws rest with
      | String c rest' =>
          if Ascii.eqb c "]" then Some ([element], rest')
          else if Ascii.eqb c "," then
            match parse_elements fuel rest' with
            | Some (elements, rest2) => Some (element :: elements, rest2)
            | None => None
            end
          else None
      | EmptyString => None
      end
  | None => None
  end.
Proof. reflexivity. Qed.

(** The elements of a non-empty array of bytes, up to the closing bracket. *)
Lemma parse_elements_bytes (bs : list byte) :
  forall (b : byte) fuel rest,
    (length (b :: bs) < fuel)%nat ->
    parse_elements fuel
      (join "," (map pretty (Array_from (b :: bs))) +:+ String "]" rest) =
    Some (map JNum (Array_from (b :: bs)), rest).
Proof.
  induction bs as [|b' bs IH]; intros b fuel rest Hfuel.
  - destruct fuel as [|[|fuel]]; cbn in Hfuel; try lia.
    rewrite parse_elements_S.
    change (join "," (map pretty (Array_from [b]))) with (pretty (Byte.to_N b)).
    rewrite (parse_byte b fuel "]" rest) by auto.
    reflexivity.
  - destruct fuel as [|[|fuel]]; cbn in Hfuel; try lia.
    rewrite parse_elements_S.
    change (join "," (map pretty (Array_from (b :: b' :: bs))))
      with (pretty (Byte.to_N b) +:+ "," +:+
            join "," (map pretty (Array_from (b' :: bs)))).
    rewrite !append_assoc3.
    change ("," +:+ ?x) with (String "," x).
    rewrite (parse_byte b fuel ","
               (join "," (map pretty (Array_from (b' :: bs)))
                +:+ String "]" rest)) by auto.
    change (skip_ws (String "," ?x)) with (String "," x).
    cbv iota beta.
    change (Ascii.eqb "," "]") with false.
    change (Ascii.eqb "," ",") with true.
    cbv iota beta.
    rewrite (IH b' (S fuel) rest) by (cbn; lia).
    reflexivity.
Qed.

Lemma parse_value_S fuel s :
  parse_value (S fuel) s =
  match skip_ws s with
  | String c s' =>
      if Ascii.eqb c dquote then
        match parse_string s' with
        | Some (str, rest) => Some (JStr str, rest)
        | None => None
        end
      else if Ascii.eqb c "[" then
        match skip_ws s' with
        | String c' rest' =>
            if Ascii.eqb c' "]" then Some (JArr [], rest')
            else match parse_elements fuel s' with
                 | Some (elements, rest) => Some (JArr elements, rest)
                 | None => None
                 end
        | EmptyString => None
        end
      else if Ascii.eqb c "{" then
        match skip_ws s' with
        | String c' rest' =>
            if Ascii.eqb c' "}" then Some (JObj [], rest')
            else match parse_members fuel s' with
                 | Some (members, rest) => Some (JObj members, rest)
                 | None => None
                 end
        | EmptyString => None
        end
      else
        match parse_number (String c s') with
        | Some (n, rest) => Some (JNum n, rest)
        | None => None
        end
  | EmptyString => None
  end.
Proof. reflexivity. Qed.

Lemma parse_members_S fuel s :
  parse_members (S fuel) s =
  match skip_ws s with
  | String c s' =>
      if Ascii.eqb c dquote then
        match parse_string s' with
        | Some (key, rest) =>
            match skip_ws rest with
            | String c' rest' =>
                if Ascii.eqb c' ":" then
                  match parse_value fuel rest' with
                  | Some (value, rest2) =>
                      match skip_ws rest2 with
                      | String c2 rest3 =>
                          if Ascii.eqb c2 "}" then Some ([(key, value)], rest3)
                          else if Ascii.eqb c2 "," then
                            match parse_members fuel rest3 with
                            | Some (members, rest4) =>
                                Some ((key, value) :: members, rest4)
                            | None => None
                            end
                          else None
                      | EmptyString => None
                      end
                  | None => None
                  end
                else None
            | EmptyString => None
            end
        | None => None
        end
      else None
  | EmptyString => None
  end.
Proof. reflexivity. Qed.

(** An array of bytes, brackets included. *)
Lemma parse_array_bytes (bs : list byte) fuel rest :
  (length bs < fuel)%nat ->
  parse_value (S fuel)
    (String "[" (join "," (map pretty (Array_from bs)) +:+ String "]" rest)) =
  Some (JArr (map JNum (Array_from bs)), rest).
Proof.
  intros Hfuel. destruct bs as [|b bs]; [reflexivity|].
  rewrite parse_value_S.
  change (skip_ws (String "[" ?x)) with (String "[" x). cbv iota beta.
  change (Ascii.eqb "[" dquote) with false.
  change (Ascii.eqb "[" "[") with true. cbv iota beta.
  rewrite (parse_elements_bytes bs b fuel rest Hfuel).
  destruct (pretty_byte_head b) as (c & s & Hhead & Hws & Hclose).
  assert (Hskip : exists s',
             skip_ws (join "," (map pretty (Array_from (b :: bs)))
                      +:+ String "]" rest) = String c s').
  { destruct bs as [|b' bs].
    - change (join "," (map pretty (Array_from [b])))
        with (pretty (Byte.to_N b)).
      rewrite Hhead. cbn [String.append skip_ws]. rewrite Hws. eauto.
    - change (join "," (map pretty (Array_from (b :: b' :: bs))))
        with (pretty (Byte.to_N b) +:+ "," +:+
              join "," (map pretty (Array_from (b' :: bs)))).
      rewrite Hhead. cbn [String.append skip_ws]. rewrite Hws. eauto. }
  destruct Hskip as [s' ->]. rewrite Hclose. reflexivity.
Qed.

Lemma stringify_keypairData (pk : string) (bs : list byte) :
  plain pk = true ->
  JSON_stringify (json_of_keypairData (mkKeypairData pk (Array_from bs))) =
  keypair_text_head +:+ pk +:+ keypair_text_mid +:+
  String "[" (join "," (map pretty (Array_from bs)) +:+ String "]" "}").
Proof.
  intros Hplain. unfold json_of_keypairData. cbn [publicKey secretKey].
  cbn [JSON_stringify map fst snd join].
  rewrite stringify_numbers.
  unfold quote at 2. rewrite (escape_plain pk Hplain).
  generalize (join "," (map pretty (Array_from bs))). intros J.
  unfold keypair_text_head, keypair_text_mid.
  repeat (cbn [String.append]; rewrite ?append_assoc3).
  reflexivity.
Qed.

Lemma skip_ws_cons c s : is_ws c = false -> skip_ws (String c s) = String c s.
Proof. intros H. cbn [skip_ws]. rewrite H. reflexivity. Qed.

(** Evaluate the comparisons of two known characters. *)
Ltac eval_eqb :=
  repeat match goal with
    | |- context [Ascii.eqb ?a ?b] =>
        let v := eval vm_compute in (Ascii.eqb a b) in
        match v with
        | true => idtac
        | false => idtac
        end;
        change (Ascii.eqb a b) with v
    end;
  cbv beta iota.

Ltac parser_step :=
  rewrite ?skip_ws_cons by reflexivity; cbv beta iota; eval_eqb.

(** The text of a keypair file parses to the object it was written from. *)
Lemma parse_keypair_text (pk : string) (bs : list byte) fuel rest :
  plain pk = true ->
  (length bs + 4 < fuel)%nat ->
  parse_value fuel
    (keypair_text_head +:+ pk +:+ keypair_text_mid +:+
     String "[" (join "," (map pretty (Array_from bs)) +:+
                 String "]" (String "}" rest))) =
  Some (json_of_keypairData (mkKeypairData pk (Array_from bs)), rest).
Proof.
  intros Hplain Hfuel.
  destruct fuel as [|[|[|[|fuel]]]]; try lia.
  assert (Hbs : (length bs < fuel)%nat) by lia.
  pose proof (parse_array_bytes bs fuel (String "}" rest) Hbs) as Harray.
  generalize dependent (join "," (map pretty (Array_from bs))). intros J HJ.
  rewrite ?append_assoc3.
  change (keypair_text_head +:+ pk +:+ keypair_text_mid +:+
          String "[" (J +:+ String "]" (String "}" rest)))
    with (String "{" (String dquote ("publicKey" +:+ String dquote
            (String ":" (String dquote (pk +:+ String dquote
               (String "," (String dquote ("secretKey" +:+ String dquote
                  (String ":" (String "[" (J +:+ String "]"
                     (String "}" rest))))))))))))).
  rewrite parse_value_S. parser_step.
  rewrite parse_members_S. parser_step.
  rewrite (parse_string_plain "publicKey") by reflexivity. parser_step.
  rewrite parse_value_S. parser_step.
  rewrite (parse_string_plain pk _ Hplain). parser_step.
  rewrite parse_members_S. parser_step.
  rewrite (parse_string_plain "secretKey") by reflexivity. parser_step.
  rewrite HJ. parser_step.
  reflexivity.
Qed.

Lemma length_join_bytes (bs : list byte) :
  (length bs <= String.length (join "," (map pretty (Array_from bs))))%nat.
Proof.
  induction bs as [|b bs IH]; [cbn; lia|].
  destruct (pretty_byte_head b) as (c & s & Hhead & _).
  destruct bs as [|b' bs].
  - change (join "," (map pretty (Array_from [b])))
      with (pretty (Byte.to_N b)).
    rewrite Hhead. cbn. lia.
  - change (join "," (map pretty (Array_from (b :: b' :: bs))))
      with (pretty (Byte.to_N b) +:+ "," +:+
            join "," (map pretty (Array_from (b' :: bs)))).
    rewrite !length_append, Hhead. cbn [String.length length] in *. lia.
Qed.

(** [JSON.parse] reads back what [JSON.stringify] wrote for a keypair. *)
Lemma JSON_parse_stringify_keypairData (pk : string) (bs : list byte) :
  plain pk = true ->
  JSON_parse
    (JSON_stringify (json_of_keypairData (mkKeypairData pk (Array_from bs)))) =
  Some (json_of_keypairData (mkKeypairData pk (Array_from bs))).
Proof.
  intros Hplain. unfold JSON_parse.
  rewrite (stringify_keypairData pk bs Hplain).
  rewrite (parse_keypair_text pk bs _ "" Hplain); [reflexivity|].
  rewrite !length_append. cbn [String.length].
  pose proof (length_join_bytes bs) as Hlen.
  rewrite length_append. cbn [String.length].
  unfold keypair_text_head, keypair_text_mid. cbn. lia.
Qed.

Lemma secretKey_numbers_stringify (pk : string) (bs : list byte) :
  plain pk = true ->
  secretKey_numbers
    (JSON_stringify (json_of_keypairData (mkKeypairData pk (Array_from bs)))) =
  Some (Array_from bs).
Proof.
  intros Hplain. unfold secretKey_numbers.
  rewrite (JSON_parse_stringify_keypairData pk bs Hplain).
  unfold json_of_keypairData. cbn [publicKey secretKey].
  change (get_member "secretKey"
            [("publicKey", JStr pk);
             ("secretKey", JArr (map JNum (Array_from bs)))])
    with (Some (JArr (map JNum (Array_from bs)))).
  apply numbers_of_JNum.
Qed.

End JsonFacts.

Section KeypairFacts.

Context (web3 : Web3).
Context (path_join : string -> string -> string) (dirname : string).
Context (load_beyond : string -> Result Keypair).

(** C5. [generateKeypair] followed by [loadKeypair] yields the keypair that
    was generated, public key and secret key: the secret key goes through
    [Array.from], [JSON.stringify], the keypair file, [JSON.parse] and
    [Uint8Array.from] unchanged.  The library is asked for two things: that
    [Keypair.fromSecretKey] rebuilds a generated keypair from its secret key,
    and that [toBase58] writes the public key in the base58 alphabet. *)
Theorem generateKeypair_loadKeypair (w : World web3)
    (keypair : Keypair) (entropy : Entropy web3) :
  Keypair_generate web3 (w_entropy w) = (keypair, entropy) ->
  Keypair_fromSecretKey web3 (kp_secretKey keypair) = Ok keypair ->
  base58_string (toBase58 web3 (kp_publicKey keypair)) = true ->
  exists w1 evs1,
    generateKeypair web3 path_join dirname w =
      (Returned (mkKeypairData (toBase58 web3 (kp_publicKey keypair))
                               (Array_from (kp_secretKey keypair))),
       w1, evs1) /\
    loadKeypair web3 path_join dirname load_beyond w1 = (Returned keypair, w1, []).
Proof.
  intros Hgen Hcontract Hbase58.
  unfold generateKeypair, bind at 1, generate. rewrite Hgen.
  unfold bind, fs_writeFileSync, ret. cbn [w_fs w_net w_entropy].
  eexists _, _. split; [reflexivity|].
  erewrite loadKeypair_reads by (cbn [w_fs]; apply lookup_insert_eq).
  rewrite (secretKey_numbers_stringify _ _ (base58_plain _ Hbase58)).
  rewrite Uint8Array_from_Array_from, Hcontract.
  reflexivity.
Qed.

End KeypairFacts.

Lemma generateKeypair_loadKeypair_witness :
  exists w1 evs1,
    generateKeypair limited_web3 double_join double_dirname limited_world =
      (Returned (mkKeypairData (double_toBase58 (repeat x00 32))
                               (Array_from (repeat x00 64))),
       w1, evs1) /\
    loadKeypair limited_web3 double_join double_dirname no_beyond w1 =
      (Returned (mkKeypair (repeat x00 32) (repeat x00 64)), w1, []).
Proof.
  apply (generateKeypair_loadKeypair limited_web3 double_join double_dirname no_beyond
           limited_world (mkKeypair (repeat x00 32) (repeat x00 64)) 1%nat).
  - reflexivity.
  - reflexivity.
  - reflexivity.
Defined.

Example keypair_file_text :
  w_fs (ready_world always_limited 0%float []) !! KEYPAIR_FILE double_join double_dirname =
  Some (keypair_text_head +:+ "11111111111111111111111111111111" +:+
        keypair_text_mid +:+ "[" +:+ join "," (repeat "0" 64) +:+ "]}").
Proof. vm_compute. reflexivity. Qed.

(** * Further facts *)

(** ** The requester on an arbitrary endpoint *)

Section RetryOutcomes.

Context (web3 : Web3).

Implicit Types (publicKey : PublicKey) (lamports : float) (w : World web3).

(** Whatever the endpoint answers, the loop runs through some number [K] of
    rate-limited answers, sleeping after each, and then either has nothing
    left, or stops on answer [K]: a grant, or a failure of another kind. *)
Lemma retry_loop_outcome publicKey lamports remaining :
  forall retryCount w,
    let '(o, w', evs) :=
      retry_loop web3 publicKey lamports remaining retryCount w in
    exists K,
      (K <= remaining)%nat /\
      (forall i, (i < K)%nat ->
         rate_limited
           (nth_funding_response web3 publicKey lamports i (w_net w)) = true) /\
      delays web3 evs = map backoff (seq retryCount K) /\
      ((K = remaining /\ o = Thrown max_retries_error /\
        attempts web3 evs = K) \/
       ((K < remaining)%nat /\ attempts web3 evs = S K /\
        ((exists sig,
            nth_funding_response web3 publicKey lamports K (w_net w) = Ok sig /\
            o = Returned sig) \/
         (exists e,
            nth_funding_response web3 publicKey lamports K (w_net w) = Err e /\
            includes rate_limit_signal (message e) = false /\
            o = Thrown e)))).
Proof.
  induction remaining as [|remaining IH]; intros retryCount w.
  - cbn. exists 0%nat. repeat split; [lia | intros i Hi; lia |].
    left. repeat split.
  - rewrite retry_loop_S. cbv zeta.
    destruct (attempt_events_facts web3 publicKey lamports (w_net w))
      as (_ & Ea & Ed & _ & _).
    destruct (fst (funding_response web3 publicKey lamports (w_net w)))
      as [sig|e] eqn:Hfirst.
    + exists 0%nat. repeat split; [lia | intros i Hi; lia | exact Ed |].
      right. repeat split; [lia | exact Ea |]. left. exists sig. split; auto.
    + destruct (includes rate_limit_signal (message e)) eqn:Hclass.
      * specialize (IH (S retryCount)
          (mkWorld (w_fs w)
             (snd (funding_response web3 publicKey lamports (w_net w)))
             (w_entropy w))).
        destruct (retry_loop web3 publicKey lamports remaining _ _)
          as [[o w2] evs2].
        destruct IH as (K & HK & Hlim & Hd & Hout). cbn [w_net] in Hlim, Hout.
        exists (S K). split; [lia|]. split; [|split].
        -- intros [|i] Hi.
           ++ unfold nth_funding_response. cbn [net_after].
              rewrite Hfirst. exact Hclass.
           ++ rewrite nth_funding_response_S. apply Hlim. lia.
        -- rewrite !delays_app, Ed, Hd. reflexivity.
        -- rewrite !attempts_app, Ea. cbn [attempts Nat.add].
           rewrite nth_funding_response_S.
           destruct Hout as [(-> & -> & Ha)|(HK' & Ha & Hstop)].
           ++ left. repeat split. rewrite Ha. reflexivity.
           ++ right. split; [lia|]. split; [rewrite Ha; reflexivity|].
              exact Hstop.
      * exists 0%nat. repeat split; [lia | intros i Hi; lia | exact Ed |].
        right. repeat split; [lia | exact Ea |]. right. exists e. auto.
Qed.

Lemma total_backoff K :
  forall first,
    foldr Z.add 0 (map backoff (seq first K)) =
    (2 ^ Z.of_nat (first + K) - 2 ^ Z.of_nat first) * 1000.
Proof.
  induction K as [|K IH]; intros first.
  - rewrite Nat.add_0_r. cbn. lia.
  - cbn [seq map foldr]. rewrite IH. unfold backoff.
    replace (first + S K)%nat with (S first + K)%nat by lia.
    replace (Z.of_nat (S first + K)) with (Z.of_nat (first + K) + 1) by lia.
    replace (Z.of_nat (S first)) with (Z.of_nat first + 1) by lia.
    rewrite !Z.pow_add_r by lia. lia.
Qed.

(** X1. Whatever the endpoint answers, [requestAirdropWithRetry] ends in one
    of three ways, after some number [K <= maxRetries] of rate-limited
    answers, each followed by its delay: [K = maxRetries] and it throws the
    exhaustion error after [K] attempts; or answer [K] is a grant and it
    returns that signature after [K + 1] attempts; or answer [K] is a
    failure without '429' and it throws that failure after [K + 1]
    attempts. *)
Theorem requestAirdropWithRetry_outcomes publicKey amountInSol maxRetries w :
  let lamports := PrimFloat.mul amountInSol LAMPORTS_PER_SOL in
  let '(o, w', evs) :=
    requestAirdropWithRetry web3 publicKey amountInSol maxRetries w in
  exists K,
    (K <= maxRetries)%nat /\
    (forall i, (i < K)%nat ->
       rate_limited
         (nth_funding_response web3 publicKey lamports i (w_net w)) = true) /\
    delays web3 evs = map (fun i => 2 ^ Z.of_nat i * 1000) (seq 0 K) /\
    ((K = maxRetries /\ o = Thrown max_retries_error /\
      attempts web3 evs = K) \/
     ((K < maxRetries)%nat /\ attempts web3 evs = S K /\
      ((exists sig,
          nth_funding_response web3 publicKey lamports K (w_net w) = Ok sig /\
          o = Returned sig) \/
       (exists e,
          nth_funding_response web3 publicKey lamports K (w_net w) = Err e /\
          includes rate_limit_signal (message e) = false /\
          o = Thrown e)))).
Proof.
  cbv zeta. unfold requestAirdropWithRetry.
  apply (retry_loop_outcome publicKey _ maxRetries 0%nat w).
Qed.

(** X2. Whatever the endpoint answers, [requestAirdropWithRetry] makes at
    most [maxRetries] attempts and sleeps at most [maxRetries] times, and the
    time it sleeps in all is [(2 ^ n - 1) * 1000] milliseconds for [n]
    delays: at most [(2 ^ maxRetries - 1) * 1000]. *)
Theorem requestAirdropWithRetry_bounded publicKey amountInSol maxRetries w :
  let '(o, w', evs) :=
    requestAirdropWithRetry web3 publicKey amountInSol maxRetries w in
  (attempts web3 evs <= maxRetries)%nat /\
  (length (delays web3 evs) <= maxRetries)%nat /\
  total_delay evs = (2 ^ Z.of_nat (length (delays web3 evs)) - 1) * 1000 /\
  total_delay evs <= (2 ^ Z.of_nat maxRetries - 1) * 1000.
Proof.
  unfold requestAirdropWithRetry, total_delay.
  pose proof (retry_loop_outcome publicKey
                (PrimFloat.mul amountInSol LAMPORTS_PER_SOL) maxRetries 0%nat w)
    as H.
  destruct (retry_loop web3 publicKey _ maxRetries 0%nat w) as [[o w'] evs].
  destruct H as (K & HK & _ & Hd & Hout).
  assert (Hlen : length (delays web3 evs) = K)
    by (rewrite Hd, length_map, length_seq; reflexivity).
  rewrite Hlen. rewrite Hd, total_backoff, Nat.add_0_l.
  change (2 ^ Z.of_nat 0) with 1.
  repeat split.
  - destruct Hout as [(_ & _ & ->)|(HK' & -> & _)]; lia.
  - exact HK.
  - assert (2 ^ Z.of_nat K <= 2 ^ Z.of_nat maxRetries)
      by (apply Z.pow_le_mono_r; lia).
    lia.
Qed.

Lemma requests_app (evs1 evs2 : list (Event web3)) :
  requests (evs1 ++ evs2) = requests evs1 ++ requests evs2.
Proof.
  induction evs1 as [|ev evs1 IH]; [reflexivity|].
  destruct ev; cbn; rewrite ?IH; reflexivity.
Qed.

(** The requests of one funding attempt, with the answer to it. *)
Lemma attempt_requests publicKey lamports (n : Net web3) :
  match fst (funding_response web3 publicKey lamports n) with
  | Ok sig =>
      requests (attempt_events web3 publicKey lamports n) =
      [RequestAirdrop publicKey lamports; ConfirmTransaction sig None]
  | Err _ =>
      exists rest,
        requests (attempt_events web3 publicKey lamports n) =
        RequestAirdrop publicKey lamports :: rest /\
        Forall (fun call => exists sig, call = ConfirmTransaction sig None)
               rest
  end.
Proof.
  unfold funding_response, attempt_events.
  destruct (connection_requestAirdrop web3 publicKey lamports n)
    as [[sig|e] n1]; cbn.
  - destruct (connection_confirmTransaction web3 sig n1) as [[[]|e] n2]; cbn.
    + reflexivity.
    + eexists. split; [reflexivity|]. repeat constructor. eauto.
  - eexists. split; [reflexivity|]. constructor.
Qed.

Lemma retry_loop_requests publicKey lamports remaining :
  forall retryCount w,
    let '(o, w', evs) :=
      retry_loop web3 publicKey lamports remaining retryCount w in
    Forall (fun call =>
              call = RequestAirdrop publicKey lamports \/
              exists sig, call = ConfirmTransaction sig None)
           (requests evs) /\
    (forall sig,
       o = Returned sig ->
       last (requests evs) = Some (ConfirmTransaction sig None)).
Proof.
  induction remaining as [|remaining IH]; intros retryCount w.
  - cbn. split; [constructor | discriminate].
  - rewrite retry_loop_S. cbv zeta.
    pose proof (attempt_requests publicKey lamports (w_net w)) as Hreq.
    destruct (fst (funding_response web3 publicKey lamports (w_net w)))
      as [sig|e].
    + rewrite Hreq. split.
      * constructor; [left; reflexivity|].
        constructor; [right; eauto|]. constructor.
      * intros sig' H. injection H as <-. reflexivity.
    + destruct Hreq as (rest & Hreq & Hrest).
      assert (Hfirst :
                Forall (fun call =>
                          call = RequestAirdrop publicKey lamports \/
                          exists sig, call = ConfirmTransaction sig None)
                       (requests
                          (attempt_events web3 publicKey lamports (w_net w)))).
      { rewrite Hreq. constructor; [left; reflexivity|].
        eapply Forall_impl; [exact Hrest|]. cbn. auto. }
      destruct (includes rate_limit_signal (message e)).
      * specialize (IH (S retryCount)
          (mkWorld (w_fs w)
             (snd (funding_response web3 publicKey lamports (w_net w)))
             (w_entropy w))).
        destruct (retry_loop web3 publicKey lamports remaining _ _)
          as [[o w2] evs2].
        destruct IH as (Hall & Hlast).
        rewrite !requests_app. cbn [requests app].
        split; [apply Forall_app; split; assumption|].
        intros sig H. specialize (Hlast sig H).
        rewrite last_app, Hlast. reflexivity.
      * split; [exact Hfirst | discriminate].
Qed.

(** X3. Every request [requestAirdropWithRetry] makes is either the same
    airdrop request, for the same recipient and for
    [amountInSol * LAMPORTS_PER_SOL] lamports, or the wait for the
    confirmation of a signature; and when it returns a signature, its last
    request was the confirmation of that signature. *)
Theorem requestAirdropWithRetry_requests publicKey amountInSol maxRetries w :
  let '(o, w', evs) :=
    requestAirdropWithRetry web3 publicKey amountInSol maxRetries w in
  Forall (fun call =>
            call = RequestAirdrop publicKey
                     (PrimFloat.mul amountInSol LAMPORTS_PER_SOL) \/
            exists sig, call = ConfirmTransaction sig None)
         (requests evs) /\
  (forall sig,
     o = Returned sig ->
     last (requests evs) = Some (ConfirmTransaction sig None)).
Proof.
  unfold requestAirdropWithRetry. apply retry_loop_requests.
Qed.

End RetryOutcomes.


(** ** What the commands leave alone *)

Section Frames.

Context (web3 : Web3).
Context (path_join : string -> string -> string) (dirname : string).
Context (load_beyond : string -> Result Keypair).

Lemma tame_weaken {A} (m : M web3 A) may_exit :
  tame false m -> tame may_exit m.
Proof.
  intros H w. specialize (H w). destruct (m w) as [[o w'] evs].
  destruct H as (? & ? & ? & Hexit). repeat split; auto.
Qed.

Lemma tame_ret {A} (a : A) may_exit : tame may_exit (ret web3 a).
Proof. intros w. cbn. repeat split; discriminate. Qed.

Lemma tame_throw {A} (e : JsError) may_exit :
  tame may_exit (@throw web3 A e).
Proof. intros w. cbn. repeat split; discriminate. Qed.

Lemma tame_process_exit {A} (code : Z) : tame true (@process_exit web3 A code).
Proof. intros w. cbn. repeat split; discriminate. Qed.

Lemma tame_emit (ev : Event web3) may_exit :
  is_write ev = false -> tame may_exit (emit web3 ev).
Proof. intros H w. cbn. rewrite H. repeat split; discriminate. Qed.

Lemma tame_console_log line may_exit : tame may_exit (console_log web3 line).
Proof. apply tame_emit. reflexivity. Qed.

Lemma tame_console_error line may_exit :
  tame may_exit (console_error web3 line).
Proof. apply tame_emit. reflexivity. Qed.

Lemma tame_sleep delay may_exit : tame may_exit (sleep web3 delay).
Proof. apply tame_emit. reflexivity. Qed.

Lemma tame_lift {A} (r : Result A) may_exit : tame may_exit (lift web3 r).
Proof. destruct r; [apply tame_ret | apply tame_throw]. Qed.

Lemma tame_await_rpc {A} call (method : Net web3 -> Result A * Net web3)
    may_exit :
  tame may_exit (await_rpc web3 call method).
Proof.
  intros w. unfold await_rpc. destruct (method (w_net w)) as [[a|e] n];
    cbn; repeat split; discriminate.
Qed.

Lemma tame_bind {A B} (m : M web3 A) (k : A -> M web3 B) may_exit :
  tame may_exit m -> (forall a, tame may_exit (k a)) ->
  tame may_exit (bind web3 m k).
Proof.
  intros Hm Hk w. unfold bind. specialize (Hm w).
  destruct (m w) as [[[a|e|c] w1] evs1]; destruct Hm as (Hfs & Hen & Hw & Hx);
    try (split; [exact Hfs | split; [exact Hen | split; [exact Hw |]]];
         intros Hno code;
         first [discriminate | exfalso; exact (Hx Hno _ eq_refl)]).
  specialize (Hk a w1). destruct (k a w1) as [[o w2] evs2].
  destruct Hk as (Hfs2 & Hen2 & Hw2 & Hx2).
  repeat split; [congruence | congruence | | exact Hx2].
  rewrite existsb_app, Hw, Hw2. reflexivity.
Qed.

Lemma tame_try_catch {A} (m : M web3 A) (h : JsError -> M web3 A) may_exit :
  tame may_exit m -> (forall e, tame may_exit (h e)) ->
  tame may_exit (try_catch web3 m h).
Proof.
  intros Hm Hh w. unfold try_catch. specialize (Hm w).
  destruct (m w) as [[[a|e|c] w1] evs1]; destruct Hm as (Hfs & Hen & Hw & Hx);
    try (split; [exact Hfs | split; [exact Hen | split; [exact Hw |]]];
         intros Hno code;
         first [discriminate | exfalso; exact (Hx Hno _ eq_refl)]).
  specialize (Hh e w1). destruct (h e w1) as [[o w2] evs2].
  destruct Hh as (Hfs2 & Hen2 & Hw2 & Hx2).
  repeat split; [congruence | congruence | | exact Hx2].
  rewrite existsb_app, Hw, Hw2. reflexivity.
Qed.

Lemma tame_settle {A} (promises : list (M web3 A)) may_exit :
  (forall p, In p promises -> tame may_exit p) ->
  tame may_exit (settle web3 promises).
Proof.
  induction promises as [|p promises IH]; intros Hall.
  - apply tame_ret.
  - cbn [settle]. apply tame_bind.
    + apply tame_try_catch; [|intros e; apply tame_ret].
      apply tame_bind; [|intros a; apply tame_ret].
      apply Hall. left. reflexivity.
    + intros r. apply tame_bind; [|intros rs; apply tame_ret].
      apply IH. intros q Hq. apply Hall. right. exact Hq.
Qed.

Lemma tame_Promise_all {A} (promises : list (M web3 A)) may_exit :
  (forall p, In p promises -> tame may_exit p) ->
  tame may_exit (Promise_all web3 promises).
Proof.
  intros Hall. unfold Promise_all. apply tame_bind.
  - apply tame_settle. exact Hall.
  - intros settled. destruct (rejected settled);
      [apply tame_ret | apply tame_throw].
Qed.

Lemma tame_fs_existsSync path may_exit :
  tame may_exit (fs_existsSync web3 path).
Proof. intros w. cbn. repeat split; discriminate. Qed.

Lemma tame_fs_readFileSync path may_exit :
  tame may_exit (fs_readFileSync web3 path).
Proof.
  intros w. unfold fs_readFileSync.
  destruct (w_fs w !! path); cbn; repeat split; discriminate.
Qed.

(** Take a computation apart along its binds, handlers and branches. *)
Ltac tame_tac :=
  repeat first
    [ apply tame_ret | apply tame_throw | apply tame_process_exit
    | apply tame_console_log | apply tame_console_error | apply tame_sleep
    | apply tame_lift | apply tame_await_rpc
    | apply tame_emit; reflexivity
    | apply tame_fs_existsSync | apply tame_fs_readFileSync
    | apply tame_bind; [|intros ?]
    | apply tame_try_catch; [|intros ?]
    | match goal with
      | |- tame _ (if ?b then _ else _) => destruct b
      | |- tame _ (match ?x with _ => _ end) => destruct x
      end ].

Lemma tame_retry_loop publicKey lamports remaining :
  forall retryCount,
    tame false (retry_loop web3 publicKey lamports remaining retryCount).
Proof.
  induction remaining as [|remaining IH]; intros retryCount;
    cbn [retry_loop]; unfold airdrop_attempt; tame_tac.
  apply IH.
Qed.

Lemma tame_requestAirdropWithRetry publicKey amountInSol maxRetries :
  tame false (requestAirdropWithRetry web3 publicKey amountInSol maxRetries).
Proof. apply tame_retry_loop. Qed.

Lemma tame_loadKeypair : tame true (loadKeypair web3 path_join dirname load_beyond).
Proof. unfold loadKeypair. tame_tac. Qed.

Lemma tame_sendSol fromKeypair toPublicKey amountInSol :
  tame false (sendSol web3 fromKeypair toPublicKey amountInSol).
Proof. unfold sendSol. cbv zeta. tame_tac. Qed.

Lemma tame_getBalance publicKey : tame false (getBalance web3 publicKey).
Proof. unfold getBalance. tame_tac. Qed.

Lemma tame_history_entry signatureInfo :
  tame false (history_entry web3 signatureInfo).
Proof. unfold history_entry. tame_tac. Qed.

Lemma tame_history_entries entries may_exit :
  tame may_exit (settle web3 (map (history_entry web3) entries)).
Proof.
  apply tame_settle. intros p Hp.
  apply in_map_iff in Hp as (entry & <- & _).
  apply tame_weaken, tame_history_entry.
Qed.

Lemma tame_getTransactionHistory publicKey :
  tame false (getTransactionHistory web3 publicKey).
Proof.
  unfold getTransactionHistory. tame_tac. apply tame_history_entries.
Qed.

Lemma tame_print_history transactions :
  forall index, tame false (print_history web3 index transactions).
Proof.
  induction transactions as [|tx transactions IH]; intros index;
    cbn [print_history]; tame_tac.
  apply IH.
Qed.

Lemma tame_run (cmd : Command) :
  requires_keypair cmd = true ->
  tame true (run web3 path_join dirname load_beyond cmd).
Proof.
  intros Hreq. destruct cmd as [|amount|to amount| |]; try discriminate Hreq;
    cbn [run].
  - unfold airdrop_action. tame_tac.
  - unfold send_sol_action. tame_tac.
  - unfold balance_action. tame_tac.
  - unfold history_action. tame_tac.
    + apply tame_history_entries.
    + apply tame_weaken, tame_print_history.
Qed.

(** X5. The commands that need the keypair (airdrop, send-sol, balance and
    history) never write: whatever their arguments, the keypair file and the
    endpoint, they leave every file as it was, the keypair file included,
    they write no file, and they draw nothing from the entropy source. *)
Theorem only_generate_keypair_writes (cmd : Command) (w : World web3) :
  requires_keypair cmd = true ->
  let '(o, w', evs) := run web3 path_join dirname load_beyond cmd w in
  w_fs w' = w_fs w /\ w_entropy w' = w_entropy w /\ existsb is_write evs = false.
Proof.
  intros Hreq. pose proof (tame_run cmd Hreq w) as H.
  destruct (run web3 path_join dirname load_beyond cmd w) as [[o w'] evs].
  destruct H as (? & ? & ? & _). auto.
Qed.

(** A [try] whose handler only prints returns, unless its body exits. *)
Lemma try_catch_prints (m : M web3 unit) (line : JsError -> list Piece) w :
  tame false m ->
  exists w' evs,
    try_catch web3 m (fun error => console_error web3 (line error)) w =
    (Returned tt, w', evs).
Proof.
  intros Hm. specialize (Hm w). unfold try_catch.
  destruct (m w) as [[[[]|e|c] w1] evs1].
  - eauto.
  - cbn. eauto.
  - destruct Hm as (_ & _ & _ & Hx). destruct (Hx eq_refl c eq_refl).
Qed.

(** X6. Once the arguments are valid and the keypair has loaded, each of
    airdrop, send-sol, balance and history returns normally whatever the
    endpoint answers: a failure of the network or of the library is printed,
    and is neither thrown further nor turned into an exit status. *)
Theorem command_returns_after_load (cmd : Command) (keypair : Keypair)
    (w : World web3) :
  requires_keypair cmd = true ->
  valid_arguments cmd = true ->
  loadKeypair web3 path_join dirname load_beyond w = (Returned keypair, w, []) ->
  exists w' evs, run web3 path_join dirname load_beyond cmd w = (Returned tt, w', evs).
Proof.
  intros Hreq Hvalid Hload.
  destruct cmd as [|amount|to amount| |]; try discriminate Hreq;
    cbn [run valid_arguments] in *.
  - unfold airdrop_action. unfold valid_amount in Hvalid.
    apply negb_true_iff in Hvalid.
    destruct amount as [x|]; [|discriminate Hvalid]. rewrite Hvalid.
    unfold bind at 1. rewrite Hload.
    unfold bind at 1, console_log at 1, emit at 1.
    match goal with
    | |- context [try_catch web3 ?m (fun error => console_error web3 (@?l error)) w] =>
        destruct (try_catch_prints m l w) as (w' & evs & ->);
          [tame_tac | eauto]
    end.
  - apply andb_true_iff in Hvalid as [Hto Hamount].
    apply negb_true_iff in Hto. unfold valid_amount in Hamount.
    apply negb_true_iff in Hamount. unfold send_sol_action.
    destruct to as [toPublicKey|]; [|discriminate Hto].
    destruct amount as [x|]; [|discriminate Hamount].
    rewrite Hto. cbn [orb]. cbn [orb] in Hamount. rewrite Hamount.
    unfold bind at 1. rewrite Hload.
    unfold bind at 1, console_log at 1, emit at 1.
    match goal with
    | |- context [try_catch web3 ?m (fun error => console_error web3 (@?l error)) w] =>
        destruct (try_catch_prints m l w) as (w' & evs & ->);
          [tame_tac | eauto]
    end.
  - unfold balance_action. unfold bind at 1. rewrite Hload.
    match goal with
    | |- context [try_catch web3 ?m (fun error => console_error web3 (@?l error)) w] =>
        destruct (try_catch_prints m l w) as (w' & evs & ->);
          [tame_tac | eauto]
    end.
  - unfold history_action. unfold bind at 1. rewrite Hload.
    match goal with
    | |- context [try_catch web3 ?m (fun error => console_error web3 (@?l error)) w] =>
        destruct (try_catch_prints m l w) as (w' & evs & ->);
          [tame_tac | eauto]
    end.
    + apply tame_history_entries.
    + apply tame_print_history.
Qed.

Lemma js_not_str_true (to : option string) :
  js_not_str to = true <-> to = None \/ to = Some "".
Proof.
  destruct to as [[|c s]|]; cbn; split; auto; try discriminate.
  intros [H|H]; discriminate H.
Qed.

Lemma send_sol_action_invalid (to : option string) (amount : option float)
    (w : World web3) :
  js_not_str to = true \/ valid_amount amount = false ->
  send_sol_action web3 path_join dirname load_beyond to amount w =
  (Exited 1, w, [EError [PStr "Invalid recipient or amount specified."]]).
Proof.
  unfold send_sol_action, valid_amount. intros H.
  destruct to as [toPublicKey|], amount as [x|]; try reflexivity.
  destruct H as [->|H]; [reflexivity|].
  apply negb_false_iff in H. rewrite <- orb_assoc, H, orb_true_r. reflexivity.
Qed.

(** X7. The send-sol command calls [process.exit(1)] exactly when the
    recipient is missing or empty, the amount is missing, [NaN] or zero, or
    there is no keypair file.  The arguments are checked first: when they
    are invalid the command prints 'Invalid recipient or amount specified.'
    and exits without looking for the keypair file or touching the
    network. *)
Theorem send_sol_action_exit (to : option string) (amount : option float)
    (w : World web3) :
  let '(o, w', evs) := send_sol_action web3 path_join dirname load_beyond to amount w in
  (o = Exited 1 <->
   to = None \/ to = Some "" \/ amount = None \/
   (exists x, amount = Some x /\
              (PrimFloat.is_nan x = true \/ PrimFloat.eqb x 0%float = true)) \/
   w_fs w !! KEYPAIR_FILE path_join dirname = None) /\
  (to = None \/ to = Some "" \/ amount = None \/
   (exists x, amount = Some x /\
              (PrimFloat.is_nan x = true \/ PrimFloat.eqb x 0%float = true)) ->
   w' = w /\
   evs = [EError [PStr "Invalid recipient or amount specified."]]).
Proof.
  destruct (js_not_str to) eqn:Hto.
  { rewrite send_sol_action_invalid by auto.
    apply js_not_str_true in Hto. split; [|auto].
    split; [|reflexivity]. intros _. destruct Hto; auto. }
  destruct (valid_amount amount) eqn:Hamount.
  2:{ rewrite send_sol_action_invalid by auto.
      apply valid_amount_false in Hamount. split; [|auto].
      split; [|reflexivity]. intros _. destruct Hamount; auto. }
  assert (Hvalid : ~ (to = None \/ to = Some "" \/ amount = None \/
            (exists x, amount = Some x /\
               (PrimFloat.is_nan x = true \/
                PrimFloat.eqb x 0%float = true)))).
  { intros [H|[H|H]].
    - assert (js_not_str to = true) by (apply js_not_str_true; auto).
      congruence.
    - assert (js_not_str to = true) by (apply js_not_str_true; auto).
      congruence.
    - assert (valid_amount amount = false)
        by (apply valid_amount_false; destruct H; auto).
      congruence. }
  unfold send_sol_action.
  destruct to as [toPublicKey|]; [|discriminate Hto].
  destruct amount as [x|]; [|discriminate Hamount].
  rewrite Hto. cbn [orb]. unfold valid_amount in Hamount.
  apply negb_true_iff in Hamount. cbn [orb] in Hamount. rewrite Hamount.
  destruct (w_fs w !! KEYPAIR_FILE path_join dirname) as [content|] eqn:Hfile.
  - destruct (loadKeypair_present web3 path_join dirname load_beyond w content Hfile)
      as [[keypair|e] Hload]; unfold bind at 1; rewrite Hload.
    + unfold bind at 1, console_log at 1, emit at 1.
      match goal with
      | |- context [try_catch web3 ?m
                      (fun error => console_error web3 (@?l error)) w] =>
          destruct (try_catch_prints m l w) as (w' & evs & ->); [tame_tac|]
      end.
      split; [|intros H; destruct (Hvalid H)].
      split; [discriminate|].
      intros [H|[H|[H|[H|H]]]]; try discriminate H; destruct Hvalid; auto.
    + split; [|intros H; destruct (Hvalid H)].
      split; [discriminate|].
      intros [H|[H|[H|[H|H]]]]; try discriminate H; destruct Hvalid; auto.
  - unfold bind at 1.
    rewrite (loadKeypair_missing web3 path_join dirname load_beyond w Hfile).
    split; [|intros H; destruct (Hvalid H)].
    split; auto 6.
Qed.

(** X8. Once the arguments are valid and the keypair has loaded, the
    send-sol command prints the amount, the recipient as it was given and
    the sender's public key, runs [sendSol], and then prints one more line:
    'Transfer successful. Transaction Signature: ' with the signature that
    [sendSol] returned, as it is, or 'Transfer failed:' with the error that
    [sendSol] threw. *)
Theorem send_sol_action_output (toPublicKey : string) (x : float)
    (keypair : Keypair) (w w2 : World web3) (o2 : Outcome Signature)
    (evs2 : list (Event web3)) :
  js_not_str (Some toPublicKey) = false ->
  valid_amount (Some x) = true ->
  loadKeypair web3 path_join dirname load_beyond w = (Returned keypair, w, []) ->
  sendSol web3 keypair toPublicKey x w = (o2, w2, evs2) ->
  exists report,
    send_sol_action web3 path_join dirname load_beyond (Some toPublicKey) (Some x) w =
    (Returned tt, w2,
     ELog [PStr "Sending "; PNum x; PStr " SOL to "; PStr toPublicKey;
           PStr " from Public Key: ";
           PStr (toBase58 web3 (kp_publicKey keypair))]
     :: evs2 ++ [report]) /\
    (forall signature,
       o2 = Returned signature ->
       report = ELog [PStr "Transfer successful. Transaction Signature: ";
                      PStr signature]) /\
    (forall e,
       o2 = Thrown e ->
       report = EError [PStr "Transfer failed:"; PErr e]).
Proof.
  intros Hto Hamount Hload Hsend. unfold send_sol_action.
  rewrite Hto. cbn [orb]. unfold valid_amount in Hamount.
  apply negb_true_iff in Hamount. cbn [orb] in Hamount. rewrite Hamount.
  unfold bind at 1. rewrite Hload.
  unfold bind at 1, console_log at 1, emit at 1.
  unfold try_catch, bind. rewrite Hsend.
  pose proof (tame_sendSol keypair toPublicKey x w) as Htame.
  rewrite Hsend in Htame. destruct Htame as (_ & _ & _ & Hexit).
  destruct o2 as [signature|e|code]; [| |destruct (Hexit eq_refl code eq_refl)].
  - eexists. split; [reflexivity|].
    split; [intros s H; injection H as <-; reflexivity | discriminate].
  - eexists. split; [reflexivity|].
    split; [discriminate | intros e' H; injection H as <-; reflexivity].
Qed.

(** X9. Once the amount is valid and the keypair has loaded, the airdrop
    command prints the amount and the public key, runs
    [requestAirdropWithRetry] with the default five retries, and then prints
    either 'Airdrop requested. Transaction Signature: ' with the signature
    returned followed by 'Airdrop confirmed.', or 'Airdrop failed:' with the
    error thrown. *)
Theorem airdrop_action_output (x : float) (keypair : Keypair)
    (w w2 : World web3) (o2 : Outcome Signature) (evs2 : list (Event web3)) :
  valid_amount (Some x) = true ->
  loadKeypair web3 path_join dirname load_beyond w = (Returned keypair, w, []) ->
  requestAirdropWithRetry web3 (kp_publicKey keypair) x 5 w = (o2, w2, evs2) ->
  exists report,
    airdrop_action web3 path_join dirname load_beyond (Some x) w =
    (Returned tt, w2,
     ELog [PStr "Requesting airdrop of "; PNum x;
           PStr " SOL to Public Key: ";
           PStr (toBase58 web3 (kp_publicKey keypair))]
     :: evs2 ++ report) /\
    (forall signature,
       o2 = Returned signature ->
       report = [ELog [PStr "Airdrop requested. Transaction Signature: ";
                       PStr signature];
                 ELog [PStr "Airdrop confirmed."]]) /\
    (forall e,
       o2 = Thrown e ->
       report = [EError [PStr "Airdrop failed:"; PErr e]]).
Proof.
  intros Hamount Hload Hrun. unfold airdrop_action.
  unfold valid_amount in Hamount. apply negb_true_iff in Hamount.
  rewrite Hamount. unfold bind at 1. rewrite Hload.
  unfold bind at 1, console_log at 1, emit at 1.
  unfold try_catch, bind.
  change default_maxRetries with 5%nat. rewrite Hrun.
  pose proof (tame_requestAirdropWithRetry (kp_publicKey keypair) x 5 w)
    as Htame.
  rewrite Hrun in Htame. destruct Htame as (_ & _ & _ & Hexit).
  destruct o2 as [signature|e|code]; [| |destruct (Hexit eq_refl code eq_refl)].
  - eexists. split; [reflexivity|].
    split; [intros s H; injection H as <-; reflexivity | discriminate].
  - eexists. split; [reflexivity|].
    split; [discriminate | intros e' H; injection H as <-; reflexivity].
Qed.

(** X10. Once the keypair has loaded, the balance command makes one request,
    for the balance of the public key, and prints the answer divided by
    [LAMPORTS_PER_SOL], or 'Failed to get balance:' with the error; it
    returns in both cases. *)
Theorem balance_action_output (keypair : Keypair) (w : World web3)
    (r : Result float) (n1 : Net web3) :
  loadKeypair web3 path_join dirname load_beyond w = (Returned keypair, w, []) ->
  connection_getBalance web3 (kp_publicKey keypair) (w_net w) = (r, n1) ->
  balance_action web3 path_join dirname load_beyond w =
  (Returned tt, mkWorld (w_fs w) n1 (w_entropy w),
   [ERpc (GetBalance (kp_publicKey keypair));
    match r with
    | Ok balance =>
        ELog [PStr "Balance of Public Key ";
              PStr (toBase58 web3 (kp_publicKey keypair)); PStr ": ";
              PNum (PrimFloat.div balance LAMPORTS_PER_SOL); PStr " SOL"]
    | Err e => EError [PStr "Failed to get balance:"; PErr e]
    end]).
Proof.
  intros Hload Hbalance. unfold balance_action. unfold bind at 1.
  rewrite Hload. unfold try_catch, getBalance, bind, await_rpc.
  rewrite Hbalance. destruct r as [balance|e]; reflexivity.
Qed.

End Frames.


(** ** Transfers *)

Section TransferFacts.

Context (web3 : Web3).
Context (path_join : string -> string -> string) (dirname : string).
Context (load_beyond : string -> Result Keypair).

Implicit Types (w : World web3) (fromKeypair : Keypair).

(** X11. When the balance covers the amount and every step succeeds,
    [sendSol] makes four requests in this order: the balance, the latest
    blockhash, the transaction and its confirmation at 'confirmed'.  The
    transaction sent is the one signed by the sender, with the sender as fee
    payer, the blockhash just received and the single transfer instruction
    for [amountInSol * LAMPORTS_PER_SOL]; the signature returned is the one
    the endpoint gave for it.  The transaction is constructed before the
    balance is asked for, the instruction is added after the balance and
    the signing comes after the blockhash. *)
Theorem sendSol_success fromKeypair (toPublicKey : string)
    (amountInSol balance : float) (instruction : Instruction web3)
    (blockhash : Blockhash) (signed : Transaction (Instruction web3))
    (sig : Signature) (n1 n2 n3 n4 : Net web3) w :
  let sender := kp_publicKey fromKeypair in
  let lamports := PrimFloat.mul amountInSol LAMPORTS_PER_SOL in
  connection_getBalance web3 sender (w_net w) = (Ok balance, n1) ->
  PrimFloat.ltb balance lamports = false ->
  SystemProgram_transfer web3 sender toPublicKey lamports = Ok instruction ->
  connection_getLatestBlockhash web3 n1 = (Ok blockhash, n2) ->
  Transaction_sign web3
    (mkTransaction [instruction] (Some blockhash) (Some sender) [])
    fromKeypair = Ok signed ->
  connection_sendTransaction web3 signed n2 = (Ok sig, n3) ->
  connection_confirmTransaction web3 sig n3 = (Ok tt, n4) ->
  sendSol web3 fromKeypair toPublicKey amountInSol w =
  (Returned sig, mkWorld (w_fs w) n4 (w_entropy w),
   [ETransaction NewTransaction;
    ERpc (GetBalance sender);
    ETransaction (TransactionAdd instruction);
    ERpc GetLatestBlockhash;
    ETransaction (TransactionSign sender);
    ERpc (SendTransaction signed [sender]);
    ERpc (ConfirmTransaction sig (Some "confirmed"))]).
Proof.
  cbv zeta. intros Hbalance Hcovers Htransfer Hblockhash Hsign Hsend Hconfirm.
  unfold sendSol, bind, await_rpc, lift, ret, emit. cbv zeta.
  rewrite Hbalance. cbn [w_fs w_net w_entropy]. rewrite Hcovers.
  cbn [w_fs w_net w_entropy app]. rewrite Htransfer.
  cbn [w_fs w_net w_entropy app tx_instructions tx_recentBlockhash
       tx_feePayer tx_signatures].
  rewrite Hblockhash. cbn [w_fs w_net w_entropy app].
  rewrite Hsign. cbn [w_fs w_net w_entropy app].
  rewrite Hsend. cbn [w_fs w_net w_entropy app].
  rewrite Hconfirm. reflexivity.
Qed.

(** X12. Whatever the endpoint and the library answer, [sendSol] makes at
    most four requests, the first of them for the balance, and it sends a
    transaction only after the balance it was told has covered the amount:
    the transaction sent is then the one signed by the sender, with the
    sender as fee payer, a blockhash the endpoint gave and the single
    transfer instruction for [amountInSol * LAMPORTS_PER_SOL].  When it
    returns a signature, that signature has been confirmed. *)
Theorem sendSol_sends_signed_transfer fromKeypair (toPublicKey : string)
    (amountInSol : float) w :
  let sender := kp_publicKey fromKeypair in
  let lamports := PrimFloat.mul amountInSol LAMPORTS_PER_SOL in
  let '(o, w', evs) := sendSol web3 fromKeypair toPublicKey amountInSol w in
  (exists rest, requests evs = GetBalance sender :: rest /\
                (length rest <= 3)%nat) /\
  (forall transaction signers,
     In (SendTransaction transaction signers) (requests evs) ->
     signers = [sender] /\
     exists balance n1 instruction blockhash n2,
       connection_getBalance web3 sender (w_net w) = (Ok balance, n1) /\
       PrimFloat.ltb balance lamports = false /\
       SystemProgram_transfer web3 sender toPublicKey lamports =
         Ok instruction /\
       connection_getLatestBlockhash web3 n1 = (Ok blockhash, n2) /\
       Transaction_sign web3
         (mkTransaction [instruction] (Some blockhash) (Some sender) [])
         fromKeypair = Ok transaction) /\
  (forall sig,
     o = Returned sig ->
     last (requests evs) = Some (ConfirmTransaction sig (Some "confirmed"))).
Proof.
  cbv zeta. unfold sendSol, bind, await_rpc, lift, ret, throw, emit.
  cbv zeta. cbn [w_fs w_net w_entropy app].
  destruct (connection_getBalance web3 (kp_publicKey fromKeypair) (w_net w))
    as [[balance|e] n1] eqn:Hbalance; cbn [w_fs w_net w_entropy app];
    [|cbn; split; [|split]; [eexists; split; [reflexivity|cbn; lia]
                          | intros ? ? [H|[]]; discriminate H
                          | discriminate]].
  destruct (PrimFloat.ltb balance
              (PrimFloat.mul amountInSol LAMPORTS_PER_SOL)) eqn:Hcovers;
    cbn [w_fs w_net w_entropy app];
    [cbn; split; [|split]; [eexists; split; [reflexivity|cbn; lia]
                         | intros ? ? [H|[]]; discriminate H
                         | discriminate]|].
  destruct (SystemProgram_transfer web3 (kp_publicKey fromKeypair) toPublicKey
              (PrimFloat.mul amountInSol LAMPORTS_PER_SOL))
    as [instruction|e] eqn:Htransfer;
    cbn [w_fs w_net w_entropy app tx_instructions tx_recentBlockhash
         tx_feePayer tx_signatures];
    [|cbn; split; [|split]; [eexists; split; [reflexivity|cbn; lia]
                          | intros ? ? [H|[]]; discriminate H
                          | discriminate]].
  destruct (connection_getLatestBlockhash web3 n1)
    as [[blockhash|e] n2] eqn:Hblockhash; cbn [w_fs w_net w_entropy app];
    [|cbn; split; [|split]; [eexists; split; [reflexivity|cbn; lia]
                          | intros ? ? [H|[H|[]]]; discriminate H
                          | discriminate]].
  destruct (Transaction_sign web3 _ fromKeypair) as [signed|e] eqn:Hsign;
    cbn [w_fs w_net w_entropy app];
    [|cbn; split; [|split]; [eexists; split; [reflexivity|cbn; lia]
                          | intros ? ? [H|[H|[]]]; discriminate H
                          | discriminate]].
  assert (Hsent : forall transaction signers,
             SendTransaction signed [kp_publicKey fromKeypair] =
             SendTransaction transaction signers ->
             signers = [kp_publicKey fromKeypair] /\
             exists balance n1 instruction blockhash n2,
               connection_getBalance web3 (kp_publicKey fromKeypair) (w_net w) =
                 (Ok balance, n1) /\
               PrimFloat.ltb balance
                 (PrimFloat.mul amountInSol LAMPORTS_PER_SOL) = false /\
               SystemProgram_transfer web3 (kp_publicKey fromKeypair)
                 toPublicKey (PrimFloat.mul amountInSol LAMPORTS_PER_SOL) =
                 Ok instruction /\
               connection_getLatestBlockhash web3 n1 = (Ok blockhash, n2) /\
               Transaction_sign web3
                 (mkTransaction [instruction] (Some blockhash)
                    (Some (kp_publicKey fromKeypair)) [])
                 fromKeypair = Ok transaction).
  { intros transaction signers H. injection H as <- <-.
    split; [reflexivity|]. exists balance, n1, instruction, blockhash, n2.
    auto. }
  rewrite Hbalance, Htransfer in Hsent.
  destruct (connection_sendTransaction web3 signed n2)
    as [[sig|e] n3] eqn:Hsend; cbn [w_fs w_net w_entropy app];
    [|cbn; split; [|split]; [eexists; split; [reflexivity|cbn; lia]
                          | intros ? ? [H|[H|[H|[]]]];
                            [discriminate H | discriminate H | exact (Hsent _ _ H)]
                          | discriminate]].
  destruct (connection_confirmTransaction web3 sig n3)
    as [[[]|e] n4] eqn:Hconfirm; cbn.
  - split; [|split]; [eexists; split; [reflexivity|cbn; lia] | |].
    + intros ? ? [H|[H|[H|[H|[]]]]];
        [discriminate H | discriminate H | exact (Hsent _ _ H) | discriminate H].
    + intros sig' H. injection H as <-. reflexivity.
  - split; [|split]; [eexists; split; [reflexivity|cbn; lia] | | discriminate].
    intros ? ? [H|[H|[H|[H|[]]]]];
      [discriminate H | discriminate H | exact (Hsent _ _ H) | discriminate H].
Qed.

End TransferFacts.


(** ** The history and the keypair file *)

Section HistoryFacts.

Context (web3 : Web3).
Context (path_join : string -> string -> string) (dirname : string).
Context (load_beyond : string -> Result Keypair).

Lemma print_history_lines (transactions : list (TransactionRecord web3)) :
  forall index (w : World web3),
    print_history web3 index transactions w =
    (Returned tt, w,
     flat_map (fun '(i, tx) => history_lines i tx)
              (combine (seq index (length transactions)) transactions)).
Proof.
  induction transactions as [|tx transactions IH]; intros index w.
  - reflexivity.
  - cbn [print_history]. unfold bind, console_log, emit.
    rewrite (IH (S index) w). reflexivity.
Qed.

(** X14. [getTransactionHistory] asks for the list of signatures once and
    then fetches every listed transaction, in the order of the list and
    whether or not an earlier fetch has failed; when the list cannot be had,
    it throws that error after the one request; with an empty list it
    returns the empty history. *)
Theorem getTransactionHistory_requests (publicKey : PublicKey)
    (w : World web3) :
  let '(o, w', evs) := getTransactionHistory web3 publicKey w in
  match connection_getConfirmedSignaturesForAddress2 web3 publicKey 10
          (w_net w) with
  | (Ok entries, _) =>
      requests evs =
        GetConfirmedSignaturesForAddress2 publicKey 10
        :: map (fun entry => GetConfirmedTransaction (si_signature entry))
               entries /\
      (entries = [] -> o = Returned [])
  | (Err e, n1) =>
      o = Thrown e /\ w' = mkWorld (w_fs w) n1 (w_entropy w) /\
      requests evs = [GetConfirmedSignaturesForAddress2 publicKey 10]
  end.
Proof.
  unfold getTransactionHistory, bind, await_rpc, history_limit.
  destruct (connection_getConfirmedSignaturesForAddress2 web3 publicKey 10
              (w_net w)) as [[entries|e] n1].
  - destruct (Promise_all_history_entries web3 entries
                (mkWorld (w_fs w) n1 (w_entropy w))) as (n' & Hall).
    rewrite Hall. cbv zeta.
    assert (Hreq : requests
              (map (fun entry =>
                      @ERpc web3 (GetConfirmedTransaction (si_signature entry)))
                   entries) =
              map (fun entry => GetConfirmedTransaction (si_signature entry))
                  entries).
    { clear. induction entries as [|entry entries IH];
        cbn; [reflexivity|]. rewrite IH. reflexivity. }
    destruct (rejected _) as [|e es] eqn:Hrej; cbn.
    + rewrite app_nil_r, Hreq. split; [reflexivity|].
      intros ->. reflexivity.
    + rewrite Hreq. split; [reflexivity|].
      intros ->. discriminate Hrej.
  - cbn. auto.
Qed.

(** X15. Once the keypair has loaded and the history has been fetched, the
    history command prints a heading with the public key and then four lines
    for each transaction, in order and numbered from 1: its signature, its
    slot, its block time and 'Failed' or 'Success' according to
    [status.err]. *)
Theorem history_action_output (keypair : Keypair) (w w2 : World web3)
    (transactions : list (TransactionRecord web3))
    (evs2 : list (Event web3)) :
  loadKeypair web3 path_join dirname load_beyond w = (Returned keypair, w, []) ->
  getTransactionHistory web3 (kp_publicKey keypair) w =
    (Returned transactions, w2, evs2) ->
  history_action web3 path_join dirname load_beyond w =
  (Returned tt, w2,
   evs2 ++
   ELog [PStr "Transaction history for Public Key ";
         PStr (toBase58 web3 (kp_publicKey keypair)); PStr ":"]
   :: flat_map (fun '(i, tx) => history_lines i tx)
               (combine (seq 0 (length transactions)) transactions)).
Proof.
  intros Hload Hhistory. unfold history_action. unfold bind at 1.
  rewrite Hload. unfold try_catch, bind at 1. rewrite Hhistory.
  unfold bind, console_log, emit. rewrite print_history_lines.
  reflexivity.
Qed.

(** X16. The generate-keypair command writes one file, the keypair file,
    with the JSON text of the public key in base58 and of the bytes of the
    secret key, whatever was there before; every other file keeps its
    content; it makes no request on the network; and it prints the two
    values it has stored. *)
Theorem generate_keypair_action_writes (w : World web3) (keypair : Keypair)
    (entropy : Entropy web3) :
  Keypair_generate web3 (w_entropy w) = (keypair, entropy) ->
  let keypairData :=
    mkKeypairData (toBase58 web3 (kp_publicKey keypair))
                  (Array_from (kp_secretKey keypair)) in
  let text := JSON_stringify (json_of_keypairData keypairData) in
  exists w',
    generate_keypair_action web3 path_join dirname w =
    (Returned tt, w',
     [EWriteFile (KEYPAIR_FILE path_join dirname) text;
      ELog [PStr "Public Key:"; PStr (publicKey keypairData)];
      ELog [PStr "Secret Key:"; PBytes (secretKey keypairData)]]) /\
    w_fs w' !! KEYPAIR_FILE path_join dirname = Some text /\
    (forall path, path <> KEYPAIR_FILE path_join dirname ->
                  w_fs w' !! path = w_fs w !! path) /\
    w_net w' = w_net w /\ w_entropy w' = entropy.
Proof.
  intros Hgen. cbv zeta.
  unfold generate_keypair_action, generateKeypair, bind at 1, bind at 1,
    generate.
  rewrite Hgen. unfold bind, fs_writeFileSync, ret, console_log, emit.
  cbn [w_fs w_net w_entropy app publicKey secretKey].
  eexists. split; [reflexivity|]. cbn [w_fs w_net w_entropy].
  split; [apply lookup_insert_eq|].
  split; [intros path Hpath; apply lookup_insert_ne; congruence|].
  split; reflexivity.
Qed.

(** X17. [loadKeypair] reads the secret key only: a keypair file written
    with any public key string (without quote, backslash or control
    character) and given secret key bytes loads as whatever
    [Keypair.fromSecretKey] makes of those bytes, so a [publicKey] entry
    that does not belong to the secret key goes unnoticed. *)
Theorem loadKeypair_reads_secretKey_only (w : World web3)
    (anyPublicKey : string) (bytes : list byte) :
  plain anyPublicKey = true ->
  w_fs w !! KEYPAIR_FILE path_join dirname =
    Some (JSON_stringify
            (json_of_keypairData
               (mkKeypairData anyPublicKey (Array_from bytes)))) ->
  loadKeypair web3 path_join dirname load_beyond w =
  (match Keypair_fromSecretKey web3 bytes with
   | Ok keypair => Returned keypair
   | Err e => Thrown e
   end, w, []).
Proof.
  intros Hplain Hfile.
  rewrite (loadKeypair_reads web3 path_join dirname load_beyond w _ Hfile).
  rewrite (secretKey_numbers_stringify _ _ Hplain).
  rewrite Uint8Array_from_Array_from. reflexivity.
Qed.

End HistoryFacts.


(** ** The classification of failures *)

Section Classification.

Context (web3 : Web3).

#[local] Arguments String.append !_ _ : simpl nomatch.

Lemma prefix_spec (needle : string) :
  forall s, String.prefix needle s = true <-> exists post, s = needle +:+ post.
Proof.
  induction needle as [|a needle IH]; intros s.
  - split; [intros _; exists s; reflexivity | intros _; destruct s; reflexivity].
  - destruct s as [|b s]; cbn.
    + split; [discriminate | intros [post H]; discriminate H].
    + destruct (ascii_dec a b) as [->|Hne].
      * rewrite IH. split; intros [post H]; exists post.
        -- rewrite H. reflexivity.
        -- injection H as H. exact H.
      * split; [discriminate|]. intros [post H]. injection H as H _.
        congruence.
Qed.

Lemma includes_spec (needle : string) :
  forall s,
    includes needle s = true <->
    exists pre post, s = pre +:+ needle +:+ post.
Proof.
  induction s as [|c s IH]; cbn [includes].
  - rewrite orb_false_r, prefix_spec. split.
    + intros [post H]. exists "", post. exact H.
    + intros (pre & post & H). destruct pre as [|c pre]; [|discriminate H].
      exists post. exact H.
  - rewrite orb_true_iff, prefix_spec, IH. split.
    + intros [[post H]|(pre & post & H)].
      * exists "", post. exact H.
      * exists (String c pre), post. rewrite H. reflexivity.
    + intros (pre & post & H). destruct pre as [|c' pre].
      * left. exists post. exact H.
      * right. injection H as _ H. exists pre, post. exact H.
Qed.

(** The requester's test of a failure: its message contains '429'. *)
Lemma rate_limited_iff (e : JsError) :
  rate_limited (@Err Signature e) = true <->
  exists pre post, message e = pre +:+ "429" +:+ post.
Proof. apply includes_spec. Qed.

(** X4. A failed attempt of [requestAirdropWithRetry] is followed by a delay,
    and so retried, exactly when the message of its error contains the three
    characters '429' somewhere, whatever stands before and after them;
    otherwise that error is thrown at once.  Nothing else of the error is
    looked at, so any message that happens to contain '429' counts as a rate
    limit.  (The attempt is number [K + 1], after [K] retried ones, with
    retries left.) *)
Theorem requestAirdropWithRetry_retries_iff (publicKey : PublicKey)
    (amountInSol : float) (maxRetries K : nat) (e : JsError)
    (w : World web3) :
  let lamports := PrimFloat.mul amountInSol LAMPORTS_PER_SOL in
  (K < maxRetries)%nat ->
  (forall i, (i < K)%nat ->
     rate_limited
       (nth_funding_response web3 publicKey lamports i (w_net w)) = true) ->
  nth_funding_response web3 publicKey lamports K (w_net w) = Err e ->
  let '(o, w', evs) :=
    requestAirdropWithRetry web3 publicKey amountInSol maxRetries w in
  ((exists pre post, message e = pre +:+ "429" +:+ post) <->
   (K < length (delays web3 evs))%nat) /\
  ((length (delays web3 evs) <= K)%nat ->
   o = Thrown e /\ attempts web3 evs = S K).
Proof.
  cbv zeta. intros HK Hlimited Hanswer. unfold requestAirdropWithRetry.
  pose proof (retry_loop_outcome web3 publicKey
                (PrimFloat.mul amountInSol LAMPORTS_PER_SOL) maxRetries 0 w)
    as Hout.
  cbv zeta.
  destruct (retry_loop web3 publicKey _ maxRetries 0 w) as [[o w'] evs].
  destruct Hout as (K' & HK' & Hlim' & Hdelays & Hend).
  rewrite Hdelays, length_map, length_seq. rewrite <- rate_limited_iff.
  assert (Hclass : rate_limited (@Err Signature e) = true -> (K < K')%nat).
  { intros Hretry.
    destruct (Nat.lt_ge_cases K K') as [Hlt|Hge]; [exact Hlt|].
    exfalso. destruct Hend as [(-> & _)|(Hlt & _ & Hstop)]; [lia|].
    assert (Hlast : rate_limited
              (nth_funding_response web3 publicKey
                 (PrimFloat.mul amountInSol LAMPORTS_PER_SOL) K' (w_net w)) =
              true).
    { destruct (Nat.eq_dec K' K) as [->|Hne];
        [rewrite Hanswer; exact Hretry | apply Hlimited; lia]. }
    destruct Hstop as [(sig & Hs & _)|(e' & He' & Hno & _)].
    - rewrite Hs in Hlast. discriminate Hlast.
    - rewrite He' in Hlast. cbn in Hlast. congruence. }
  split; [split; [exact Hclass|]|].
  - intros Hlt. specialize (Hlim' K Hlt). rewrite Hanswer in Hlim'.
    exact Hlim'.
  - intros Hle.
    assert (K' = K) as ->.
    { destruct (Nat.lt_ge_cases K' K) as [Hlt|Hge]; [|lia].
      exfalso. specialize (Hlimited K' Hlt).
      destruct Hend as [(-> & _)|(_ & _ & Hstop)]; [lia|].
      destruct Hstop as [(sig & Hs & _)|(e' & He' & Hno & _)].
      - rewrite Hs in Hlimited. discriminate Hlimited.
      - rewrite He' in Hlimited. cbn in Hlimited. congruence. }
    destruct Hend as [(-> & _)|(_ & Ha & Hstop)]; [lia|].
    split; [|exact Ha].
    destruct Hstop as [(sig & Hs & _)|(e' & He' & _ & ->)]; congruence.
Qed.

End Classification.

Lemma requestAirdropWithRetry_retries_iff_witness :
  let '(o, w', evs) :=
    requestAirdropWithRetry (recovering_web3 1) [] 1%float 5
      (recovering_world 1) in
  ((exists pre post, message too_many_requests = pre +:+ "429" +:+ post) <->
   (0 < length (delays (recovering_web3 1) evs))%nat) /\
  ((length (delays (recovering_web3 1) evs) <= 0)%nat ->
   o = Thrown too_many_requests /\
   attempts (recovering_web3 1) evs = 1%nat).
Proof.
  apply (requestAirdropWithRetry_retries_iff (recovering_web3 1) [] 1%float
           5 0 too_many_requests (recovering_world 1)).
  - lia.
  - intros i Hi. lia.
  - reflexivity.
Defined.

(** ** Transfers of the whole balance, and the first balance *)

Section MoreTransferFacts.

Context (web3 : Web3).
Context (path_join : string -> string -> string) (dirname : string).
Context (load_beyond : string -> Result Keypair).

Lemma ltb_irrefl (x : float) : PrimFloat.ltb x x = false.
Proof.
  rewrite FloatAxioms.ltb_spec. unfold SpecFloat.SFltb.
  destruct (FloatOps.Prim2SF x) as [[]|[]| |[] m e]; cbn;
    rewrite ?Z.compare_refl, ?Pos.compare_refl; reflexivity.
Qed.

(** X13. The check of [sendSol] is strict: when the balance the endpoint
    reports equals [amountInSol * LAMPORTS_PER_SOL], the transfer is not
    refused for insufficient funds; once [SystemProgram.transfer] has built
    the instruction, the next request is for the latest blockhash.  (No fee
    is counted in the check.) *)
Theorem sendSol_whole_balance (fromKeypair : Keypair) (toPublicKey : string)
    (amountInSol : float) (instruction : Instruction web3) (n1 : Net web3)
    (w : World web3) :
  connection_getBalance web3 (kp_publicKey fromKeypair) (w_net w) =
    (Ok (PrimFloat.mul amountInSol LAMPORTS_PER_SOL), n1) ->
  SystemProgram_transfer web3 (kp_publicKey fromKeypair) toPublicKey
    (PrimFloat.mul amountInSol LAMPORTS_PER_SOL) = Ok instruction ->
  let '(o, w', evs) := sendSol web3 fromKeypair toPublicKey amountInSol w in
  exists rest,
    requests evs =
    GetBalance (kp_publicKey fromKeypair) :: GetLatestBlockhash :: rest.
Proof.
  intros Hbalance Htransfer.
  unfold sendSol, bind, await_rpc, lift, ret, throw, emit. cbv zeta.
  cbn [w_fs w_net w_entropy app].
  rewrite Hbalance. cbn [w_fs w_net w_entropy app]. rewrite ltb_irrefl.
  cbn [w_fs w_net w_entropy app]. rewrite Htransfer.
  cbn [w_fs w_net w_entropy app tx_instructions tx_recentBlockhash
       tx_feePayer tx_signatures].
  destruct (connection_getLatestBlockhash web3 n1) as [[blockhash|e] n2];
    cbn [w_fs w_net w_entropy app]; [|cbn; eauto].
  destruct (Transaction_sign web3 _ fromKeypair) as [signed|e];
    cbn [w_fs w_net w_entropy app]; [|cbn; eauto].
  destruct (connection_sendTransaction web3 signed n2) as [[sig|e] n3];
    cbn [w_fs w_net w_entropy app]; [|cbn; eauto].
  destruct (connection_confirmTransaction web3 sig n3) as [[[]|e] n4];
    cbn; eauto.
Qed.

(** X18. After the generate-keypair command, the balance command finds the
    keypair and asks for the balance of the public key that was generated:
    it makes that one request and prints the answer or the error.  The
    library is asked, as for the round trip, that [Keypair.fromSecretKey]
    rebuilds the generated keypair and that [toBase58] writes base58. *)
Theorem generate_then_balance (w : World web3) (keypair : Keypair)
    (entropy : Entropy web3) (r : Result float) (n1 : Net web3) :
  Keypair_generate web3 (w_entropy w) = (keypair, entropy) ->
  Keypair_fromSecretKey web3 (kp_secretKey keypair) = Ok keypair ->
  base58_string (toBase58 web3 (kp_publicKey keypair)) = true ->
  connection_getBalance web3 (kp_publicKey keypair) (w_net w) = (r, n1) ->
  exists w1 evs1,
    run web3 path_join dirname load_beyond GenerateKeypair w = (Returned tt, w1, evs1) /\
    run web3 path_join dirname load_beyond Balance w1 =
    (Returned tt, mkWorld (w_fs w1) n1 entropy,
     [ERpc (GetBalance (kp_publicKey keypair));
      match r with
      | Ok balance =>
          ELog [PStr "Balance of Public Key ";
                PStr (toBase58 web3 (kp_publicKey keypair)); PStr ": ";
                PNum (PrimFloat.div balance LAMPORTS_PER_SOL); PStr " SOL"]
      | Err e => EError [PStr "Failed to get balance:"; PErr e]
      end]).
Proof.
  intros Hgen Hcontract Hbase58 Hbalance. cbn [run].
  set (keypairData := mkKeypairData (toBase58 web3 (kp_publicKey keypair))
                        (Array_from (kp_secretKey keypair))).
  set (text := JSON_stringify (json_of_keypairData keypairData)).
  exists (mkWorld (<[KEYPAIR_FILE path_join dirname := text]> (w_fs w)) (w_net w) entropy),
    [EWriteFile (KEYPAIR_FILE path_join dirname) text;
     ELog [PStr "Public Key:"; PStr (publicKey keypairData)];
     ELog [PStr "Secret Key:"; PBytes (secretKey keypairData)]].
  split.
  - unfold generate_keypair_action, generateKeypair, bind at 1, bind at 1,
      generate.
    rewrite Hgen. reflexivity.
  - unfold balance_action. unfold bind at 1.
    erewrite loadKeypair_reads by (cbn [w_fs]; apply lookup_insert_eq).
    subst text keypairData.
    rewrite (secretKey_numbers_stringify _ _ (base58_plain _ Hbase58)).
    rewrite Uint8Array_from_Array_from, Hcontract.
    unfold try_catch, getBalance, bind, await_rpc. cbn [w_net w_fs w_entropy].
    rewrite Hbalance. destruct r as [balance|e]; reflexivity.
Qed.

End MoreTransferFacts.


(** ** Runs against the test doubles *)

Lemma loadKeypair_keypair_files (web3 : Web3) (w : World web3) :
  w_fs w = keypair_files ->
  Keypair_fromSecretKey web3 (repeat x00 64) = Ok first_keypair ->
  loadKeypair web3 double_join double_dirname no_beyond w = (Returned first_keypair, w, []).
Proof.
  intros Hfs Hkey.
  assert (Hfile : w_fs w !! KEYPAIR_FILE double_join double_dirname =
                  Some first_keypair_text)
    by (rewrite Hfs; apply lookup_singleton_eq).
  rewrite (loadKeypair_reads web3 double_join double_dirname no_beyond w _ Hfile).
  unfold first_keypair_text.
  assert (Hplain : plain (double_toBase58 (repeat x00 32)) = true)
    by reflexivity.
  rewrite (secretKey_numbers_stringify _ _ Hplain).
  rewrite Uint8Array_from_Array_from, Hkey. reflexivity.
Qed.

Lemma only_generate_keypair_writes_witness :
  let '(o, w', evs) :=
    run funded_web3 double_join double_dirname no_beyond (SendSol (Some "9xQe") (Some 1%float))
        funded_world in
  w_fs w' = w_fs funded_world /\ w_entropy w' = w_entropy funded_world /\
  existsb is_write evs = false.
Proof.
  apply (only_generate_keypair_writes funded_web3 double_join double_dirname no_beyond
           (SendSol (Some "9xQe") (Some 1%float)) funded_world).
  reflexivity.
Defined.

Lemma command_returns_after_load_witness :
  exists w' evs,
    run limited_web3 double_join double_dirname no_beyond (Airdrop (Some 1%float))
        (loaded_world always_limited 0%float []) =
    (Returned tt, w', evs).
Proof.
  apply (command_returns_after_load limited_web3 double_join double_dirname no_beyond
           (Airdrop (Some 1%float)) first_keypair
           (loaded_world always_limited 0%float [])).
  - reflexivity.
  - reflexivity.
  - apply loadKeypair_keypair_files; reflexivity.
Defined.

Lemma sendSol_success_witness :
  sendSol funded_web3 first_keypair "9xQe" 1%float funded_world =
  (Returned "transfer",
   @mkWorld funded_web3 (w_fs funded_world) 0%nat (w_entropy funded_world),
   [ETransaction NewTransaction;
    ERpc (GetBalance (repeat x00 32));
    ETransaction
      (@TransactionAdd funded_web3
         (repeat x00 32, "9xQe", 1000000000%float));
    ERpc GetLatestBlockhash;
    ETransaction (TransactionSign (repeat x00 32));
    ERpc (@SendTransaction funded_web3 signed_transfer [repeat x00 32]);
    ERpc (ConfirmTransaction "transfer" (Some "confirmed"))]).
Proof.
  apply (sendSol_success funded_web3 first_keypair "9xQe" 1%float
           2000000000%float (repeat x00 32, "9xQe", 1000000000%float)
           "blockhash" signed_transfer "transfer" 0%nat 0%nat 0%nat 0%nat funded_world);
    reflexivity.
Defined.

Lemma send_sol_action_output_witness :
  exists report,
    send_sol_action funded_web3 double_join double_dirname no_beyond (Some "9xQe")
      (Some 1%float) funded_world =
    (Returned tt, funded_world,
     ELog [PStr "Sending "; PNum 1%float; PStr " SOL to "; PStr "9xQe";
           PStr " from Public Key: ";
           PStr (double_toBase58 (repeat x00 32))]
     :: [ETransaction NewTransaction;
         ERpc (GetBalance (repeat x00 32));
         ETransaction
           (@TransactionAdd funded_web3
              (repeat x00 32, "9xQe", 1000000000%float));
         ERpc GetLatestBlockhash;
         ETransaction (TransactionSign (repeat x00 32));
         ERpc (@SendTransaction funded_web3 signed_transfer
                 [repeat x00 32]);
         ERpc (ConfirmTransaction "transfer" (Some "confirmed"))]
        ++ [report]) /\
    (forall signature,
       @Returned Signature "transfer" = Returned signature ->
       report = ELog [PStr "Transfer successful. Transaction Signature: ";
                      PStr signature]) /\
    (forall e,
       @Returned Signature "transfer" = Thrown e ->
       report = EError [PStr "Transfer failed:"; PErr e]).
Proof.
  apply (send_sol_action_output funded_web3 double_join double_dirname no_beyond "9xQe"
           1%float first_keypair funded_world funded_world
           (Returned "transfer")).
  - reflexivity.
  - reflexivity.
  - apply loadKeypair_keypair_files; reflexivity.
  - reflexivity.
Defined.

Lemma airdrop_action_output_witness :
  exists report,
    airdrop_action funded_web3 double_join double_dirname no_beyond (Some 1%float)
      funded_world =
    (Returned tt,
     @mkWorld funded_web3 (w_fs funded_world) 1%nat (w_entropy funded_world),
     ELog [PStr "Requesting airdrop of "; PNum 1%float;
           PStr " SOL to Public Key: ";
           PStr (double_toBase58 (repeat x00 32))]
     :: [ERpc (RequestAirdrop (repeat x00 32) 1000000000%float);
         ERpc (ConfirmTransaction "5vGk" None)] ++ report) /\
    (forall signature,
       @Returned Signature "5vGk" = Returned signature ->
       report = [ELog [PStr "Airdrop requested. Transaction Signature: ";
                       PStr signature];
                 ELog [PStr "Airdrop confirmed."]]) /\
    (forall e,
       @Returned Signature "5vGk" = Thrown e ->
       report = [EError [PStr "Airdrop failed:"; PErr e]]).
Proof.
  apply (airdrop_action_output funded_web3 double_join double_dirname no_beyond 1%float
           first_keypair funded_world
           (@mkWorld funded_web3 (w_fs funded_world) 1%nat
              (w_entropy funded_world))
           (Returned "5vGk")).
  - reflexivity.
  - apply loadKeypair_keypair_files; reflexivity.
  - reflexivity.
Defined.

Lemma balance_action_output_witness :
  balance_action funded_web3 double_join double_dirname no_beyond funded_world =
  (Returned tt,
   @mkWorld funded_web3 (w_fs funded_world) 0%nat (w_entropy funded_world),
   [ERpc (GetBalance (repeat x00 32));
    ELog [PStr "Balance of Public Key ";
          PStr (double_toBase58 (repeat x00 32)); PStr ": ";
          PNum (PrimFloat.div 2000000000%float LAMPORTS_PER_SOL);
          PStr " SOL"]]).
Proof.
  apply (balance_action_output funded_web3 double_join double_dirname no_beyond
           first_keypair funded_world (Ok 2000000000%float) 0%nat).
  - apply loadKeypair_keypair_files; reflexivity.
  - reflexivity.
Defined.

Lemma sendSol_whole_balance_witness :
  let '(o, w', evs) :=
    sendSol one_sol_web3 first_keypair "9xQe" 1%float one_sol_world in
  exists rest,
    requests evs = GetBalance (repeat x00 32) :: GetLatestBlockhash :: rest.
Proof.
  apply (sendSol_whole_balance one_sol_web3 first_keypair "9xQe" 1%float
           (repeat x00 32, "9xQe", 1000000000%float) 0%nat one_sol_world);
    reflexivity.
Defined.

Lemma history_action_output_witness :
  history_action history_web3 double_join double_dirname no_beyond history_loaded_world =
  (Returned tt, history_loaded_world,
   (ERpc (GetConfirmedSignaturesForAddress2 (repeat x00 32) 10)
    :: map (fun i => ERpc (GetConfirmedTransaction (pretty i))) (seq 0 10)) ++
   ELog [PStr "Transaction history for Public Key ";
         PStr (double_toBase58 (repeat x00 32)); PStr ":"]
   :: flat_map (fun '(i, tx) => history_lines i tx)
               (combine (seq 0 (length ten_records)) ten_records)).
Proof.
  apply (history_action_output history_web3 double_join double_dirname no_beyond
           first_keypair history_loaded_world history_loaded_world
           ten_records).
  - apply loadKeypair_keypair_files; reflexivity.
  - reflexivity.
Defined.

Lemma generate_keypair_action_writes_witness :
  exists w',
    generate_keypair_action limited_web3 double_join double_dirname limited_world =
    (Returned tt, w',
     [EWriteFile (KEYPAIR_FILE double_join double_dirname)
        (JSON_stringify
           (json_of_keypairData
              (mkKeypairData (double_toBase58 (repeat x00 32))
                             (Array_from (repeat x00 64)))));
      ELog [PStr "Public Key:"; PStr (double_toBase58 (repeat x00 32))];
      ELog [PStr "Secret Key:"; PBytes (Array_from (repeat x00 64))]]) /\
    w_fs w' !! KEYPAIR_FILE double_join double_dirname =
      Some (JSON_stringify
              (json_of_keypairData
                 (mkKeypairData (double_toBase58 (repeat x00 32))
                                (Array_from (repeat x00 64))))) /\
    (forall path, path <> KEYPAIR_FILE double_join double_dirname ->
                  w_fs w' !! path = w_fs limited_world !! path) /\
    w_net w' = w_net limited_world /\ w_entropy w' = 1%nat.
Proof.
  apply (generate_keypair_action_writes limited_web3 double_join double_dirname
           limited_world first_keypair 1%nat).
  reflexivity.
Defined.

Lemma loadKeypair_reads_secretKey_only_witness :
  loadKeypair funded_web3 double_join double_dirname no_beyond mismatched_world =
  (Returned first_keypair, mismatched_world, []).
Proof.
  apply (loadKeypair_reads_secretKey_only funded_web3 double_join double_dirname no_beyond
           mismatched_world "SomebodyElse" (repeat x00 64)).
  - reflexivity.
  - apply lookup_singleton_eq.
Defined.

Lemma generate_then_balance_witness :
  exists w1 evs1,
    run funded_web3 double_join double_dirname no_beyond GenerateKeypair
        (fresh_world (limited_then_granted 0) 2000000000%float []) =
      (Returned tt, w1, evs1) /\
    run funded_web3 double_join double_dirname no_beyond Balance w1 =
    (Returned tt, @mkWorld funded_web3 (w_fs w1) 0%nat 1%nat,
     [ERpc (GetBalance (repeat x00 32));
      ELog [PStr "Balance of Public Key ";
            PStr (double_toBase58 (repeat x00 32)); PStr ": ";
            PNum (PrimFloat.div 2000000000%float LAMPORTS_PER_SOL);
            PStr " SOL"]]).
Proof.
  apply (generate_then_balance funded_web3 double_join double_dirname no_beyond
           (fresh_world (limited_then_granted 0) 2000000000%float [])
           first_keypair 1%nat (Ok 2000000000%float) 0%nat);
    reflexivity.
Defined.

(** ** A listed transaction that the endpoint no longer has *)

Section MissingTransaction.

Context (web3 : Web3).
Context (path_join : string -> string -> string) (dirname : string).
Context (load_beyond : string -> Result Keypair).

Lemma console_rpc (calls : list (RpcCall web3)) :
  console (map ERpc calls) = [].
Proof. induction calls as [|call calls IH]; [reflexivity | exact IH]. Qed.

Lemma console_app (evs1 evs2 : list (Event web3)) :
  console (evs1 ++ evs2) = console evs1 ++ console evs2.
Proof.
  induction evs1 as [|ev evs1 IH]; [reflexivity|].
  destruct ev; cbn; rewrite ?IH; reflexivity.
Qed.

Lemma rejected_In {A} (rs : list (Result A)) (e : JsError) :
  In (Err e) rs -> In e (rejected rs).
Proof.
  induction rs as [|[a|e'] rs IH]; cbn; [tauto| |].
  - intros [H|H]; [discriminate H | exact (IH H)].
  - intros [H|H]; [left; congruence | right; exact (IH H)].
Qed.

Lemma settled_null (entry : SignatureInfo) (entries : list SignatureInfo) :
  In entry entries ->
  (forall n, (connection_getConfirmedTransaction web3 (si_signature entry) n).1
             = Ok None) ->
  forall n,
    In (Err (null_property_error "slot"))
       (map (settled_entry web3)
            (combine entries (fetch_answers web3 entries n))).
Proof.
  intros Hin Hnull.
  induction entries as [|entry' entries IH]; [destruct Hin|]; intros n.
  cbn [fetch_answers].
  destruct (connection_getConfirmedTransaction web3 (si_signature entry') n)
    as [r n1] eqn:Ha.
  cbn [combine map]. destruct Hin as [->|Hin].
  - left. specialize (Hnull n). rewrite Ha in Hnull. cbn in Hnull. subst r.
    reflexivity.
  - right. apply IH. exact Hin.
Qed.

(** X19. When the endpoint lists a transaction that it no longer has, so
    that [getConfirmedTransaction] answers [null] for it, the history
    command shows no history at all: after the requests, all of which are
    made, it prints one line, 'Failed to get transaction history:' with an
    error, and returns.  The error is one of the failures of the fetches,
    among which is the TypeError of reading [slot] of [null]: the one that
    came first in time. *)
Theorem history_action_missing_transaction (keypair : Keypair)
    (w : World web3) (entries : list SignatureInfo) (n1 : Net web3)
    (entry : SignatureInfo) :
  loadKeypair web3 path_join dirname load_beyond w =
    (Returned keypair, w, []) ->
  connection_getConfirmedSignaturesForAddress2 web3 (kp_publicKey keypair)
    history_limit (w_net w) = (Ok entries, n1) ->
  In entry entries ->
  (forall n, (connection_getConfirmedTransaction web3 (si_signature entry) n).1
             = Ok None) ->
  let failures :=
    rejected (map (settled_entry web3)
                  (combine entries (fetch_answers web3 entries n1))) in
  let '(o, w', evs) := history_action web3 path_join dirname load_beyond w in
  exists e,
    o = Returned tt /\
    console evs = [[PStr "Failed to get transaction history:"; PErr e]] /\
    requests evs =
      GetConfirmedSignaturesForAddress2 (kp_publicKey keypair) history_limit
      :: map (fun entry => GetConfirmedTransaction (si_signature entry))
             entries /\
    In (null_property_error "slot") failures /\
    In e failures /\
    ((rejects_first web3 failures < length failures)%nat ->
     nth_error failures (rejects_first web3 failures) = Some e).
Proof.
  intros Hload Hlist Hin Hnull. cbv zeta.
  unfold history_action. unfold bind at 1. rewrite Hload.
  unfold try_catch, getTransactionHistory, bind, await_rpc.
  rewrite Hlist.
  destruct (Promise_all_history_entries web3 entries
              (mkWorld (w_fs w) n1 (w_entropy w))) as (n' & Hall).
  rewrite Hall. cbv zeta. cbn [w_net].
  pose proof (rejected_In _ _ (settled_null entry entries Hin Hnull n1))
    as Hslot.
  destruct (rejected _) as [|e0 es]; [destruct Hslot|].
  assert (Hchosen : In (nth (rejects_first web3 (e0 :: es)) (e0 :: es) e0)
                       (e0 :: es)).
  { destruct (Nat.lt_ge_cases (rejects_first web3 (e0 :: es))
                (length (e0 :: es))) as [Hlt|Hge].
    - apply nth_In. exact Hlt.
    - rewrite nth_overflow by exact Hge. left. reflexivity. }
  assert (Hfirst : (rejects_first web3 (e0 :: es) < length (e0 :: es))%nat ->
                   nth_error (e0 :: es) (rejects_first web3 (e0 :: es)) =
                   Some (nth (rejects_first web3 (e0 :: es)) (e0 :: es) e0)).
  { intros Hlt. apply nth_error_nth'. exact Hlt. }
  revert Hchosen Hfirst.
  generalize (nth (rejects_first web3 (e0 :: es)) (e0 :: es) e0).
  intros e Hchosen Hfirst.
  cbn -[In nth_error length]. exists e.
  split; [reflexivity|]. split; [|split; [|split; [|split]]].
  - rewrite console_app.
    rewrite <- (map_map (fun entry => GetConfirmedTransaction
                                        (si_signature entry)) ERpc).
    rewrite console_rpc. reflexivity.
  - f_equal. rewrite requests_app. cbn. rewrite app_nil_r.
    clear. induction entries as [|entry entries IH]; cbn;
      [reflexivity | rewrite IH; reflexivity].
  - exact Hslot.
  - exact Hchosen.
  - exact Hfirst.
Qed.

End MissingTransaction.

Lemma history_action_missing_transaction_witness :
  let failures :=
    rejected (map (settled_entry racing_web3)
                  (combine [mkSignatureInfo "aaa" 7%float;
                            mkSignatureInfo "bbb" 7%float]
                     (fetch_answers racing_web3
                        [mkSignatureInfo "aaa" 7%float;
                         mkSignatureInfo "bbb" 7%float] 0%nat))) in
  let '(o, w', evs) :=
    history_action racing_web3 double_join double_dirname no_beyond
      racing_world in
  exists e,
    o = Returned tt /\
    console evs = [[PStr "Failed to get transaction history:"; PErr e]] /\
    requests evs =
      GetConfirmedSignaturesForAddress2 (kp_publicKey first_keypair)
        history_limit
      :: map (fun entry => GetConfirmedTransaction (si_signature entry))
             [mkSignatureInfo "aaa" 7%float; mkSignatureInfo "bbb" 7%float] /\
    In (null_property_error "slot") failures /\
    In e failures /\
    ((rejects_first racing_web3 failures < length failures)%nat ->
     nth_error failures (rejects_first racing_web3 failures) = Some e).
Proof.
  apply (history_action_missing_transaction racing_web3 double_join
           double_dirname no_beyond first_keypair racing_world
           [mkSignatureInfo "aaa" 7%float; mkSignatureInfo "bbb" 7%float]
           0%nat (mkSignatureInfo "aaa" 7%float)).
  - apply loadKeypair_keypair_files; reflexivity.
  - reflexivity.
  - cbn. left. reflexivity.
  - reflexivity.
Defined.

(** The fetch of 'aaa' is answered [null] and the fetch of 'bbb' fails; the
    failure of 'bbb' comes first, and it is the one printed. *)
Example racing_run :
  console
    (history_action racing_web3 double_join double_dirname no_beyond
       racing_world).2 =
  [[PStr "Failed to get transaction history:";
    PErr (mkError "fetch failed")]].
Proof. vm_compute. reflexivity. Qed.
